(** * Repair-Data-Automation-System: the upload worker, the task manager
      and the bounded caches of [main.py], embedded in Rocq.

    A Python [str] is a sequence of Unicode code points, so it is modelled
    as a list of code points ([N]).  String literals of the source are
    written as UTF-8 literals and decoded once. *)

From Stdlib Require Import NArith ZArith Ascii String Floats Uint63.
From Stdlib Require Import Numbers.DecimalString.
From stdpp Require Import base option list gmap.

#[local] Set Warnings "-inexact-float".

Local Open Scope N_scope.
Local Open Scope list_scope.

(** ** Python strings *)

Abbreviation pystr := (list N).

Module Py.

(** Decoding of the UTF-8 bytes of a literal into code points. *)
Fixpoint utf8_decode (bs : list N) : pystr :=
  match bs with
  | [] => []
  | b0 :: r0 =>
    if b0 <? 128 then b0 :: utf8_decode r0
    else match r0 with
    | [] => []
    | b1 :: r1 =>
      if b0 <? 224 then ((b0 - 192) * 64 + (b1 - 128)) :: utf8_decode r1
      else match r1 with
      | [] => []
      | b2 :: r2 =>
        if b0 <? 240
        then ((b0 - 224) * 4096 + (b1 - 128) * 64 + (b2 - 128)) :: utf8_decode r2
        else match r2 with
        | [] => []
        | b3 :: r3 =>
          ((b0 - 240) * 262144 + (b1 - 128) * 4096 + (b2 - 128) * 64 + (b3 - 128))
            :: utf8_decode r3
        end
      end
    end
  end.

Definition bytes_of (s : string) : list N :=
  List.map N_of_ascii (list_ascii_of_string s).

(** [lit "..."] is the Python literal ['...']. *)
Definition lit (s : string) : pystr := utf8_decode (bytes_of s).

(** [str(n)] for a non-negative [int]. *)
Definition str_of_nat (n : nat) : pystr :=
  bytes_of (NilZero.string_of_uint (Nat.to_uint n)).

(** [c.isspace()]: the code points that [str.strip()] removes. *)
Definition isspace (c : N) : bool :=
  ((9 <=? c) && (c <=? 13)) || ((28 <=? c) && (c <=? 32))
  || (c =? 133) || (c =? 160) || (c =? 5760)
  || ((8192 <=? c) && (c <=? 8202))
  || (c =? 8232) || (c =? 8233) || (c =? 8239) || (c =? 8287) || (c =? 12288).

Fixpoint lstrip (s : pystr) : pystr :=
  match s with
  | [] => []
  | c :: r => if isspace c then lstrip r else s
  end.

Fixpoint rstrip (s : pystr) : pystr :=
  match s with
  | [] => []
  | c :: r =>
    match rstrip r with
    | [] => if isspace c then [] else [c]
    | r' => c :: r'
    end
  end.

(** [s.strip()] *)
Definition strip (s : pystr) : pystr := lstrip (rstrip s).

(** [not s] for a string: the empty string is falsy. *)
Definition is_empty (s : pystr) : bool :=
  match s with [] => true | _ => false end.

(** [a == b] on strings. *)
Definition eqb (a b : pystr) : bool := bool_decide (a = b).

(** [s.startswith(p)] *)
Fixpoint startswith (p s : pystr) : bool :=
  match p, s with
  | [], _ => true
  | _ :: _, [] => false
  | a :: p', b :: s' => (a =? b) && startswith p' s'
  end.

(** [s.endswith(p)] *)
Definition endswith (p s : pystr) : bool :=
  startswith (rev p) (rev s).

(** [sub in s] *)
Fixpoint contains (sub s : pystr) : bool :=
  startswith sub s ||
  match s with
  | [] => false
  | _ :: r => contains sub r
  end.

(** [s.split(sep)] for a non-empty [sep], scanning left to right for
    non-overlapping occurrences.  [skip] counts the characters of a
    matched separator still to be passed over.  The result is the first
    piece and the pieces after it: the list is never empty. *)
Fixpoint split_go (sep : pystr) (skip : nat) (s : pystr) : pystr * list pystr :=
  match s with
  | [] => ([], [])
  | c :: r =>
    match skip with
    | S k => split_go sep k r
    | O =>
      if startswith sep s
      then ([], let '(p, ps) := split_go sep (length sep - 1) r in p :: ps)
      else let '(p, ps) := split_go sep 0 r in (c :: p, ps)
    end
  end.

Definition split (sep s : pystr) : list pystr :=
  let '(p, ps) := split_go sep 0 s in p :: ps.

(** The cut at the first occurrence of [sep]: [s.split(sep, 1)] is
    [[a; b]] when [split_once sep s = Some (a, b)] and [[s]] when it is
    [None]. *)
Fixpoint split_once (sep s : pystr) : option (pystr * pystr) :=
  if startswith sep s then Some ([], drop (length sep) s)
  else match s with
  | [] => None
  | c :: r =>
    match split_once sep r with
    | Some (a, b) => Some (c :: a, b)
    | None => None
    end
  end.

Definition split_max1 (sep s : pystr) : list pystr :=
  match split_once sep s with
  | Some (a, b) => [a; b]
  | None => [s]
  end.

(** ASCII lower-casing; [str.lower()] agrees with it on strings whose only
    cased characters are ASCII letters. *)
Definition ascii_lower (s : pystr) : pystr :=
  List.map (fun c => if (65 <=? c) && (c <=? 90) then c + 32 else c) s.

End Py.

(** ** What the code takes from its runtime

    [str.lower()] is the Unicode lower-casing of the interpreter; the values
    decoded by [json.loads] are kept abstract, with their [str()] rendering
    and their [==] against a string; the path separators are those of
    [os.path] on the platform. *)

Class PyRuntime := {
  lower : pystr -> pystr;
  json : Type;
  json_none : json;
  json_str : json -> pystr;
  json_eq_str : json -> pystr -> bool;
  path_seps : list N
}.

(** The runtime used in the worked examples: ASCII lower-casing, JSON values
    that are strings, POSIX paths. *)
Definition ascii_runtime : PyRuntime := {|
  lower := Py.ascii_lower;
  json := pystr;
  json_none := Py.lit "None";
  json_str := fun v => v;
  json_eq_str := Py.eqb;
  path_seps := [47]
|}.

(** ** Literals of the source *)

Definition MARK : pystr := Eval vm_compute in Py.lit " // ".
Definition COMMA : pystr := Eval vm_compute in Py.lit ",".
Definition SUCCESS : pystr := Eval vm_compute in Py.lit "success".
Definition SUBMIT_FAILED : pystr := Eval vm_compute in Py.lit "提交失败".
Definition CONNECTION_FAILED : pystr := Eval vm_compute in Py.lit "连接失败".
Definition PRODUCT_NOT_FOUND : pystr := Eval vm_compute in Py.lit "未查找到产品FID".
Definition FORMAT_ERROR : pystr := Eval vm_compute in Py.lit "数据格式错误".
Definition NO_EDIT_PAGE : pystr := Eval vm_compute in Py.lit "无法访问编辑页面".
Definition UNKNOWN_PRODUCT : pystr := Eval vm_compute in Py.lit "未知产品".
Definition RECORD_PREFIX : pystr := Eval vm_compute in Py.lit "记录".
Definition FAIL : pystr := Eval vm_compute in Py.lit "fail".

(** ** UploadWorker.categorizeError *)

Definition connection_keywords : list pystr := Eval vm_compute in
  List.map Py.lit ["connection"; "connect"; "timeout"; "network"; "连接";
                   "login"; "登录"; "cookie"; "session"; "http"]%string.

Definition product_keywords : list pystr := Eval vm_compute in
  List.map Py.lit ["search"; "not found"; "no result"; "搜索"; "未找到";
                   "product"; "fid"; "serial"]%string.

Definition submit_keywords : list pystr := Eval vm_compute in
  List.map Py.lit ["submit"; "post"; "form"; "data"; "提交"; "数据"]%string.

(** [any(keyword in s for keyword in keywords)] *)
Definition any_keyword_in (keywords : list pystr) (s : pystr) : bool :=
  existsb (fun keyword => Py.contains keyword s) keywords.

Definition categorizeError `{PyRuntime} (error_msg : pystr) : pystr :=
  if Py.is_empty error_msg then SUBMIT_FAILED
  else
    let error_lower := lower error_msg in
    if any_keyword_in connection_keywords error_lower then CONNECTION_FAILED
    else if any_keyword_in product_keywords error_lower then PRODUCT_NOT_FOUND
    else if any_keyword_in submit_keywords error_lower then SUBMIT_FAILED
    else if (50 <? length error_msg)%nat then take 50 error_msg else error_msg.

(** ** UploadWorker.filterFailedRecords *)

(** One iteration of the loop: the lines it appends to [filtered_records].
    [line.split(' // ', 1)] is unpacked into two names under the guard
    [' // ' in line]; the third branch is the unpacking error, which the
    guard excludes (lemma [contains_split_once]). *)
Definition filter_line (line : pystr) : list pystr :=
  let line := Py.strip line in
  if Py.is_empty line then []
  else if Py.contains MARK line then
    match Py.split_max1 MARK line with
    | [original_line; status] =>
      let status := Py.strip status in
      if negb (Py.eqb status SUCCESS) then [Py.strip original_line] else []
    | _ => []
    end
  else [line].

Fixpoint filterFailedRecords (lines : list pystr) : list pystr :=
  match lines with
  | [] => []
  | line :: rest => filter_line line ++ filterFailedRecords rest
  end.

(** ** Insertion-ordered dictionaries

    A Python [dict] iterates in insertion order, and the caches rely on it:
    an association list, oldest key first, without duplicate keys. *)

Module Dict.

Definition t (V : Type) : Type := list (pystr * V).

Definition keys {V} (d : t V) : list pystr := d.*1.

(** [d[k]] under the guard [k in d]: [None] when the key is absent. *)
Fixpoint get {V} (k : pystr) (d : t V) : option V :=
  match d with
  | [] => None
  | (k', v) :: r => if Py.eqb k' k then Some v else get k r
  end.

(** [del d[k]] *)
Fixpoint del {V} (k : pystr) (d : t V) : t V :=
  match d with
  | [] => []
  | (k', v) :: r => if Py.eqb k' k then r else (k', v) :: del k r
  end.

(** [d[k] = v]: a present key keeps its position, a new key goes last. *)
Fixpoint set {V} (k : pystr) (v : V) (d : t V) : t V :=
  match d with
  | [] => [(k, v)]
  | (k', v') :: r => if Py.eqb k' k then (k', v) :: r else (k', v') :: set k v r
  end.

(** [next(iter(d))]: the oldest key; [None] stands for [StopIteration]. *)
Definition first_key {V} (d : t V) : option pystr :=
  match d with
  | [] => None
  | (k, _) :: _ => Some k
  end.

End Dict.

(** ** LowRiskOptimizedUploader *)

Definition max_cache_size : nat := 100.

(** The remote calls of a session, in the order they are made. *)
Inductive RemoteCall `{PyRuntime} : Type :=
| GetLanding
| PostLogin
| GetSystemPage
| Search (productFID : pystr)
| FetchEditPage (uRequestID : json)
| Submit (uRequestID : json).

Definition per_record_call `{PyRuntime} (c : RemoteCall) : bool :=
  match c with
  | Search _ | FetchEditPage _ | Submit _ => true
  | _ => false
  end.

Record RepairData := {
  failureCausedType : pystr;
  repairResult : pystr;
  remarks : pystr;
  componentLocation : pystr;
  repairComponentA5E : pystr;
  type_ : pystr;
  failureKind : pystr;
  fcode : pystr;
  repairAction : pystr;
  engineer : pystr
}.

(** What [requests] raises, as far as [checkWebConnection] tells the cases
    apart, and what a request gives otherwise. *)
Inductive RequestError :=
| ConnectTimeout
| ConnectionError
| Timeout
| RequestException (text : pystr)
| OtherException (text : pystr).

Inductive Reply (A : Type) :=
| Raised (e : RequestError)
| Response (status_code : nat) (body : A).
Arguments Raised {A} e.
Arguments Response {A} status_code body.

(** A row of the search result: [row.get('SerialNo')], and the two keys
    read with [row[...]], absent when the lookup raises [KeyError]. *)
Record SearchRow `{PyRuntime} := {
  row_SerialNo : option json;
  row_RequestID : option json;
  row_uRequestID : option json
}.

(** The decoded search payload: [result.get('records', 0) > 0] and
    [result['rows']] when ['rows' in result]. *)
Record SearchResult `{PyRuntime} := {
  records_positive : bool;
  rows : option (list SearchRow)
}.

(** The remote system.  Every reply may depend on the calls made so far.
    - login: the matches of the [loginStatus] pattern in the response text;
    - search: the payload, [None] when [json.loads] or its inspection raises;
    - edit page: [response.text];
    - submit: the reply to the form built from the page, the repair data and
      [uRequestID] (building the form is a function of those three). *)
Record Server `{PyRuntime} := {
  landing_reply : Reply unit;
  login_reply : Reply (list pystr);
  system_reply : Reply unit;
  search_reply : list RemoteCall -> pystr -> Reply (option SearchResult);
  page_reply : list RemoteCall -> json -> Reply pystr;
  submit_reply : list RemoteCall -> RepairData -> pystr -> json -> Reply unit
}.

Record Uploader `{PyRuntime} := {
  requestID : json;
  uRequestID : json;
  page_cache : Dict.t pystr;
  search_cache : Dict.t (json * json);
  calls : list RemoteCall
}.

Section UploaderCode.
Context `{PyRuntime} (srv : Server).

(** [LowRiskOptimizedUploader.__init__] *)
Definition new_uploader : Uploader := {|
  requestID := json_none;
  uRequestID := json_none;
  page_cache := [];
  search_cache := [];
  calls := []
|}.

Definition set_ids (rid uid : json) (u : Uploader) : Uploader :=
  {| requestID := rid; uRequestID := uid; page_cache := page_cache u;
     search_cache := search_cache u; calls := calls u |}.

Definition set_page_cache (c : Dict.t pystr) (u : Uploader) : Uploader :=
  {| requestID := requestID u; uRequestID := uRequestID u; page_cache := c;
     search_cache := search_cache u; calls := calls u |}.

Definition set_search_cache (c : Dict.t (json * json)) (u : Uploader) : Uploader :=
  {| requestID := requestID u; uRequestID := uRequestID u;
     page_cache := page_cache u; search_cache := c; calls := calls u |}.

Definition log_call (c : RemoteCall) (u : Uploader) : Uploader :=
  {| requestID := requestID u; uRequestID := uRequestID u;
     page_cache := page_cache u; search_cache := search_cache u;
     calls := calls u ++ [c] |}.

(** The eviction step shared by both caches:
    [if len(cache) >= self.max_cache_size:
         oldest_key = next(iter(cache)); del cache[oldest_key]]
    [None] stands for the [StopIteration] of an empty cache. *)
Definition evict_oldest {V} (cache : Dict.t V) : option (Dict.t V) :=
  if (max_cache_size <=? length cache)%nat then
    match Dict.first_key cache with
    | Some oldest_key => Some (Dict.del oldest_key cache)
    | None => None
    end
  else Some cache.

(** The eviction followed by [cache[key] = value]. *)
Definition cache_store {V} (key : pystr) (value : V) (cache : Dict.t V)
  : option (Dict.t V) :=
  match evict_oldest cache with
  | Some cache' => Some (Dict.set key value cache')
  | None => None
  end.

(** ** checkWebConnection: [None] when it returns [True], otherwise the
    text of the exception it raises. *)

Definition http_text (prefix : string) (status_code : nat) : pystr :=
  Py.lit prefix ++ Py.lit " (HTTP " ++ Py.str_of_nat status_code ++ Py.lit ")".

Definition request_error_text (e : RequestError) : pystr :=
  match e with
  | ConnectTimeout => Py.lit "连接超时: 网络连接缓慢或不稳定"
  | ConnectionError => Py.lit "连接失败: 无法连接到服务器，请检查网络"
  | Timeout => Py.lit "请求超时: 服务器无响应"
  | RequestException text => Py.lit "网络异常: " ++ text
  | OtherException text => text
  end.

Definition checkWebConnection (u : Uploader) : option pystr * Uploader :=
  let u := log_call GetLanding u in
  match landing_reply srv with
  | Raised e => (Some (request_error_text e), u)
  | Response status_code _ =>
    if negb (status_code =? 200)%nat
    then (Some (http_text "网站访问失败" status_code), u)
    else
      let u := log_call PostLogin u in
      match login_reply srv with
      | Raised e => (Some (request_error_text e), u)
      | Response status_code login_status =>
        if negb (status_code =? 200)%nat
        then (Some (http_text "登录请求失败" status_code), u)
        else if match login_status with [] => true | _ => false end
                || negb (existsb (Py.eqb (Py.lit "1")) login_status)
        then (Some (Py.lit "登录失败: 用户凭据无效"), u)
        else
          let u := log_call GetSystemPage u in
          match system_reply srv with
          | Raised e => (Some (request_error_text e), u)
          | Response status_code _ =>
            if negb (status_code =? 200)%nat
            then (Some (http_text "系统访问失败" status_code), u)
            else (None, u)
          end
      end
  end.

(** ** searchProductOptimized *)

(** [row.get('SerialNo') == productFID], for the first row where it holds. *)
Definition matching_row (productFID : pystr) (rs : list SearchRow)
  : option SearchRow :=
  List.find (fun row =>
               match row_SerialNo row with
               | Some v => json_eq_str v productFID
               | None => false
               end) rs.

Definition searchProductOptimized (productFID : pystr) (u : Uploader)
  : bool * Uploader :=
  match Dict.get productFID (search_cache u) with
  | Some (rid, uid) => (true, set_ids rid uid u)
  | None =>
    let reply := search_reply srv (calls u) productFID in
    let u := log_call (Search productFID) u in
    match reply with
    | Raised _ => (false, u)
    | Response status_code body =>
      if negb (status_code =? 200)%nat then (false, u)
      else match body with
      | None => (false, u)
      | Some result =>
        if records_positive result then
          match rows result with
          | None => (false, u)
          | Some rs =>
            match matching_row productFID rs with
            | None => (false, u)
            | Some row =>
              match row_RequestID row with
              | None => (false, u)
              | Some rid =>
                let u := set_ids rid (uRequestID u) u in
                match row_uRequestID row with
                | None => (false, u)
                | Some uid =>
                  let u := set_ids rid uid u in
                  match cache_store productFID (rid, uid) (search_cache u) with
                  | Some cache => (true, set_search_cache cache u)
                  | None => (false, u)
                  end
                end
              end
            end
          end
        else (false, u)
      end
    end
  end.

(** ** getEditPageOptimized: [None] is Python's [None]. *)

Definition PAGE_MARKER : pystr :=
  Eval vm_compute in Py.lit "ctl00$ContentPlaceHolder1$txtRemarks".

Definition EDIT_PREFIX : pystr := Eval vm_compute in Py.lit "edit_".

Definition getEditPageOptimized (uid : json) (u : Uploader)
  : option pystr * Uploader :=
  let cache_key := EDIT_PREFIX ++ json_str uid in
  match Dict.get cache_key (page_cache u) with
  | Some page => (Some page, u)
  | None =>
    let reply := page_reply srv (calls u) uid in
    let u := log_call (FetchEditPage uid) u in
    match reply with
    | Raised _ => (None, u)
    | Response status_code text =>
      if (status_code =? 200)%nat && Py.contains PAGE_MARKER text then
        match cache_store cache_key text (page_cache u) with
        | Some cache => (Some text, set_page_cache cache u)
        | None => (None, u)
        end
      else (None, u)
    end
  end.

(** ** submitOptimized *)

Definition submitOptimized (repairData : RepairData) (pageContent : pystr)
    (uid : json) (u : Uploader) : bool * Uploader :=
  let reply := submit_reply srv (calls u) repairData pageContent uid in
  let u := log_call (Submit uid) u in
  match reply with
  | Response status_code _ => ((status_code =? 200)%nat, u)
  | Raised _ => (false, u)
  end.

(** ** processRepairRecordEnhanced: the pair [(result, error_detail)]. *)

Definition processRepairRecordEnhanced (productFID : pystr)
    (repairData : RepairData) (u : Uploader) : (bool * pystr) * Uploader :=
  let '(found, u) := searchProductOptimized productFID u in
  if negb found then ((false, PRODUCT_NOT_FOUND), u)
  else
    let '(pageContent, u) := getEditPageOptimized (uRequestID u) u in
    match pageContent with
    | None | Some [] => ((false, NO_EDIT_PAGE), u)
    | Some page =>
      let '(result, u) := submitOptimized repairData page (uRequestID u) u in
      if result then ((true, SUCCESS), u) else ((false, SUBMIT_FAILED), u)
    end.

End UploaderCode.

(** ** UploadWorker *)

Record UploadResult := {
  original_line : pystr;
  success : bool;
  error : pystr;
  product_fid : pystr
}.

(** The texts of the [status] and [finished] signals.  The elapsed times
    that the source formats into them come from [time.time()] and are left
    out; everything else the texts are built from is kept. *)
Inductive StatusText :=
| Connecting
| Connected
| ConnectFailed (connection_error : pystr)
| Processing (position total : nat) (productFID : pystr)
| RecordOk (productFID : pystr)
| RecordFailed (productFID categorized_error : pystr).

Inductive FinishText :=
| NoSuchFile (record_file : pystr)
| ReadFailed (text : pystr)
| EmptyFile
| NothingToRetry
| ConnectionLost (connection_error : pystr) (total_records : nat)
| AllSucceeded (retry_mode : bool) (success_count : nat)
| PartlySucceeded (retry_mode : bool) (success_count total_records failed_count : nat)
| AllFailed (retry_mode : bool) (failed_count : nat).

(** What the worker does that others can observe: the signals it emits and
    the pauses it takes, in order. *)
Inductive Event :=
| Status (text : StatusText)
| Progress (value : Z)
| RecordResult (product_fid : pystr) (ok : bool) (reason : pystr)
| Finished (ok : bool) (message : FinishText) (results : list UploadResult)
| Sleep (milliseconds : Z).

(** What [open(self.record_file).readlines()] finds. *)
Inductive LedgerFile :=
| Missing
| Unreadable (text : pystr)
| Lines (raw : list pystr).

(** The worker object.  [self.uploader] is [None] until [run] creates the
    uploader; the model holds a fresh uploader, which has made no call, in
    its place.  [polls] counts the reads of [self._is_cancelled]. *)
Record Worker `{PyRuntime} := {
  upload_results : list UploadResult;
  uploader : Uploader;
  events : list Event;
  polls : nat
}.

(** [run] either goes on with a value or has returned. *)
Inductive Step `{PyRuntime} (A : Type) :=
| Go (a : A) (w : Worker)
| Done (w : Worker).
Arguments Go {_ A} a w.
Arguments Done {_ A} w.

Definition M `{PyRuntime} (A : Type) : Type := Worker -> Step A.

#[global] Instance M_ret `{PyRuntime} : MRet M := fun A a w => Go a w.

#[global] Instance M_bind `{PyRuntime} : MBind M := fun A B f m w =>
  match m w with
  | Go a w' => f a w'
  | Done w' => Done w'
  end.

(** The state in which a step leaves the worker. *)
Definition final `{PyRuntime} {A} (s : Step A) : Worker :=
  match s with
  | Go _ w => w
  | Done w => w
  end.

(** The float of a count.  Python divides two [int]s to the correctly
    rounded quotient; for counts below [2^53] that is the binary64 division
    of the two counts taken as floats, which is what the model computes. *)
Definition float_of_nat (n : nat) : float :=
  PrimFloat.of_uint63 (Uint63.of_Z (Z.of_nat n)).

(** [int(x)] for a float [0 <= x <= 60]: the number of integers in [1..60]
    that are at most [x]. *)
Definition int_upto_60 (x : float) : Z :=
  Z.of_nat (length (List.filter (fun k => PrimFloat.leb (float_of_nat k) x) (seq 1 60))).

(** [30 + int((i + 1) / len(processed_records) * 60)] *)
Definition record_progress (position total : nat) : Z :=
  (30 + int_upto_60 (float_of_nat position / float_of_nat total * 60))%Z.

(** The pause after a record, in milliseconds ([time.sleep(0.05)] is 50):
    [success_rate = success_count / (i + 1)] is a float division and the
    thresholds are the floats written [0.95], [0.9] and [0.7]. *)
Definition success_rate (success_count processed : nat) : float :=
  (float_of_nat success_count / float_of_nat processed)%float.

Definition pacing_delay (success_count processed : nat) : Z :=
  if (0 <? success_count)%nat then
    let rate := success_rate success_count processed in
    if (0.95 <? rate)%float then 50%Z
    else if (0.9 <? rate)%float then 80%Z
    else if (0.7 <? rate)%float then 150%Z
    else 300%Z
  else 150%Z.

(** [[item.strip() for item in original_line.split(',')]] *)
Definition fields_of (original_line : pystr) : list pystr :=
  List.map Py.strip (Py.split COMMA original_line).

(** [l[0]] of a list of strings; [split] never gives an empty list. *)
Definition item0 (l : list pystr) : pystr :=
  match l with
  | x :: _ => x
  | [] => []
  end.

(** The line without its status: kept as it is in retry mode (the filter
    removed the status), cut at the first marker otherwise. *)
Definition original_of (retry_mode : bool) (line : pystr) : pystr :=
  if retry_mode then line
  else if Py.contains MARK line then item0 (Py.split MARK line)
  else line.

Definition repair_data_of (data : list pystr) : RepairData := {|
  failureCausedType := nth 3 data [];
  repairResult := nth 4 data [];
  remarks := nth 5 data [];
  componentLocation := nth 6 data [];
  repairComponentA5E := nth 7 data [];
  type_ := nth 8 data [];
  failureKind := nth 9 data [];
  fcode := nth 10 data [];
  repairAction := nth 11 data [];
  engineer := nth 12 data []
|}.

Definition failures (results : list UploadResult) : nat :=
  length (List.filter (fun r => negb (success r)) results).

(** The changes of the worker's state. *)
Definition polled `{PyRuntime} (w : Worker) : Worker :=
  {| upload_results := upload_results w; uploader := uploader w;
     events := events w; polls := S (polls w) |}.

Definition with_event `{PyRuntime} (e : Event) (w : Worker) : Worker :=
  {| upload_results := upload_results w; uploader := uploader w;
     events := events w ++ [e]; polls := polls w |}.

Definition with_result `{PyRuntime} (r : UploadResult) (w : Worker) : Worker :=
  {| upload_results := upload_results w ++ [r]; uploader := uploader w;
     events := events w; polls := polls w |}.

Definition with_uploader `{PyRuntime} (u : Uploader) (w : Worker) : Worker :=
  {| upload_results := upload_results w; uploader := u;
     events := events w; polls := polls w |}.

(** The surroundings of one run: the remote system, and what each read of
    [self._is_cancelled] finds (another thread sets the flag). *)
Record Env `{PyRuntime} := {
  server : Server;
  cancelled : nat -> bool
}.

Section WorkerCode.
Context `{PyRuntime} (env : Env).

(** [UploadWorker.__init__] *)
Definition new_worker : Worker := {|
  upload_results := [];
  uploader := new_uploader;
  events := [];
  polls := 0
|}.

(** [if self._is_cancelled: return] *)
Definition check_cancel : M unit := fun w =>
  if cancelled env (polls w) then Done (polled w) else Go tt (polled w).

(** [signal.emit(...)], and [time.sleep(...)] *)
Definition emit (e : Event) : M unit := fun w => Go tt (with_event e w).

(** [self.finished.emit(ok, message, results)] followed by [return] *)
Definition finish {A} (ok : bool) (message : FinishText)
    (results : list UploadResult) : M A := fun w =>
  Done (with_event (Finished ok message results) w).

(** [self.upload_results.append(r)] *)
Definition append_result (r : UploadResult) : M unit := fun w =>
  Go tt (with_result r w).

Definition get_results : M (list UploadResult) := fun w =>
  Go (upload_results w) w.

(** A method call on [self.uploader]. *)
Definition on_uploader {A} (f : Uploader -> A * Uploader) : M A := fun w =>
  Go (f (uploader w)).1 (with_uploader (f (uploader w)).2 w).

(** [self.uploader = LowRiskOptimizedUploader()] *)
Definition create_uploader : M unit :=
  on_uploader (fun _ => (tt, new_uploader)).

(** The loop of the [except] branch of the connection check. *)
Fixpoint connection_failed_loop (retry_mode : bool) (connection_error : pystr)
    (i : nat) (lines : list pystr) (failed_results : list UploadResult)
  : M (list UploadResult) :=
  match lines with
  | [] => mret failed_results
  | line :: rest =>
    check_cancel ;;
    let original_line := original_of retry_mode line in
    let data := fields_of original_line in
    let product_fid :=
      match data with
      | d0 :: _ => d0
      | [] => RECORD_PREFIX ++ Py.str_of_nat (i + 1)
      end in
    let failed_results :=
      failed_results ++ [{| original_line := original_line; success := false;
                           error := connection_error; product_fid := product_fid |}] in
    emit (RecordResult product_fid false connection_error) ;;
    connection_failed_loop retry_mode connection_error (S i) rest failed_results
  end.

(** The first loop over the lines: format errors are recorded at once,
    the other lines are collected in [processed_records]. *)
Fixpoint parse_loop (retry_mode : bool) (lines : list pystr)
    (processed_records : list (pystr * RepairData * pystr))
  : M (list (pystr * RepairData * pystr)) :=
  match lines with
  | [] => mret processed_records
  | line :: rest =>
    check_cancel ;;
    let original_line := original_of retry_mode line in
    let data := fields_of original_line in
    if (length data <? 13)%nat then
      let shown :=
        match data with
        | d0 :: _ => d0
        | [] => UNKNOWN_PRODUCT
        end in
      append_result {| original_line := original_line; success := false;
                       error := FORMAT_ERROR; product_fid := shown |} ;;
      emit (RecordResult shown false FORMAT_ERROR) ;;
      parse_loop retry_mode rest processed_records
    else
      let productFID := nth 0 data [] in
      let repairData := repair_data_of data in
      parse_loop retry_mode rest
        (processed_records ++ [(productFID, repairData, original_line)])
  end.

Definition SUCCEEDED : pystr := Eval vm_compute in Py.lit "成功".

(** The second loop, over [processed_records]; it gives the final
    [success_count].  [processRepairRecordEnhanced] catches what it raises
    itself, so the [except] branch around the call has nothing to catch. *)
Fixpoint upload_loop (total i : nat)
    (processed_records : list (pystr * RepairData * pystr))
    (success_count : nat) : M nat :=
  match processed_records with
  | [] => mret success_count
  | (productFID, repairData, original_line) :: rest =>
    check_cancel ;;
    emit (Status (Processing (i + 1) total productFID)) ;;
    '(result, error_detail) ←
      on_uploader (processRepairRecordEnhanced (server env) productFID repairData) ;
    success_count ←
      (if result : bool then
         append_result {| original_line := original_line; success := true;
                          error := SUCCESS; product_fid := productFID |} ;;
         emit (RecordResult productFID true SUCCEEDED) ;;
         emit (Status (RecordOk productFID)) ;;
         mret (S success_count)
       else
         let categorized_error := categorizeError error_detail in
         append_result {| original_line := original_line; success := false;
                          error := categorized_error; product_fid := productFID |} ;;
         emit (RecordResult productFID false categorized_error) ;;
         emit (Status (RecordFailed productFID categorized_error)) ;;
         mret success_count) ;
    emit (Progress (record_progress (i + 1) total)) ;;
    check_cancel ;;
    emit (Sleep (pacing_delay success_count (i + 1))) ;;
    upload_loop total (S i) rest success_count
  end.

(** The end of [run]: the summary and the [finished] signal. *)
Definition summarize (retry_mode : bool) (success_count : nat) : M unit :=
  check_cancel ;;
  emit (Progress 100) ;;
  results ← get_results ;
  let total_records := length results in
  let failed_count := failures results in
  if (failed_count =? 0)%nat
  then finish true (AllSucceeded retry_mode success_count) results
  else if (0 <? success_count)%nat
  then finish true (PartlySucceeded retry_mode success_count total_records failed_count)
              results
  else finish false (AllFailed retry_mode failed_count) results.

(** What [run] does once the lines to process are known. *)
Definition process_lines (retry_mode : bool) (lines : list pystr) : M unit :=
  create_uploader ;;
  failure ← on_uploader (checkWebConnection (server env)) ;
  match failure with
  | Some text =>
    let connection_error := categorizeError text in
    emit (Status (ConnectFailed connection_error)) ;;
    failed_results ← connection_failed_loop retry_mode connection_error 0 lines [] ;
    finish false (ConnectionLost connection_error (length failed_results))
           failed_results
  | None =>
    emit (Status Connected) ;;
    emit (Progress 20) ;;
    check_cancel ;;
    emit (Progress 30) ;;
    processed_records ← parse_loop retry_mode lines [] ;
    success_count ← upload_loop (length processed_records) 0 processed_records 0 ;
    summarize retry_mode success_count
  end.

(** [[line.strip() for line in file.readlines() if line.strip()]] *)
Definition read_lines (raw : list pystr) : list pystr :=
  List.map Py.strip (List.filter (fun line => negb (Py.is_empty (Py.strip line))) raw).

(** The signals between the existence test and the reading of the file. *)
Definition announce : M unit :=
  emit (Status Connecting) ;;
  emit (Progress 10) ;;
  check_cancel.

(** [UploadWorker.run].  Nothing in the body raises past the handlers
    modelled here, so the outermost [except] has no case. *)
Definition run (record_file : pystr) (file : LedgerFile) (retry_mode : bool)
  : M unit :=
  check_cancel ;;
  match file with
  | Missing => finish false (NoSuchFile record_file) []
  | Unreadable text => announce ;; finish false (ReadFailed text) []
  | Lines raw =>
    announce ;;
    let lines := read_lines raw in
    match lines with
    | [] => finish false EmptyFile []
    | _ =>
      if retry_mode then
        let lines := filterFailedRecords lines in
        match lines with
        | [] => finish true NothingToRetry []
        | _ => process_lines retry_mode lines
        end
      else process_lines retry_mode lines
    end
  end.

End WorkerCode.

(** ** The files of the ledger

    A file is the list of its lines, as [readlines] gives them and
    [writelines] takes them.  [open(path, "w")] and [os.remove(path)] may
    raise; [write_ok] and [remove_ok] say where they do not.  The journal
    lists the changes made, oldest first. *)

Inductive FileOp :=
| WriteLines (path : pystr) (lines : list pystr)
| Remove (path : pystr).

Record FileSystem := {
  files : gmap pystr (list pystr);
  write_ok : pystr -> bool;
  remove_ok : pystr -> bool;
  journal : list FileOp
}.

(** [os.path.exists(path)] *)
Definition exists_file (fs : FileSystem) (path : pystr) : bool :=
  bool_decide (is_Some (files fs !! path)).

Definition write_file (path : pystr) (lines : list pystr) (fs : FileSystem)
  : FileSystem :=
  {| files := <[path := lines]> (files fs); write_ok := write_ok fs;
     remove_ok := remove_ok fs; journal := journal fs ++ [WriteLines path lines] |}.

Definition remove_file (path : pystr) (fs : FileSystem) : FileSystem :=
  {| files := delete path (files fs); write_ok := write_ok fs;
     remove_ok := remove_ok fs; journal := journal fs ++ [Remove path] |}.

(** [p.rfind(...)]: the last index whose character satisfies [P], [-1] when
    there is none. *)
Fixpoint rfind_from (P : N -> bool) (i last : Z) (p : pystr) : Z :=
  match p with
  | [] => last
  | c :: r => rfind_from P (i + 1) (if P c then i else last) r
  end.

Definition rfind (P : N -> bool) (p : pystr) : Z := rfind_from P 0 (-1) p.

(** [os.path.splitext(p)], after [genericpath._splitext]: the extension
    starts at the last dot of the last component, unless only dots come
    before it there. *)
Definition splitext `{PyRuntime} (p : pystr) : pystr * pystr :=
  let sepIndex := rfind (fun c => bool_decide (c ∈ path_seps)) p in
  let dotIndex := rfind (N.eqb 46) p in
  if (sepIndex <? dotIndex)%Z then
    let filenameIndex := Z.to_nat (sepIndex + 1) in
    let before_dot := take (Z.to_nat dotIndex - filenameIndex) (drop filenameIndex p) in
    if existsb (fun c => negb (c =? 46)) before_dot
    then (take (Z.to_nat dotIndex) p, drop (Z.to_nat dotIndex) p)
    else (p, [])
  else (p, []).

(** ** TaskManager *)

Definition FAIL_MARK : pystr := Eval vm_compute in Py.lit "_fail".
Definition DONE_MARK : pystr := Eval vm_compute in Py.lit "_done".
Definition TXT : pystr := Eval vm_compute in Py.lit ".txt".
Definition NEWLINE : pystr := [10].

(** The status written after a result. *)
Definition status_text (r : UploadResult) : pystr :=
  if success r then SUCCESS
  else if negb (Py.is_empty (error r)) && negb (Py.eqb (error r) FAIL)
       then error r else SUBMIT_FAILED.

(** [f"{original_line} // {status_text}\n"] *)
Definition render (r : UploadResult) : pystr :=
  original_line r ++ MARK ++ status_text r ++ NEWLINE.

(** The base name without a final [_fail] or [_done]. *)
Definition strip_marker (base_name : pystr) : pystr :=
  if Py.endswith FAIL_MARK base_name then take (length base_name - 5) base_name
  else if Py.endswith DONE_MARK base_name then take (length base_name - 5) base_name
  else base_name.

Definition has_failure (results : list UploadResult) : bool :=
  existsb (fun r => negb (success r)) results.

Definition new_filename_of `{PyRuntime} (original_file : pystr)
    (results : list UploadResult) : pystr :=
  let base_name := strip_marker (splitext original_file).1 in
  let suffix := if has_failure results then FAIL_MARK else DONE_MARK in
  base_name ++ suffix ++ TXT.

(** [TaskManager.updateFileWithResults]: the returned name ([None] is
    Python's [None]) and the files afterwards.  A failing [open] is caught by
    the outer handler, a failing [os.remove] by the inner one. *)
Definition updateFileWithResults `{PyRuntime} (original_file : pystr)
    (results : list UploadResult) (fs : FileSystem) : option pystr * FileSystem :=
  match results with
  | [] => (None, fs)
  | _ =>
    let new_lines := List.map render results in
    let new_filename := new_filename_of original_file results in
    if write_ok fs new_filename then
      let fs := write_file new_filename new_lines fs in
      let fs :=
        if exists_file fs new_filename && exists_file fs original_file
           && negb (Py.eqb new_filename original_file)
        then if remove_ok fs original_file then remove_file original_file fs else fs
        else fs in
      (Some new_filename, fs)
    else (None, fs)
  end.

(** An entry of [self.tasks]; [worker] is the handle of the worker thread,
    [None] once it is released. *)
Record Task := {
  worker : option nat;
  file_path : pystr;
  original_file : pystr
}.

(** [TaskManager.onTaskFinished], without the calls that only update the
    task window. *)
Definition onTaskFinished `{PyRuntime} (task_id : pystr)
    (results : list UploadResult) (tasks : gmap pystr Task) (fs : FileSystem)
  : gmap pystr Task * FileSystem :=
  match tasks !! task_id with
  | None => (tasks, fs)
  | Some task =>
    let '(new_file_path, fs) := updateFileWithResults (file_path task) results fs in
    let path :=
      match new_file_path with
      | Some new_file_path =>
        if negb (Py.is_empty new_file_path)
           && negb (Py.eqb new_file_path (file_path task))
        then new_file_path else file_path task
      | None => file_path task
      end in
    (<[task_id := {| worker := None; file_path := path;
                     original_file := original_file task |}]> tasks, fs)
  end.

(** [TaskManager.isExactProductMatch].  [split] and [strip] do not raise on
    a string, so the [except] branch with [startswith] has no case. *)
Definition isExactProductMatch (line_content target_product_fid : pystr) : bool :=
  let parts := fields_of line_content in
  match parts with
  | [] => false
  | part0 :: _ => Py.eqb (Py.strip part0) target_product_fid
  end.

(** The test of one non-blank line in [deleteRecordFromFile]. *)
Definition should_delete (product_fid line_stripped : pystr) : bool :=
  if Py.contains MARK line_stripped
  then isExactProductMatch (item0 (Py.split MARK line_stripped)) product_fid
  else isExactProductMatch line_stripped product_fid.

(** The loop of [deleteRecordFromFile]: [(filtered_lines, deleted_count)]. *)
Fixpoint delete_loop (product_fid : pystr) (lines filtered_lines : list pystr)
    (deleted_count : nat) : list pystr * nat :=
  match lines with
  | [] => (filtered_lines, deleted_count)
  | line :: rest =>
    let line_stripped := Py.strip line in
    if Py.is_empty line_stripped
    then delete_loop product_fid rest filtered_lines deleted_count
    else if should_delete product_fid line_stripped
    then delete_loop product_fid rest filtered_lines (S deleted_count)
    else delete_loop product_fid rest (filtered_lines ++ [line]) deleted_count
  end.

(** [TaskManager.deleteRecordFromFile], without the message boxes. *)
Definition deleteRecordFromFile (task_id product_fid : pystr)
    (tasks : gmap pystr Task) (fs : FileSystem) : FileSystem :=
  match tasks !! task_id with
  | None => fs
  | Some task =>
    match files fs !! file_path task with
    | None => fs
    | Some lines =>
      let '(filtered_lines, deleted_count) := delete_loop product_fid lines [] 0 in
      if (0 <? deleted_count)%nat then
        if write_ok fs (file_path task)
        then write_file (file_path task) filtered_lines fs
        else fs
      else fs
    end
  end.

(** ** Notions used to state the properties *)

(** Some keyword of the list occurs in [s] as a run of consecutive
    characters. *)
Definition mentions (keywords : list pystr) (s : pystr) : Prop :=
  exists keyword before after, keyword ∈ keywords /\ s = before ++ keyword ++ after.

(** A line as the retry filter leaves it: stripped, not blank, and without
    the status marker. *)
Definition plain (line : pystr) : Prop :=
  Py.strip line = line /\ line <> [] /\ Py.contains MARK line = false.

(** The flag [_is_cancelled] is never found set. *)
Definition never_cancelled `{PyRuntime} (env : Env) : Prop :=
  forall n, cancelled env n = false.

(** The lines that [run] processes: the non-blank lines of the file,
    filtered in retry mode. *)
Definition ledger_lines (retry_mode : bool) (raw : list pystr) : list pystr :=
  if retry_mode then filterFailedRecords (read_lines raw) else read_lines raw.

(** A line with at least 13 fields. *)
Definition well_formed (retry_mode : bool) (line : pystr) : bool :=
  negb (length (fields_of (original_of retry_mode line)) <? 13)%nat.

(** The first field of a line, stripped. *)
Definition first_field (original_line : pystr) : pystr :=
  item0 (fields_of original_line).

(** The entry of [processed_records] for a well-formed line. *)
Definition record_of (retry_mode : bool) (line : pystr)
  : pystr * RepairData * pystr :=
  let original_line := original_of retry_mode line in
  (first_field original_line, repair_data_of (fields_of original_line), original_line).

Definition format_error_of (retry_mode : bool) (line : pystr) : UploadResult :=
  let original_line := original_of retry_mode line in
  {| original_line := original_line; success := false; error := FORMAT_ERROR;
     product_fid := first_field original_line |}.

(** The result of a line when the connection check fails. *)
Definition failed_of (retry_mode : bool) (connection_error line : pystr)
  : UploadResult :=
  let original_line := original_of retry_mode line in
  {| original_line := original_line; success := false; error := connection_error;
     product_fid := first_field original_line |}.

Definition malformed_lines (retry_mode : bool) (lines : list pystr) : list pystr :=
  List.filter (fun line => negb (well_formed retry_mode line)) lines.

Definition well_formed_lines (retry_mode : bool) (lines : list pystr) : list pystr :=
  List.filter (well_formed retry_mode) lines.

(** The results of processing the records one after the other, from the
    uploader state [u] on. *)
Fixpoint outcomes `{PyRuntime} (srv : Server) (u : Uploader)
    (records : list (pystr * RepairData * pystr)) : list UploadResult :=
  match records with
  | [] => []
  | (productFID, repairData, original_line) :: rest =>
    let r := processRepairRecordEnhanced srv productFID repairData u in
    {| original_line := original_line; success := r.1.1;
       error := if r.1.1 then SUCCESS else categorizeError r.1.2;
       product_fid := productFID |} :: outcomes srv r.2 rest
  end.

(** The uploader after it has processed the records. *)
Definition uploader_after `{PyRuntime} (srv : Server) (u : Uploader)
    (records : list (pystr * RepairData * pystr)) : Uploader :=
  foldl (fun u record => (processRepairRecordEnhanced srv record.1.1 record.1.2 u).2)
        u records.

Definition successes (results : list UploadResult) : nat :=
  length (List.filter success results).

(** The pauses among the events, in order. *)
Definition sleeps (evs : list Event) : list Z :=
  omap (fun e => match e with Sleep ms => Some ms | _ => None end) evs.

(** The result lists of the [finished] signals among the events. *)
Definition finished_results (evs : list Event) : list (list UploadResult) :=
  omap (fun e => match e with Finished _ _ results => Some results | _ => None end) evs.

(** The pauses that the running success counts ask for: after the [k]-th
    record, the delay for the successes among the first [k] results out
    of [k] records. *)
Definition paces (results : list UploadResult) : list Z :=
  List.map (fun k => pacing_delay (successes (take k results)) k)
           (seq 1 (length results)).

(** The states an uploader can be in: a new one, and what the methods make
    of a state that can be reached. *)
Inductive reachable `{PyRuntime} (srv : Server) : Uploader -> Prop :=
| reach_new : reachable srv new_uploader
| reach_connect u :
    reachable srv u -> reachable srv (checkWebConnection srv u).2
| reach_search u productFID :
    reachable srv u -> reachable srv (searchProductOptimized srv productFID u).2
| reach_page u uid :
    reachable srv u -> reachable srv (getEditPageOptimized srv uid u).2
| reach_submit u repairData pageContent uid :
    reachable srv u ->
    reachable srv (submitOptimized srv repairData pageContent uid u).2
| reach_process u productFID repairData :
    reachable srv u ->
    reachable srv (processRepairRecordEnhanced srv productFID repairData u).2.

(** A cache as the code keeps it: no key twice, at most 100 entries. *)
Definition cache_ok {V} (cache : Dict.t V) : Prop :=
  NoDup (Dict.keys cache) /\ (length cache <= max_cache_size)%nat.

Definition caches_ok `{PyRuntime} (u : Uploader) : Prop :=
  cache_ok (search_cache u) /\ cache_ok (page_cache u).

(** ** A remote system for the worked examples

    Every login succeeds, every product is found under the ids ["R"] and
    ["U" + productFID], every edit page carries the marker and every
    submission is accepted. *)

Definition demo_row (productFID : pystr) : @SearchRow ascii_runtime :=
  @Build_SearchRow ascii_runtime
    (Some productFID) (Some (Py.lit "R")) (Some (Py.lit "U" ++ productFID)).

Definition demo_server : @Server ascii_runtime :=
  @Build_Server ascii_runtime
    (Response 200%nat tt)
    (Response 200%nat [Py.lit "1"])
    (Response 200%nat tt)
    (fun _ productFID =>
       Response 200%nat
         (Some (@Build_SearchResult ascii_runtime true (Some [demo_row productFID]))))
    (fun _ _ => Response 200%nat PAGE_MARKER)
    (fun _ _ _ _ => Response 200%nat tt).

Definition demo_env : @Env ascii_runtime :=
  @Build_Env ascii_runtime demo_server (fun _ => false).

(** A remote system whose landing page cannot be reached. *)
Definition down_server : @Server ascii_runtime :=
  @Build_Server ascii_runtime
    (Raised ConnectionError)
    (Response 200%nat [Py.lit "1"])
    (Response 200%nat tt)
    (fun _ productFID =>
       Response 200%nat
         (Some (@Build_SearchResult ascii_runtime true (Some [demo_row productFID]))))
    (fun _ _ => Response 200%nat PAGE_MARKER)
    (fun _ _ _ _ => Response 200%nat tt).

Definition down_env : @Env ascii_runtime :=
  @Build_Env ascii_runtime down_server (fun _ => false).

(** The uploader after searching the products ["0"], ["1"], ... in turn. *)
Definition searched (srv : @Server ascii_runtime) (n : nat) : @Uploader ascii_runtime :=
  foldl (fun u i => (searchProductOptimized srv (Py.str_of_nat i) u).2)
        new_uploader (seq 0 n).

(** The uploader after fetching the edit pages ["0"], ["1"], ... in turn. *)
Definition fetched (srv : @Server ascii_runtime) (n : nat) : @Uploader ascii_runtime :=
  foldl (fun u i => (getEditPageOptimized srv (Py.str_of_nat i) u).2)
        new_uploader (seq 0 n).

(** A ledger of three lines, the second with three fields only, and the
    path it is read from. *)
Definition demo_raw : list pystr := Eval vm_compute in
  [Py.lit "X1,,,a,b,c,d,e,f,g,h,i,j" ++ [10];
   Py.lit "BAD,1,2" ++ [10];
   Py.lit "X2,,,a,b,c,d,e,f,g,h,i,j" ++ [10]].

Definition demo_path : pystr := Eval vm_compute in Py.lit "/data/ledger.txt".

(** The identity of a line of a ledger file: its first comma-separated
    field, with the line stripped and its status suffix left out. *)
Definition ledger_id (line : pystr) : pystr :=
  first_field (original_of false (Py.strip line)).

(** A line of a ledger file with nothing but white space. *)
Definition blank (line : pystr) : bool := Py.is_empty (Py.strip line).

(** The delay chosen with exact arithmetic on the counts: the rate
    [s / n] is above 19/20, above 9/10, above 7/10, or not. *)
Definition exact_delay (s n : nat) : Z :=
  if (0 <? s)%nat then
    if (19 * n <? 20 * s)%nat then 50%Z
    else if (9 * n <? 10 * s)%nat then 80%Z
    else if (7 * n <? 10 * s)%nat then 150%Z
    else 300%Z
  else 150%Z.

(** A disk with one ledger, where every file may be written and removed. *)
Definition demo_disk (path : pystr) (lines : list pystr) : FileSystem :=
  {| files := {[ path := lines ]}; write_ok := fun _ => true;
     remove_ok := fun _ => true; journal := [] |}.

Definition demo_tasks (task_id path : pystr) : gmap pystr Task :=
  {[ task_id := {| worker := Some 0%nat; file_path := path; original_file := path |} ]}.

Definition demo_results : list UploadResult := Eval vm_compute in
  [ {| original_line := Py.lit "X1,,,a,b,c,d,e,f,g,h,i,j"; success := true;
       error := SUCCESS; product_fid := Py.lit "X1" |};
    {| original_line := Py.lit "X2,,,a,b,c,d,e,f,g,h,i,j"; success := false;
       error := PRODUCT_NOT_FOUND; product_fid := Py.lit "X2" |} ].

(** The lines that the deletion keeps, and the number of lines it drops
    for their product id. *)
Definition kept (product_fid : pystr) (lines : list pystr) : list pystr :=
  List.filter (fun line => negb (blank line)
                           && negb (Py.eqb (ledger_id line) product_fid)) lines.

Definition found (product_fid : pystr) (lines : list pystr) : nat :=
  length (List.filter (fun line => negb (blank line)
                                   && Py.eqb (ledger_id line) product_fid) lines).

(** ** TaskWidget: the counters of a task

    [TaskManager.startNewTask] connects the [record_result] signal of the
    worker to [TaskManagerWindow.updateTaskRecord], which hands it to
    [TaskWidget.updateRecordResult] of the task. *)

Record TaskWidget := {
  widget_success_count : nat;
  widget_fail_count : nat
}.

(** The counters set at the end of [TaskWidget.setupUI]. *)
Definition new_widget : TaskWidget :=
  {| widget_success_count := 0; widget_fail_count := 0 |}.

(** [TaskWidget.updateRecordResult], as far as the counters go. *)
Definition updateRecordResult (success : bool) (widget : TaskWidget) : TaskWidget :=
  if success then
    {| widget_success_count := widget_success_count widget + 1;
       widget_fail_count := widget_fail_count widget |}
  else
    {| widget_success_count := widget_success_count widget;
       widget_fail_count := widget_fail_count widget + 1 |}.

(** The widget after the signals of a worker have been delivered in order;
    only [record_result] changes the counters. *)
Definition deliver (evs : list Event) (widget : TaskWidget) : TaskWidget :=
  foldl (fun widget e =>
           match e with
           | RecordResult _ ok _ => updateRecordResult ok widget
           | _ => widget
           end) widget evs.

(** The [record_result] signals among the events, in order. *)
Definition reported (evs : list Event) : list (pystr * bool * pystr) :=
  omap (fun e => match e with
                 | RecordResult fid ok reason => Some (fid, ok, reason)
                 | _ => None
                 end) evs.

(** The [record_result] signal that goes with a result. *)
Definition announced (r : UploadResult) : pystr * bool * pystr :=
  (product_fid r, success r, if success r then SUCCEEDED else error r).

(** No read of [_is_cancelled] so far has found the flag set. *)
Definition polls_clear `{PyRuntime} (env : Env) (w : Worker) : Prop :=
  forall n, (n < polls w)%nat -> cancelled env n = false.

(** A worker that has not finished: no [finished] signal yet, the results
    [rs] announced one by one, and the flag never found set. *)
Definition quiet `{PyRuntime} (env : Env) (rs : list UploadResult) (w : Worker) : Prop :=
  finished_results (events w) = [] /\
  reported (events w) = List.map announced rs /\
  polls_clear env w.

(** A worker that has returned: either without a [finished] signal, or
    with one, which is its last event and carries the announced results, the
    flag never having been found set. *)
Definition settled `{PyRuntime} (env : Env) (w : Worker) : Prop :=
  finished_results (events w) = [] \/
  exists evs ok message rs,
    events w = evs ++ [Finished ok message rs] /\
    finished_results evs = [] /\
    reported evs = List.map announced rs /\
    polls_clear env w.

(** An event that is neither [finished] nor [record_result]. *)
Definition plain_event (e : Event) : Prop :=
  match e with
  | Finished _ _ _ | RecordResult _ _ _ => False
  | _ => True
  end.

(** The worker's own list of results is the announced one. *)
Definition calm `{PyRuntime} (env : Env) (w : Worker) : Prop :=
  quiet env (upload_results w) w.

(** ** Results that a rewritten ledger gives back

    The marker without its last blank. *)
Definition SLASHES : pystr := Eval vm_compute in Py.lit " //".

(** A result whose line can be read back from the line written for it:
    the original line is plain and has no blank followed by two slashes, and
    the status written for a failure is neither blank nor [success]. *)
Definition recoverable (r : UploadResult) : Prop :=
  plain (original_line r) /\
  Py.contains SLASHES (original_line r) = false /\
  Py.strip (status_text r) <> [] /\
  (success r = false -> Py.strip (status_text r) <> SUCCESS).

(** The errors that the processing of a record can give. *)
Definition known_errors : list pystr :=
  [PRODUCT_NOT_FOUND; NO_EDIT_PAGE; SUBMIT_FAILED].

(** [str.lower()] on the three error texts of the uploader: they have no
    cased character but the letters [FID]. *)
Definition lowers_known_errors `{PyRuntime} : Prop :=
  forall text, text ∈ known_errors -> lower text = Py.ascii_lower text.

(** ** The session of the uploader

    An entry of the page cache as the code stores it. *)
Definition page_entry_ok (entry : pystr * pystr) : Prop :=
  Py.startswith EDIT_PREFIX entry.1 = true /\ Py.contains PAGE_MARKER entry.2 = true.

(** A remote call that is not the submission of a form. *)
Definition not_submit `{PyRuntime} (c : RemoteCall) : Prop :=
  match c with Submit _ => False | _ => True end.

(** The demo system with a flag that the third read finds set. *)
Definition stopped_env : @Env ascii_runtime :=
  @Build_Env ascii_runtime demo_server (fun n => (n =? 2)%nat).

(** ** TaskWidget.openFile

    The file handed to [os.startfile]: the first existing one among the
    name of the widget and the three ledgers of its base name; [None] when
    the warning is shown instead. *)
Definition openFile `{PyRuntime} (filename : pystr) (fs : FileSystem) : option pystr :=
  let base_name := (splitext filename).1 in
  let base_name :=
    if Py.endswith FAIL_MARK base_name || Py.endswith DONE_MARK base_name then
      if Py.endswith FAIL_MARK base_name then take (length base_name - 5) base_name
      else if Py.endswith DONE_MARK base_name then take (length base_name - 5) base_name
      else base_name
    else base_name in
  let possible_files :=
    [filename; base_name ++ DONE_MARK ++ TXT; base_name ++ FAIL_MARK ++ TXT;
     base_name ++ TXT] in
  match List.find (exists_file fs) possible_files with
  | Some file_to_open => if Py.is_empty file_to_open then None else Some file_to_open
  | None => None
  end.

(** ** TaskManager.startNewTask and TaskManager.retryTask *)

(** [s.replace(old, new)]: the occurrences of [old] are replaced from left
    to right, without overlap; [skip] counts the characters of a matched
    [old] still to be passed over.  An empty [old] matches before every
    character and at the end. *)
Fixpoint replace_go (old new : pystr) (skip : nat) (s : pystr) : pystr :=
  match s with
  | [] => []
  | c :: r =>
    match skip with
    | S k => replace_go old new k r
    | O =>
      if Py.startswith old s then new ++ replace_go old new (length old - 1) r
      else c :: replace_go old new 0 r
    end
  end.

Definition replace (old new s : pystr) : pystr :=
  match old with
  | [] => new ++ flat_map (fun c => c :: new) s
  | _ :: _ => replace_go old new 0 s
  end.

(** [TaskManager.startNewTask], as far as [self.tasks] goes: [task_id] is
    the identifier drawn for the task and [handle] its worker. *)
Definition startNewTask (task_id : pystr) (handle : nat) (file_path : pystr)
    (tasks : gmap pystr Task) : gmap pystr Task :=
  <[task_id := {| worker := Some handle; file_path := file_path;
                  original_file := file_path |}]> tasks.

(** The file that [retryTask] chooses; [None] when it raises for want of
    one. *)
Definition retry_file_path (old_task_id : pystr) (tasks : gmap pystr Task)
    (fs : FileSystem) : option pystr :=
  match tasks !! old_task_id with
  | Some task =>
    let original_file := original_file task in
    let candidate :=
      if exists_file fs original_file then Some original_file
      else
        let fail_file := replace TXT (FAIL_MARK ++ TXT) original_file in
        if exists_file fs fail_file then Some fail_file
        else
          let done_file := replace TXT (DONE_MARK ++ TXT) original_file in
          if exists_file fs done_file then Some done_file else None in
    match candidate with
    | Some path => if Py.is_empty path then None else Some path
    | None => None
    end
  | None => None
  end.

(** [TaskManager.retryTask]: the file given to the new worker, which runs
    in retry mode, and [self.tasks] afterwards.  When no file is found the
    exception is caught at the end and nothing has changed. *)
Definition retryTask (old_task_id new_task_id : pystr) (handle : nat)
    (tasks : gmap pystr Task) (fs : FileSystem) : option pystr * gmap pystr Task :=
  match retry_file_path old_task_id tasks fs with
  | Some path => (Some path, startNewTask new_task_id handle path (delete old_task_id tasks))
  | None => (None, tasks)
  end.

(** The path separators are among [/] and [\]. *)
Definition usual_seps `{PyRuntime} : Prop :=
  forall c, c ∈ path_seps -> c = 47 \/ c = 92.

(** ** Ui_Form.saveToFile and Ui_Form.removeItemFromList *)

Definition SPACE : pystr := [32].
Definition COMMA_SPACE : pystr := Eval vm_compute in Py.lit ", ".

(** [sep.join(items)] *)
Fixpoint join (sep : pystr) (items : list pystr) : pystr :=
  match items with
  | [] => []
  | [item] => item
  | item :: rest => item ++ sep ++ join sep rest
  end.

(** The texts that [saveToFile] reads from the widgets of the form. *)
Record FormTexts := {
  lineEditFailureCausedType : pystr;
  comboBoxRepairResult : pystr;
  lineEditRemarks : pystr;
  lineEditComponentLocation : pystr;
  lineEditRepairComponentA5E : pystr;
  comboBoxType : pystr;
  comboBoxFailureKind : pystr;
  lineEditFcode : pystr;
  comboBoxRepairAction : pystr;
  comboBoxEngineer : pystr
}.


(** The line that [saveToFile] appends to the record file: the texts are
    separated by a comma and a blank, the last two by a comma only. *)
Definition saveToFile_line (productFID : pystr) (board_fids : list pystr)
    (failureCausedType : pystr) (form : FormTexts) : pystr :=
  let board_fids_text := join SPACE board_fids in
  productFID ++ COMMA_SPACE ++ board_fids_text ++ COMMA_SPACE
    ++ failureCausedType ++ COMMA_SPACE
    ++ lineEditFailureCausedType form ++ COMMA_SPACE
    ++ comboBoxRepairResult form ++ COMMA_SPACE
    ++ lineEditRemarks form ++ COMMA_SPACE
    ++ lineEditComponentLocation form ++ COMMA_SPACE
    ++ lineEditRepairComponentA5E form ++ COMMA_SPACE
    ++ comboBoxType form ++ COMMA_SPACE
    ++ comboBoxFailureKind form ++ COMMA_SPACE
    ++ lineEditFcode form ++ COMMA_SPACE
    ++ comboBoxRepairAction form ++ COMMA
    ++ comboBoxEngineer form ++ NEWLINE.

(** The start of the lines that [removeItemFromList] drops. *)
Definition item_prefix (productFID : pystr) (board_fids : list pystr)
    (failureCausedType : pystr) : pystr :=
  let board_fids_text := join SPACE board_fids in
  productFID ++ COMMA_SPACE ++ board_fids_text ++ COMMA_SPACE ++ failureCausedType.

(** [Ui_Form.removeItemFromList], as far as the record file goes: the
    file is read, then written again without the lines that start with the
    texts of the item.  An exception leaves the file as it is. *)
Definition removeItemFromList (current_record_file productFID : pystr)
    (board_fids : list pystr) (failureCausedType : pystr) (fs : FileSystem)
  : FileSystem :=
  if negb (Py.is_empty current_record_file) && exists_file fs current_record_file then
    match files fs !! current_record_file with
    | Some lines =>
      if write_ok fs current_record_file then
        write_file current_record_file
          (List.filter
             (fun line =>
                negb (Py.startswith (item_prefix productFID board_fids failureCausedType)
                                    line))
             lines) fs
      else fs
    | None => fs
    end
  else fs.


(** The texts of a filled form. *)
Definition demo_form : FormTexts := Eval vm_compute in
  {| lineEditFailureCausedType := Py.lit "wear";
     comboBoxRepairResult := Py.lit "repaired";
     lineEditRemarks := Py.lit " checked twice ";
     lineEditComponentLocation := Py.lit "C12";
     lineEditRepairComponentA5E := Py.lit "A5E1";
     comboBoxType := Py.lit "PCB";
     comboBoxFailureKind := Py.lit "IC faulty";
     lineEditFcode := Py.lit "F300";
     comboBoxRepairAction := Py.lit "replaced";
     comboBoxEngineer := Py.lit "Li" |}.

(** ** The first field of a line, read off the text

    The text of a line before its first comma; the whole line when it has
    no comma. *)
Fixpoint before_comma (s : pystr) : pystr :=
  match s with
  | [] => []
  | c :: r => if c =? 44 then [] else c :: before_comma r
  end.

(** A ledger whose only line starts with a comma: its first field is
    absent. *)
Definition nameless_raw : list pystr := Eval vm_compute in
  [Py.lit ",no id,3" ++ [10]].


(** * Properties

    ** Strings *)

Module PyFacts.
Import Py.

Lemma startswith_prefix p s : startswith p s = true <-> exists t, s = p ++ t.
Proof.
  revert s. induction p as [|a p IH]; intros s; simpl.
  - split; eauto.
  - destruct s as [|b s].
    + split; [discriminate | intros [t Ht]; discriminate].
    + rewrite andb_true_iff, N.eqb_eq, IH. split.
      * intros [-> [t ->]]. eauto.
      * intros [t Ht]. injection Ht as -> ->. eauto.
Qed.

Lemma contains_infix k s :
  contains k s = true <-> exists a b, s = a ++ k ++ b.
Proof.
  induction s as [|c s IH]; simpl.
  - rewrite orb_false_r, startswith_prefix. split.
    + intros [t Ht]. exists [], t. done.
    + intros (a & b & Hab). destruct a; simpl in *; [eauto | discriminate].
  - rewrite orb_true_iff, startswith_prefix, IH. split.
    + intros [[t Ht] | (a & b & ->)].
      * exists [], t. done.
      * exists (c :: a), b. done.
    + intros (a & b & Hab). destruct a as [|c' a]; simpl in *.
      * left. eauto.
      * right. injection Hab as -> ->. eauto.
Qed.


(** Stripping *)

Lemma rstrip_cons c r :
  rstrip (c :: r) = if isspace c && is_empty (rstrip r) then [] else c :: rstrip r.
Proof. simpl. destruct (rstrip r), (isspace c); reflexivity. Qed.

Lemma rstrip_nil_iff s : rstrip s = [] <-> forallb isspace s = true.
Proof.
  induction s as [|c r IH]; [done|].
  rewrite rstrip_cons. simpl forallb. rewrite andb_true_iff, <- IH.
  destruct (isspace c), (rstrip r); simpl; intuition congruence.
Qed.

Lemma lstrip_nil_iff s : lstrip s = [] <-> forallb isspace s = true.
Proof.
  induction s as [|c r IH]; [done|]. simpl.
  destruct (isspace c); simpl; [done | intuition congruence].
Qed.

Lemma lstrip_suffix s : exists a, s = a ++ lstrip s.
Proof.
  induction s as [|c r [a Ha]]; simpl; [by exists []|].
  destruct (isspace c); [exists (c :: a); simpl; congruence | by exists []].
Qed.



Lemma lstrip_head c r s : lstrip s = c :: r -> isspace c = false.
Proof.
  induction s as [|d s IH]; simpl; [done|].
  destruct (isspace d) eqn:E; [done|]. intros [= -> ->]. done.
Qed.

Lemma strip_head c r s : strip s = c :: r -> isspace c = false.
Proof. apply lstrip_head. Qed.

Lemma lstrip_fixed c r : isspace c = false -> lstrip (c :: r) = c :: r.
Proof. simpl. by intros ->. Qed.

Lemma rstrip_idem s : rstrip (rstrip s) = rstrip s.
Proof.
  induction s as [|c r IH]; [done|].
  rewrite rstrip_cons. destruct (isspace c && is_empty (rstrip r)) eqn:E; [done|].
  rewrite rstrip_cons, IH, E. done.
Qed.

Lemma rstrip_lstrip s : rstrip (lstrip s) = lstrip (rstrip s).
Proof.
  induction s as [|c r IH]; [done|].
  rewrite rstrip_cons. simpl lstrip at 1.
  destruct (isspace c) eqn:Ec; simpl andb.
  - destruct (rstrip r) as [|d r'] eqn:Er; simpl is_empty.
    + simpl. apply rstrip_nil_iff.
      apply rstrip_nil_iff in Er.
      destruct (lstrip_suffix r) as [a Ha].
      rewrite Ha, forallb_app in Er. by apply andb_true_iff in Er as [_ ?].
    + rewrite IH. simpl. by rewrite Ec.
  - rewrite rstrip_cons, Ec. simpl. by rewrite Ec.
Qed.

Lemma strip_idem s : strip (strip s) = strip s.
Proof.
  unfold strip. rewrite (rstrip_lstrip (rstrip s)), rstrip_idem.
  destruct (lstrip (rstrip s)) as [|c r] eqn:E; [done|].
  by rewrite (lstrip_fixed c r (lstrip_head _ _ _ E)).
Qed.


(** The first occurrence *)


Lemma contains_split_once sep s :
  contains sep s = true <-> is_Some (split_once sep s).
Proof.
  induction s as [|c r IH]; simpl.
  - rewrite orb_false_r. destruct (startswith sep []); split;
      first [done | by eauto | by intros [? ?]].
  - destruct (startswith sep (c :: r)); simpl.
    + split; eauto.
    + rewrite IH. destruct (split_once sep r) as [[a b]|]; split;
        first [done | by eauto | by intros [? ?]].
Qed.



End PyFacts.

(** ** The error classifier *)

Section Classifier.
Context `{PyRuntime}.
Import PyFacts.

Lemma any_keyword_in_mentions keywords s :
  any_keyword_in keywords s = true <-> mentions keywords s.
Proof.
  unfold any_keyword_in, mentions. rewrite existsb_exists. split.
  - intros (k & Hk & Hc). apply contains_infix in Hc as (a & b & ->).
    exists k, a, b. split; [by apply list_elem_of_In | done].
  - intros (k & a & b & Hk & ->). exists k. split; [by apply list_elem_of_In|].
    apply contains_infix. eauto.
Qed.

Lemma any_keyword_in_not_mentions keywords s :
  any_keyword_in keywords s = false <-> ~ mentions keywords s.
Proof.
  rewrite <- any_keyword_in_mentions. destruct (any_keyword_in keywords s); naive_solver.
Qed.

Lemma long_or_whole (s : pystr) :
  (if (50 <? length s)%nat then take 50 s else s) = take 50 s.
Proof.
  destruct (50 <? length s)%nat eqn:E; [done|].
  apply Nat.ltb_ge in E. by rewrite take_ge.
Qed.

(** C2.  The classifier gives 提交失败 on the empty text; otherwise it looks
    at the lower-cased text and gives 连接失败 when a connection keyword
    occurs in it, else 未查找到产品FID when a product keyword occurs, else
    提交失败 when a submission keyword occurs, and else the first 50
    characters of the text itself.  It is a total function. *)
Theorem categorizeError_spec (s : pystr) :
  (s = [] -> categorizeError s = SUBMIT_FAILED) /\
  (s <> [] -> mentions connection_keywords (lower s) ->
     categorizeError s = CONNECTION_FAILED) /\
  (s <> [] -> ~ mentions connection_keywords (lower s) ->
     mentions product_keywords (lower s) ->
     categorizeError s = PRODUCT_NOT_FOUND) /\
  (s <> [] -> ~ mentions connection_keywords (lower s) ->
     ~ mentions product_keywords (lower s) ->
     mentions submit_keywords (lower s) ->
     categorizeError s = SUBMIT_FAILED) /\
  (s <> [] -> ~ mentions connection_keywords (lower s) ->
     ~ mentions product_keywords (lower s) ->
     ~ mentions submit_keywords (lower s) ->
     categorizeError s = take 50 s).
Proof.
  unfold categorizeError. repeat split.
  - by intros ->.
  - intros Hs Hc%any_keyword_in_mentions. destruct s; [done|].
    simpl Py.is_empty. cbv iota. by rewrite Hc.
  - intros Hs Hc%any_keyword_in_not_mentions Hp%any_keyword_in_mentions.
    destruct s; [done|]. simpl Py.is_empty. cbv iota. by rewrite Hc, Hp.
  - intros Hs Hc%any_keyword_in_not_mentions Hp%any_keyword_in_not_mentions
      Hd%any_keyword_in_mentions.
    destruct s; [done|]. simpl Py.is_empty. cbv iota. by rewrite Hc, Hp, Hd.
  - intros Hs Hc%any_keyword_in_not_mentions Hp%any_keyword_in_not_mentions
      Hd%any_keyword_in_not_mentions.
    destruct s as [|c r]; [done|]. simpl Py.is_empty. cbv iota.
    rewrite Hc, Hp, Hd. apply long_or_whole.
Qed.

End Classifier.

(** ** The retry filter *)

Import PyFacts.







(** The classifier at one text of each kind. *)
Lemma categorizeError_spec_witness :
  categorizeError (H := ascii_runtime) [] = SUBMIT_FAILED /\
  categorizeError (H := ascii_runtime) (Py.lit "HTTP 500") = CONNECTION_FAILED /\
  categorizeError (H := ascii_runtime) (Py.lit "Serial unknown") = PRODUCT_NOT_FOUND /\
  categorizeError (H := ascii_runtime) (Py.lit "bad Form") = SUBMIT_FAILED /\
  categorizeError (H := ascii_runtime) NO_EDIT_PAGE = NO_EDIT_PAGE.
Proof.
  split; [|split; [|split; [|split]]].
  - destruct (categorizeError_spec (H := ascii_runtime) []) as (S & _).
    apply S. reflexivity.
  - destruct (categorizeError_spec (H := ascii_runtime) (Py.lit "HTTP 500"))
      as (_ & S & _).
    apply S.
    + discriminate.
    + apply any_keyword_in_mentions. vm_compute. reflexivity.
  - destruct (categorizeError_spec (H := ascii_runtime) (Py.lit "Serial unknown"))
      as (_ & _ & S & _).
    apply S.
    + discriminate.
    + apply any_keyword_in_not_mentions. vm_compute. reflexivity.
    + apply any_keyword_in_mentions. vm_compute. reflexivity.
  - destruct (categorizeError_spec (H := ascii_runtime) (Py.lit "bad Form"))
      as (_ & _ & _ & S & _).
    apply S.
    + discriminate.
    + apply any_keyword_in_not_mentions. vm_compute. reflexivity.
    + apply any_keyword_in_not_mentions. vm_compute. reflexivity.
    + apply any_keyword_in_mentions. vm_compute. reflexivity.
  - destruct (categorizeError_spec (H := ascii_runtime) NO_EDIT_PAGE)
      as (_ & _ & _ & _ & S).
    apply S.
    + discriminate.
    + apply any_keyword_in_not_mentions. vm_compute. reflexivity.
    + apply any_keyword_in_not_mentions. vm_compute. reflexivity.
    + apply any_keyword_in_not_mentions. vm_compute. reflexivity.
Defined.

(** ** Dictionaries and the bounded caches *)

Section Caches.
Context `{PyRuntime} (srv : Server).

Lemma eqb_refl_true (k : pystr) : Py.eqb k k = true.
Proof. unfold Py.eqb. by apply bool_decide_eq_true. Qed.

Lemma eqb_false (k k' : pystr) : k <> k' -> Py.eqb k k' = false.
Proof. unfold Py.eqb. intros ?. by apply bool_decide_eq_false. Qed.

Lemma dict_get_None {V} (k : pystr) (d : Dict.t V) :
  Dict.get k d = None <-> k ∉ Dict.keys d.
Proof.
  unfold Dict.keys. induction d as [|[k' v] d IH]; simpl.
  - split; [intros _; apply not_elem_of_nil | done].
  - rewrite not_elem_of_cons. unfold Py.eqb. case_bool_decide; split.
    + done.
    + intros [? _]. congruence.
    + intros ?%IH. split; [congruence | done].
    + intros [_ ?]. by apply IH.
Qed.

Lemma dict_set_fresh {V} (k : pystr) (v : V) (d : Dict.t V) :
  k ∉ Dict.keys d -> Dict.set k v d = d ++ [(k, v)].
Proof.
  unfold Dict.keys. induction d as [|[k' v'] d IH]; simpl; [done|].
  rewrite not_elem_of_cons. intros [Hne Hd].
  rewrite eqb_false by congruence. by rewrite IH.
Qed.

(** Storing under a key that is not in the cache: the oldest entry goes
    when the cache is full, and the new entry comes last. *)
Lemma cache_store_fresh {V} (key : pystr) (value : V) (cache : Dict.t V) :
  key ∉ Dict.keys cache ->
  cache_store key value cache =
    Some ((if (max_cache_size <=? length cache)%nat then tail cache else cache)
            ++ [(key, value)]).
Proof.
  intros Hkey. unfold cache_store, evict_oldest.
  destruct (max_cache_size <=? length cache)%nat eqn:E.
  - destruct cache as [|[k0 v0] rest]; [done|].
    simpl Dict.first_key. cbv iota. simpl Dict.del. rewrite eqb_refl_true. simpl tail.
    rewrite dict_set_fresh; [done|].
    unfold Dict.keys in *. simpl in Hkey. by apply not_elem_of_cons in Hkey as [_ ?].
  - by rewrite dict_set_fresh.
Qed.

Lemma cache_ok_store {V} (key : pystr) (value : V) (cache cache' : Dict.t V) :
  cache_ok cache -> key ∉ Dict.keys cache ->
  cache_store key value cache = Some cache' -> cache_ok cache'.
Proof.
  intros [Hnd Hlen] Hkey. rewrite cache_store_fresh by done.
  assert (Hfresh : forall d : Dict.t V,
             NoDup (Dict.keys d) -> key ∉ Dict.keys d ->
             NoDup (Dict.keys (d ++ [(key, value)]))).
  { intros d Hd Hk. unfold Dict.keys in *. rewrite fmap_app. simpl.
    apply NoDup_app. split; [done|]. split; [|apply NoDup_singleton].
    intros x Hx ->%list_elem_of_singleton. done. }
  pose proof (eq_refl : max_cache_size = 100%nat) as Hmax.
  destruct (Nat.leb_spec max_cache_size (length cache)) as [E|E];
    intros Heq; apply (inj Some) in Heq; subst cache'; unfold cache_ok.
  - destruct cache as [|[k0 v0] rest]; [simpl in E; lia|].
    simpl tail. rewrite length_app. simpl in Hlen, E |- *. split; [|lia].
    unfold Dict.keys in Hnd, Hkey. simpl in Hnd, Hkey.
    apply NoDup_cons in Hnd as [_ Hnd]. apply not_elem_of_cons in Hkey as [_ Hkey].
    by apply Hfresh.
  - rewrite length_app. simpl. split; [|lia]. by apply Hfresh.
Qed.

(** What a search does to the caches. *)
Lemma search_effect (productFID : pystr) (u : Uploader) :
  let r := searchProductOptimized srv productFID u in
  page_cache r.2 = page_cache u /\
  match Dict.get productFID (search_cache u) with
  | Some _ => r.1 = true /\ search_cache r.2 = search_cache u /\ calls r.2 = calls u
  | None =>
    (r.1 = false /\ search_cache r.2 = search_cache u) \/
    (r.1 = true /\ exists value,
        cache_store productFID value (search_cache u) = Some (search_cache r.2))
  end.
Proof.
  unfold searchProductOptimized.
  destruct (Dict.get productFID (search_cache u)) as [[rid uid]|] eqn:Hget; simpl.
  { by repeat split. }
  destruct (search_reply srv (calls u) productFID) as [e|status_code [result|]];
    simpl; try (split; [done | by left]).
  all: destruct (status_code =? 200)%nat; simpl; try (split; [done | by left]).
  destruct (records_positive result); simpl; try (split; [done | by left]).
  destruct (rows result) as [rs|]; simpl; try (split; [done | by left]).
  destruct (matching_row productFID rs) as [row|]; simpl; try (split; [done | by left]).
  destruct (row_RequestID row) as [rid|]; simpl; try (split; [done | by left]).
  destruct (row_uRequestID row) as [uid|]; simpl; try (split; [done | by left]).
  destruct (cache_store productFID (rid, uid) (search_cache u)) as [cache|] eqn:Hst;
    simpl; try (split; [done | by left]).
  split; [done|]. right. split; [done|]. exists (rid, uid). done.
Qed.

(** What fetching an edit page does to the caches. *)
Lemma page_effect (uid : json) (u : Uploader) :
  let key := EDIT_PREFIX ++ json_str uid in
  let r := getEditPageOptimized srv uid u in
  search_cache r.2 = search_cache u /\
  match Dict.get key (page_cache u) with
  | Some page => r.1 = Some page /\ page_cache r.2 = page_cache u /\ calls r.2 = calls u
  | None =>
    (r.1 = None /\ page_cache r.2 = page_cache u) \/
    (exists text, r.1 = Some text /\
        cache_store key text (page_cache u) = Some (page_cache r.2))
  end.
Proof.
  unfold getEditPageOptimized. cbv zeta.
  generalize (EDIT_PREFIX ++ json_str uid). intros key.
  destruct (Dict.get key (page_cache u)) as [page|] eqn:Hget; simpl.
  { by repeat split. }
  destruct (page_reply srv (calls u) uid) as [e|status_code text];
    simpl; try (split; [done | by left]).
  destruct ((status_code =? 200)%nat && Py.contains PAGE_MARKER text); simpl;
    try (split; [done | by left]).
  destruct (cache_store key text (page_cache u))
    as [cache|] eqn:Hst; simpl; try (split; [done | by left]).
  split; [done|]. right. exists text. done.
Qed.

Lemma submit_effect repairData pageContent uid (u : Uploader) :
  let r := submitOptimized srv repairData pageContent uid u in
  search_cache r.2 = search_cache u /\ page_cache r.2 = page_cache u.
Proof.
  unfold submitOptimized.
  by destruct (submit_reply srv (calls u) repairData pageContent uid).
Qed.

Lemma connect_effect (u : Uploader) :
  let r := checkWebConnection srv u in
  search_cache r.2 = search_cache u /\ page_cache r.2 = page_cache u.
Proof.
  unfold checkWebConnection.
  destruct (landing_reply srv) as [?|c1 ?]; simpl; [done|].
  destruct (c1 =? 200)%nat; simpl; [|done].
  destruct (login_reply srv) as [?|c2 l]; simpl; [done|].
  destruct (c2 =? 200)%nat; simpl; [|done].
  destruct (_ || _); simpl; [done|].
  destruct (system_reply srv) as [?|c3 ?]; simpl; [done|].
  by destruct (c3 =? 200)%nat.
Qed.

Lemma search_keeps_ok productFID u :
  caches_ok u -> caches_ok (searchProductOptimized srv productFID u).2.
Proof.
  intros [Hs Hp]. pose proof (search_effect productFID u) as [Hpage Hsearch].
  cbv zeta in *. split; [|by rewrite Hpage].
  destruct (Dict.get productFID (search_cache u)) eqn:Hget.
  - destruct Hsearch as (_ & -> & _). done.
  - destruct Hsearch as [[_ ->] | [_ [value Hst]]]; [done|].
    apply dict_get_None in Hget. by eapply cache_ok_store.
Qed.

Lemma page_keeps_ok uid u :
  caches_ok u -> caches_ok (getEditPageOptimized srv uid u).2.
Proof.
  intros [Hs Hp]. pose proof (page_effect uid u) as [Hsearch Hpage].
  cbv zeta in *. split; [by rewrite Hsearch|].
  destruct (Dict.get (EDIT_PREFIX ++ json_str uid) (page_cache u)) eqn:Hget.
  - destruct Hpage as (_ & -> & _). done.
  - destruct Hpage as [[_ ->] | [text [_ Hst]]]; [done|].
    apply dict_get_None in Hget. by eapply cache_ok_store.
Qed.

Lemma submit_keeps_ok repairData pageContent uid u :
  caches_ok u -> caches_ok (submitOptimized srv repairData pageContent uid u).2.
Proof.
  intros [Hs Hp]. pose proof (submit_effect repairData pageContent uid u) as [E1 E2].
  cbv zeta in *. unfold caches_ok. by rewrite E1, E2.
Qed.

Lemma process_keeps_ok productFID repairData u :
  caches_ok u -> caches_ok (processRepairRecordEnhanced srv productFID repairData u).2.
Proof.
  intros Hu. unfold processRepairRecordEnhanced.
  pose proof (search_keeps_ok productFID u Hu) as H1.
  destruct (searchProductOptimized srv productFID u) as [found u1]. simpl in H1.
  destruct found; simpl; [|done].
  pose proof (page_keeps_ok (uRequestID u1) u1 H1) as H2.
  destruct (getEditPageOptimized srv (uRequestID u1) u1) as [page u2]. simpl in H2.
  destruct page as [[|c page]|]; [done| |done].
  pose proof (submit_keeps_ok repairData (c :: page) (uRequestID u2) u2 H2) as H3.
  destruct (submitOptimized srv repairData (c :: page) (uRequestID u2) u2) as [ok u3].
  simpl in H3. by destruct ok.
Qed.

Lemma reachable_caches_ok u : reachable srv u -> caches_ok u.
Proof.
  induction 1 as [|u Hu IH|u fid Hu IH|u uid Hu IH|u rd pc uid Hu IH|u fid rd Hu IH].
  - split; split; simpl; try apply NoDup_nil_2; unfold max_cache_size; lia.
  - destruct IH. pose proof (connect_effect u) as [E1 E2]. cbv zeta in *.
    unfold caches_ok. by rewrite E1, E2.
  - by apply search_keeps_ok.
  - by apply page_keeps_ok.
  - by apply submit_keeps_ok.
  - by apply process_keeps_ok.
Qed.

Lemma full_store {V} (key : pystr) (value : V) (cache cache' : Dict.t V) :
  cache_ok cache -> key ∉ Dict.keys cache -> length cache = max_cache_size ->
  cache_store key value cache = Some cache' ->
  exists oldest_key oldest_value rest,
    cache = (oldest_key, oldest_value) :: rest /\
    cache' = rest ++ [(key, value)] /\
    (oldest_key ∉ Dict.keys cache') /\ length cache' = max_cache_size.
Proof.
  intros [Hnd _] Hkey Hlen. rewrite cache_store_fresh by done.
  rewrite Hlen, Nat.leb_refl. intros [= <-].
  destruct cache as [|[oldest_key oldest_value] rest]; [done|].
  exists oldest_key, oldest_value, rest. simpl tail. split; [done|]. split; [done|].
  unfold Dict.keys in *. simpl in Hnd, Hkey, Hlen.
  rewrite fmap_app, length_app. simpl. split; [|lia].
  apply NoDup_cons in Hnd as [Hold _]. apply not_elem_of_cons in Hkey as [Hne _].
  rewrite elem_of_app, list_elem_of_singleton. intros [?|?]; [done | congruence].
Qed.

(** What a search that asked the remote system and succeeded has stored. *)
Lemma search_store (productFID : pystr) (u : Uploader) :
  let r := searchProductOptimized srv productFID u in
  Dict.get productFID (search_cache u) = None -> r.1 = true ->
  cache_store productFID (requestID r.2, uRequestID r.2) (search_cache u)
  = Some (search_cache r.2).
Proof.
  cbv zeta. unfold searchProductOptimized. intros ->.
  repeat match goal with
         | |- context [match ?x with _ => _ end] => destruct x eqn:?; try done
         end.
Qed.

(** A page that the remote system gives with status 200 and the marker is
    returned, whatever the cache holds. *)
Lemma page_fetched (uid : json) (u : Uploader) (text : pystr) :
  let key := EDIT_PREFIX ++ json_str uid in
  let r := getEditPageOptimized srv uid u in
  Dict.get key (page_cache u) = None ->
  page_reply srv (calls u) uid = Response 200 text ->
  Py.contains PAGE_MARKER text = true ->
  r.1 = Some text.
Proof.
  cbv zeta. unfold getEditPageOptimized. cbv zeta.
  generalize (EDIT_PREFIX ++ json_str uid). intros key Hget Hreply Hmark.
  rewrite Hget, Hreply, Nat.eqb_refl, Hmark. cbn [andb page_cache log_call].
  rewrite cache_store_fresh by by apply dict_get_None. done.
Qed.

Lemma fresh_store {V} (key : pystr) (value : V) (cache cache' : Dict.t V) :
  key ∉ Dict.keys cache -> (length cache < max_cache_size)%nat ->
  cache_store key value cache = Some cache' -> cache' = cache ++ [(key, value)].
Proof.
  intros Hkey Hlen. rewrite cache_store_fresh by done.
  destruct (Nat.leb_spec max_cache_size (length cache)) as [E|E]; [lia|].
  by intros [= <-].
Qed.

(** C6.  In every state an uploader can reach, neither cache holds more
    than 100 entries.  A search (an edit-page fetch) that finds its key in
    the cache leaves the cache as it is, order included.  One that asks the
    remote system and succeeds stores its key last: after the entries that
    were there when fewer than 100 were, and otherwise in place of exactly
    the entry stored first, so that 100 entries remain.  A page given with
    status 200 and the marker is such a success. *)
Theorem caches_fifo_and_bounded (u : Uploader) :
  reachable srv u ->
  ((length (search_cache u) <= 100)%nat /\ (length (page_cache u) <= 100)%nat) /\
  (forall productFID,
     let r := searchProductOptimized srv productFID u in
     let value := (requestID r.2, uRequestID r.2) in
     (is_Some (Dict.get productFID (search_cache u)) ->
        search_cache r.2 = search_cache u) /\
     (Dict.get productFID (search_cache u) = None -> r.1 = true ->
      (length (search_cache u) < 100)%nat ->
        search_cache r.2 = search_cache u ++ [(productFID, value)]) /\
     (Dict.get productFID (search_cache u) = None -> r.1 = true ->
      length (search_cache u) = 100%nat ->
        exists oldest_key oldest_value rest,
          search_cache u = (oldest_key, oldest_value) :: rest /\
          search_cache r.2 = rest ++ [(productFID, value)] /\
          (oldest_key ∉ Dict.keys (search_cache r.2)) /\
          length (search_cache r.2) = 100%nat)) /\
  (forall uid,
     let key := EDIT_PREFIX ++ json_str uid in
     let r := getEditPageOptimized srv uid u in
     (is_Some (Dict.get key (page_cache u)) -> page_cache r.2 = page_cache u) /\
     (forall text,
        Dict.get key (page_cache u) = None ->
        page_reply srv (calls u) uid = Response 200 text ->
        Py.contains PAGE_MARKER text = true ->
        r.1 = Some text) /\
     (forall text,
        Dict.get key (page_cache u) = None -> r.1 = Some text ->
        (length (page_cache u) < 100)%nat ->
        page_cache r.2 = page_cache u ++ [(key, text)]) /\
     (forall text,
        Dict.get key (page_cache u) = None -> r.1 = Some text ->
        length (page_cache u) = 100%nat ->
        exists oldest_key oldest_value rest,
          page_cache u = (oldest_key, oldest_value) :: rest /\
          page_cache r.2 = rest ++ [(key, text)] /\
          (oldest_key ∉ Dict.keys (page_cache r.2)) /\
          length (page_cache r.2) = 100%nat)).
Proof.
  intros Hu. pose proof (reachable_caches_ok u Hu) as [Hs Hp].
  pose proof (eq_refl : max_cache_size = 100%nat) as Hmax.
  split; [split; [apply Hs | apply Hp]|]. split.
  - intros productFID r value.
    pose proof (search_effect productFID u) as [_ Heff]. fold r in Heff.
    pose proof (search_store productFID u) as Hstore. fold r value in Hstore.
    split; [|split].
    + intros [v Hv]. rewrite Hv in Heff. apply Heff.
    + intros Hget Hfound Hlen. specialize (Hstore Hget Hfound).
      apply dict_get_None in Hget.
      apply (fresh_store _ _ _ _ Hget); [lia | done].
    + intros Hget Hfound Hlen. specialize (Hstore Hget Hfound).
      apply dict_get_None in Hget.
      destruct (full_store _ _ _ _ Hs Hget Hlen Hstore) as (k0 & v0 & rest & ? & ? & ? & ?).
      exists k0, v0, rest. done.
  - intros uid key r.
    pose proof (page_effect uid u) as [_ Heff]. fold key r in Heff.
    split; [|split; [|split]].
    + intros [v Hv]. rewrite Hv in Heff. apply Heff.
    + intros text Hget Hreply Hmark. by apply page_fetched.
    + intros text Hget Hfound Hlen. rewrite Hget in Heff.
      destruct Heff as [[Hf _] | [text' [Ht Hst]]]; [congruence|].
      assert (text' = text) as -> by congruence.
      apply dict_get_None in Hget.
      apply (fresh_store _ _ _ _ Hget); [lia | done].
    + intros text Hget Hfound Hlen. rewrite Hget in Heff.
      destruct Heff as [[Hf _] | [text' [Ht Hst]]]; [congruence|].
      assert (text' = text) as -> by congruence.
      apply dict_get_None in Hget.
      destruct (full_store _ _ _ _ Hp Hget Hlen Hst) as (k0 & v0 & rest & ? & ? & ? & ?).
      exists k0, v0, rest. done.
Qed.

End Caches.

Lemma reachable_searched (n : nat) :
  reachable demo_server (searched demo_server n).
Proof.
  unfold searched. generalize (seq 0 n). intros l.
  assert (G : forall u, reachable demo_server u ->
            reachable demo_server
              (foldl (fun u i => (searchProductOptimized demo_server (Py.str_of_nat i) u).2)
                     u l)).
  { induction l as [|i l IH]; intros u Hu; simpl; [done|].
    apply IH. by constructor. }
  apply G. constructor.
Qed.

Lemma reachable_fetched (n : nat) :
  reachable demo_server (fetched demo_server n).
Proof.
  unfold fetched. generalize (seq 0 n). intros l.
  assert (G : forall u, reachable demo_server u ->
            reachable demo_server
              (foldl (fun u i => (getEditPageOptimized demo_server (Py.str_of_nat i) u).2)
                     u l)).
  { induction l as [|i l IH]; intros u Hu; simpl; [done|].
    apply IH. by constructor. }
  apply G. constructor.
Qed.

(** After the products "0" to "99" have been searched, the search of
    product "100" drops the entry of product "0", and only that one; and
    after the edit pages "0" to "99" have been fetched, the fetch of page
    "100" is answered by the remote system and drops the entry of page "0",
    and only that one. *)
Lemma caches_fifo_and_bounded_witness :
  (exists oldest_value rest value,
     search_cache (searched demo_server 100)
       = (Py.str_of_nat 0, oldest_value) :: rest /\
     search_cache (searchProductOptimized demo_server (Py.str_of_nat 100)
                     (searched demo_server 100)).2
       = rest ++ [(Py.str_of_nat 100, value)]) /\
  (exists rest,
     page_cache (fetched demo_server 100)
       = (EDIT_PREFIX ++ Py.str_of_nat 0, PAGE_MARKER) :: rest /\
     (getEditPageOptimized demo_server (Py.str_of_nat 100) (fetched demo_server 100)).1
       = Some PAGE_MARKER /\
     page_cache (getEditPageOptimized demo_server (Py.str_of_nat 100)
                   (fetched demo_server 100)).2
       = rest ++ [(EDIT_PREFIX ++ Py.str_of_nat 100, PAGE_MARKER)]).
Proof.
  split.
  - destruct (caches_fifo_and_bounded demo_server (searched demo_server 100)
                (reachable_searched 100)) as (_ & Hsearch & _).
    destruct (Hsearch (Py.str_of_nat 100)) as (_ & _ & Hfull).
    destruct Hfull as (k0 & v0 & rest & Hold & Hnew & _ & _).
    + vm_compute. reflexivity.
    + vm_compute. reflexivity.
    + vm_compute. reflexivity.
    + assert (k0 = Py.str_of_nat 0) as ->.
      { revert Hold. vm_compute. intros [= <- _]. reflexivity. }
      eexists v0, rest, _. split; [exact Hold | exact Hnew].
  - destruct (caches_fifo_and_bounded demo_server (fetched demo_server 100)
                (reachable_fetched 100)) as (_ & _ & Hpage).
    destruct (Hpage (Py.str_of_nat 100)) as (_ & Hfetch & _ & Hfull).
    assert (Hmiss : Dict.get (EDIT_PREFIX ++ Py.str_of_nat 100)
                      (page_cache (fetched demo_server 100)) = None)
      by (vm_compute; reflexivity).
    pose proof (Hfetch PAGE_MARKER Hmiss eq_refl eq_refl) as Hsome.
    destruct (Hfull PAGE_MARKER Hmiss Hsome) as (k0 & v0 & rest & Hold & Hnew & _ & _).
    + vm_compute. reflexivity.
    + assert (k0 = EDIT_PREFIX ++ Py.str_of_nat 0 /\ v0 = PAGE_MARKER) as [-> ->].
      { revert Hold. vm_compute. intros [= <- <- _]. split; reflexivity. }
      exists rest. split; [exact Hold|]. split; [exact Hsome | exact Hnew].
Defined.

Example search_cache_101st_key :
  Dict.keys (search_cache (searched demo_server 100)) = List.map Py.str_of_nat (seq 0 100) /\
  Dict.keys (search_cache (searched demo_server 101)) = List.map Py.str_of_nat (seq 1 100).
Proof. split; vm_compute; reflexivity. Qed.

Example page_cache_101st_key :
  Dict.keys (page_cache (fetched demo_server 100))
    = List.map (fun i => EDIT_PREFIX ++ Py.str_of_nat i) (seq 0 100) /\
  Dict.keys (page_cache (fetched demo_server 101))
    = List.map (fun i => EDIT_PREFIX ++ Py.str_of_nat i) (seq 1 100).
Proof. split; vm_compute; reflexivity. Qed.

(** ** The worker *)

Lemma split_cons sep s : exists p ps, Py.split sep s = p :: ps.
Proof. unfold Py.split. destruct (Py.split_go sep 0 s) as [p ps]. eauto. Qed.

Lemma fields_of_head (s placeholder : pystr) :
  match fields_of s with d0 :: _ => d0 | [] => placeholder end = first_field s.
Proof.
  unfold first_field, item0, fields_of.
  by destruct (split_cons COMMA s) as (p & ps & ->).
Qed.

Lemma fields_of_nth0 (s : pystr) : nth 0 (fields_of s) [] = first_field s.
Proof.
  unfold first_field, item0, fields_of.
  by destruct (split_cons COMMA s) as (p & ps & ->).
Qed.

(** The first piece of a split at the commas is the text before the first
    comma. *)
Lemma split_go_before_comma (s : pystr) : (Py.split_go COMMA 0 s).1 = before_comma s.
Proof.
  induction s as [|c r IH]; [done|].
  cbn [Py.split_go before_comma]. unfold COMMA at 1. cbn [Py.startswith].
  rewrite andb_true_r, (N.eqb_sym 44 c).
  destruct (c =? 44); [done|].
  destruct (Py.split_go COMMA 0 r) as [p ps]. cbn [fst] in *. by rewrite IH.
Qed.

Lemma first_field_before_comma (s : pystr) :
  first_field s = Py.strip (before_comma s).
Proof.
  unfold first_field, item0, fields_of, Py.split.
  rewrite <- split_go_before_comma.
  by destruct (Py.split_go COMMA 0 s) as [p ps].
Qed.

Section WorkerFacts.
Context `{PyRuntime} (env : Env) (Hnc : never_cancelled env).

Lemma bind_check_cancel {A} (k : unit -> M A) (w : Worker) :
  (check_cancel env ≫= k) w = k tt (polled w).
Proof. unfold mbind, M_bind, check_cancel. by rewrite Hnc. Qed.

Lemma bind_emit {A} (e : Event) (k : unit -> M A) (w : Worker) :
  (emit e ≫= k) w = k tt (with_event e w).
Proof. reflexivity. Qed.

Lemma bind_append_result {A} (r : UploadResult) (k : unit -> M A) (w : Worker) :
  (append_result r ≫= k) w = k tt (with_result r w).
Proof. reflexivity. Qed.

Lemma bind_on_uploader {A B} (f : Uploader -> A * Uploader) (k : A -> M B)
    (w : Worker) :
  (on_uploader f ≫= k) w = k (f (uploader w)).1 (with_uploader (f (uploader w)).2 w).
Proof. reflexivity. Qed.

Lemma bind_mret {A B} (a : A) (k : A -> M B) (w : Worker) :
  (mret a ≫= k) w = k a w.
Proof. reflexivity. Qed.

Lemma bind_get_results {A} (k : list UploadResult -> M A) (w : Worker) :
  (get_results ≫= k) w = k (upload_results w) w.
Proof. reflexivity. Qed.

Lemma bind_Go {A B} (m : M A) (k : A -> M B) (w w' : Worker) (a : A) :
  m w = Go a w' -> (m ≫= k) w = k a w'.
Proof. unfold mbind, M_bind. by intros ->. Qed.

Lemma connection_failed_loop_spec retry_mode connection_error lines :
  forall i failed_results w,
  exists w',
    connection_failed_loop env retry_mode connection_error i lines failed_results w
      = Go (failed_results ++ List.map (failed_of retry_mode connection_error) lines) w' /\
    upload_results w' = upload_results w /\
    uploader w' = uploader w /\
    events w' = events w ++
      List.map (fun line =>
                  RecordResult (first_field (original_of retry_mode line)) false
                               connection_error) lines.
Proof.
  induction lines as [|line rest IH]; intros i failed_results w.
  - exists w. simpl. rewrite !app_nil_r. by repeat split.
  - cbn [connection_failed_loop]. cbv zeta.
    rewrite bind_check_cancel, fields_of_head, bind_emit.
    destruct (IH (S i)
                (failed_results ++ [failed_of retry_mode connection_error line])
                (with_event (RecordResult (first_field (original_of retry_mode line))
                                          false connection_error) (polled w)))
      as (w' & Hrun & Hres & Hupl & Hev).
    exists w'. unfold failed_of in Hrun at 1. cbv zeta in Hrun. rewrite Hrun.
    simpl in Hres, Hupl, Hev. rewrite Hev, <- !app_assoc. by repeat split.
Qed.

Lemma parse_loop_spec retry_mode lines :
  forall processed_records w,
  exists w',
    parse_loop env retry_mode lines processed_records w
      = Go (processed_records
              ++ List.map (record_of retry_mode) (well_formed_lines retry_mode lines)) w' /\
    upload_results w' = upload_results w ++
      List.map (format_error_of retry_mode) (malformed_lines retry_mode lines) /\
    uploader w' = uploader w /\
    sleeps (events w') = sleeps (events w) /\
    finished_results (events w') = finished_results (events w).
Proof.
  induction lines as [|line rest IH]; intros processed_records w.
  - exists w. simpl. rewrite !app_nil_r. by repeat split.
  - cbn [parse_loop]. cbv zeta. rewrite bind_check_cancel.
    unfold well_formed_lines, malformed_lines in *. cbn [List.filter].
    assert (Hwf : well_formed retry_mode line
                  = negb (length (fields_of (original_of retry_mode line)) <? 13)%nat)
      by reflexivity.
    rewrite Hwf.
    destruct (length (fields_of (original_of retry_mode line)) <? 13)%nat eqn:E;
      cbn [negb].
    + rewrite fields_of_head, bind_append_result, bind_emit.
      destruct (IH processed_records
                  (with_event (RecordResult (first_field (original_of retry_mode line))
                                            false FORMAT_ERROR)
                     (with_result (format_error_of retry_mode line) (polled w))))
        as (w' & Hrun & Hres & Hupl & Hsl & Hfin).
      exists w'. unfold format_error_of in Hrun at 1. cbv zeta in Hrun. rewrite Hrun.
      cbn [upload_results uploader events with_event with_result polled]
        in Hres, Hupl, Hsl, Hfin.
      rewrite Hres, Hupl, Hsl, Hfin, <- !app_assoc.
      unfold sleeps, finished_results. rewrite !omap_app. simpl omap.
      rewrite !app_nil_r. by repeat split.
    + rewrite fields_of_nth0.
      destruct (IH (processed_records ++ [record_of retry_mode line]) (polled w))
        as (w' & Hrun & Hres & Hupl & Hsl & Hfin).
      exists w'. unfold record_of in Hrun at 1. cbv zeta in Hrun. rewrite Hrun.
      cbn [upload_results uploader events polled] in Hres, Hupl, Hsl, Hfin.
      rewrite Hres, Hupl, Hsl, Hfin, <- !app_assoc. by repeat split.
Qed.

Lemma bind_assoc {A B C} (m : M A) (f : A -> M B) (g : B -> M C) (w : Worker) :
  ((m ≫= f) ≫= g) w = (m ≫= (fun a => f a ≫= g)) w.
Proof. unfold mbind, M_bind. by destruct (m w). Qed.

Lemma successes_cons r rs :
  successes (r :: rs) = ((if success r then 1 else 0) + successes rs)%nat.
Proof. unfold successes. simpl. by destruct (success r). Qed.

Lemma omap_snoc_sleeps evs e :
  sleeps (evs ++ [e]) = sleeps evs ++ match e with Sleep ms => [ms] | _ => [] end.
Proof. unfold sleeps. rewrite omap_app. by destruct e. Qed.

Lemma omap_snoc_finished evs e :
  finished_results (evs ++ [e])
  = finished_results evs ++ match e with Finished _ _ rs => [rs] | _ => [] end.
Proof. unfold finished_results. rewrite omap_app. by destruct e. Qed.

Lemma pacing_map_cons (sc sc' i : nat) (r : UploadResult) (rs : list UploadResult) :
  sc' = (sc + (if success r then 1 else 0))%nat ->
  List.map (fun k => pacing_delay (sc + successes (take k (r :: rs))) (i + k))
           (seq 1 (length (r :: rs)))
  = pacing_delay sc' (i + 1)
    :: List.map (fun k => pacing_delay (sc' + successes (take k rs)) (S i + k))
                (seq 1 (length rs)).
Proof.
  intros ->. cbn [length seq List.map take]. rewrite successes_cons.
  f_equal.
  - f_equal. unfold successes. simpl. lia.
  - rewrite <- (seq_shift (length rs) 1), List.map_map.
    apply List.map_ext. intros k. cbn [take]. rewrite successes_cons.
    f_equal; lia.
Qed.

Lemma upload_loop_spec total records :
  forall i success_count w,
  let results := outcomes (server env) (uploader w) records in
  exists w',
    upload_loop env total i records success_count w
      = Go (success_count + successes results)%nat w' /\
    upload_results w' = upload_results w ++ results /\
    uploader w' = uploader_after (server env) (uploader w) records /\
    sleeps (events w') = sleeps (events w) ++
      List.map (fun k => pacing_delay (success_count + successes (take k results)) (i + k))
               (seq 1 (length results)) /\
    finished_results (events w') = finished_results (events w).
Proof.
  induction records as [|[[productFID repairData] original_line] rest IH];
    intros i success_count w; cbv zeta.
  - exists w. simpl. rewrite !app_nil_r, Nat.add_0_r. by repeat split.
  - cbn [upload_loop outcomes uploader_after foldl].
    rewrite bind_check_cancel, bind_emit, bind_on_uploader.
    cbn [uploader with_event polled fst snd].
    destruct (processRepairRecordEnhanced (server env) productFID repairData (uploader w))
      as [[result error_detail] u'] eqn:Hproc.
    cbn [fst snd].
    destruct result.
    all: repeat first [ rewrite bind_assoc | rewrite bind_append_result
                      | rewrite bind_emit | rewrite bind_mret
                      | rewrite bind_check_cancel ].
    all: match goal with
         | IH' : forall i sc w, _ |- context [upload_loop env _ ?j _ ?sc ?w1] =>
           destruct (IH' j sc w1) as (w' & Hrun & Hres & Hupl & Hsl & Hfin)
         end.
    all: cbn [upload_results uploader events with_event with_result with_uploader polled]
        in Hrun, Hres, Hupl, Hsl, Hfin.
    all: exists w'; rewrite Hrun, Hres, Hupl, Hfin, Hsl; unfold uploader_after.
    all: rewrite !omap_snoc_sleeps, !omap_snoc_finished, !app_nil_r, <- !app_assoc.
    all: rewrite successes_cons; cbn [success].
    all: split; [f_equal; lia|]; split; [done|]; split; [done|]; split; [|done].
    all: f_equal; symmetry; apply pacing_map_cons; cbn [success]; lia.
Qed.

Lemma paces_upload (results : list UploadResult) :
  List.map (fun k => pacing_delay (0 + successes (take k results)) (0 + k))
           (seq 1 (length results)) = paces results.
Proof. reflexivity. Qed.

(** The connection check itself makes no call for a record. *)
Lemma connect_calls (u : Uploader) :
  Forall (fun c => per_record_call c = false) (calls u) ->
  Forall (fun c => per_record_call c = false)
         (calls (checkWebConnection (server env) u).2).
Proof.
  intros Hu. unfold checkWebConnection.
  assert (Hlog : forall c v, per_record_call c = false ->
            Forall (fun c => per_record_call c = false) (calls v) ->
            Forall (fun c => per_record_call c = false) (calls (log_call c v))).
  { intros c v Hc Hv. simpl. apply Forall_app. split; [done|]. by constructor. }
  pose proof (Hlog GetLanding u eq_refl Hu) as H1.
  pose proof (Hlog PostLogin _ eq_refl H1) as H2.
  pose proof (Hlog GetSystemPage _ eq_refl H2) as H3.
  destruct (landing_reply (server env)) as [?|c1 ?]; [exact H1|].
  destruct (c1 =? 200)%nat; cbn [negb]; [|exact H1].
  destruct (login_reply (server env)) as [?|c2 l]; [exact H2|].
  destruct (c2 =? 200)%nat; cbn [negb]; [|exact H2].
  destruct (_ || _); [exact H2|].
  destruct (system_reply (server env)) as [?|c3 ?]; [exact H3|].
  destruct (c3 =? 200)%nat; exact H3.
Qed.

Lemma process_lines_down retry_mode lines text w :
  (checkWebConnection (server env) new_uploader).1 = Some text ->
  let connection_error := categorizeError text in
  let failed_results := List.map (failed_of retry_mode connection_error) lines in
  exists w',
    process_lines env retry_mode lines w = Done w' /\
    upload_results w' = upload_results w /\
    uploader w' = (checkWebConnection (server env) new_uploader).2 /\
    events w' = events w ++
      [Status (ConnectFailed connection_error)] ++
      List.map (fun line =>
                  RecordResult (first_field (original_of retry_mode line)) false
                               connection_error) lines ++
      [Finished false (ConnectionLost connection_error (length lines)) failed_results].
Proof.
  intros Hdown. cbv zeta. unfold process_lines, create_uploader.
  rewrite bind_on_uploader. cbn [fst snd]. rewrite bind_on_uploader.
  cbn [uploader with_uploader]. rewrite Hdown. rewrite bind_emit.
  match goal with |- context [(connection_failed_loop env _ ?e _ _ _ ≫= _) ?w1] =>
    destruct (connection_failed_loop_spec retry_mode e lines 0%nat [] w1)
      as (w' & Hrun & Hres & Hupl & Hev) end.
  rewrite (bind_Go _ _ _ _ _ Hrun). unfold finish. eexists. split; [reflexivity|].
  cbn [upload_results uploader events with_event with_uploader] in *.
  rewrite Hres, Hupl, Hev, app_nil_l, length_map, <- !app_assoc. by repeat split.
Qed.

Lemma summarize_spec retry_mode success_count w :
  exists ok message,
    summarize env retry_mode success_count w
    = Done (with_event (Finished ok message (upload_results w))
              (with_event (Progress 100) (polled w))).
Proof.
  unfold summarize. rewrite bind_check_cancel, bind_emit, bind_get_results.
  cbn [upload_results with_event polled].
  destruct (failures (upload_results w) =? 0)%nat; [by eexists _, _|].
  destruct (0 <? success_count)%nat; by eexists _, _.
Qed.

Lemma process_lines_connected retry_mode lines w :
  (checkWebConnection (server env) new_uploader).1 = None ->
  let u0 := (checkWebConnection (server env) new_uploader).2 in
  let records := List.map (record_of retry_mode) (well_formed_lines retry_mode lines) in
  exists w' ok message,
    process_lines env retry_mode lines w = Done w' /\
    upload_results w' = upload_results w ++
      List.map (format_error_of retry_mode) (malformed_lines retry_mode lines) ++
      outcomes (server env) u0 records /\
    uploader w' = uploader_after (server env) u0 records /\
    sleeps (events w') = sleeps (events w) ++ paces (outcomes (server env) u0 records) /\
    finished_results (events w') = finished_results (events w) ++ [upload_results w'] /\
    last (events w') = Some (Finished ok message (upload_results w')).
Proof.
  intros Hup. cbv zeta. unfold process_lines, create_uploader.
  rewrite bind_on_uploader. cbn [fst snd]. rewrite bind_on_uploader.
  cbn [uploader with_uploader]. rewrite Hup.
  rewrite bind_emit, bind_emit, bind_check_cancel, bind_emit.
  match goal with |- context [(parse_loop env _ _ _ ≫= _) ?w1] =>
    destruct (parse_loop_spec retry_mode lines [] w1)
      as (w1' & Hrun1 & Hres1 & Hupl1 & Hsl1 & Hfin1) end.
  rewrite (bind_Go _ _ _ _ _ Hrun1). rewrite app_nil_l, length_map.
  destruct (upload_loop_spec (length (well_formed_lines retry_mode lines))
              (List.map (record_of retry_mode) (well_formed_lines retry_mode lines))
              0%nat 0%nat w1')
    as (w2 & Hrun2 & Hres2 & Hupl2 & Hsl2 & Hfin2).
  rewrite (bind_Go _ _ _ _ _ Hrun2).
  destruct (summarize_spec retry_mode
              (0 + successes (outcomes (server env) (uploader w1')
                                (List.map (record_of retry_mode)
                                          (well_formed_lines retry_mode lines))))%nat w2)
    as (ok & message & Hsum).
  rewrite Hsum. eexists _, ok, message. split; [reflexivity|].
  cbn [upload_results uploader events with_event with_uploader polled] in *.
  rewrite Hupl1 in *. rewrite paces_upload in Hsl2.
  rewrite last_snoc.
  rewrite !omap_snoc_sleeps, !omap_snoc_finished, !app_nil_r in *.
  rewrite Hres2, Hres1, Hupl2, Hsl2, Hsl1, Hfin2, Hfin1, <- !app_assoc.
  by repeat split.
Qed.

Lemma filterFailedRecords_nil : filterFailedRecords [] = [].
Proof. reflexivity. Qed.

Lemma run_lines record_file raw retry_mode w :
  ledger_lines retry_mode raw <> [] ->
  run env record_file (Lines raw) retry_mode w
  = process_lines env retry_mode (ledger_lines retry_mode raw)
      (polled (with_event (Progress 10) (with_event (Status Connecting) (polled w)))).
Proof.
  intros Hne. unfold run, announce, ledger_lines in *.
  rewrite bind_check_cancel.
  repeat first [ rewrite bind_assoc | rewrite bind_emit | rewrite bind_check_cancel ].
  destruct (read_lines raw) as [|l ls] eqn:Hread.
  - by destruct retry_mode.
  - destruct retry_mode; [|done].
    by destruct (filterFailedRecords (l :: ls)).
Qed.

End WorkerFacts.

(** ** The runs of the worker *)

Section WorkerRuns.
Context `{PyRuntime} (env : Env).

(** Which calls the methods add to the log of the session. *)

Lemma search_calls productFID (u : Uploader) :
  calls (searchProductOptimized (server env) productFID u).2 = calls u \/
  calls (searchProductOptimized (server env) productFID u).2
    = calls u ++ [Search productFID].
Proof.
  unfold searchProductOptimized.
  repeat match goal with
         | |- context [match ?x with _ => _ end] => destruct x; simpl; auto
         | |- context [if ?x then _ else _] => destruct x; simpl; auto
         end.
Qed.

Lemma page_calls uid (u : Uploader) :
  calls (getEditPageOptimized (server env) uid u).2 = calls u \/
  calls (getEditPageOptimized (server env) uid u).2 = calls u ++ [FetchEditPage uid].
Proof.
  unfold getEditPageOptimized. cbv zeta. generalize (EDIT_PREFIX ++ json_str uid).
  intros key.
  repeat match goal with
         | |- context [match ?x with _ => _ end] => destruct x; simpl; auto
         | |- context [if ?x then _ else _] => destruct x; simpl; auto
         end.
Qed.

Lemma submit_calls repairData pageContent uid (u : Uploader) :
  calls (submitOptimized (server env) repairData pageContent uid u).2
    = calls u ++ [Submit uid].
Proof.
  unfold submitOptimized.
  by destruct (submit_reply (server env) (calls u) repairData pageContent uid).
Qed.

(** The searches of one record are searches of its product. *)
Lemma process_calls productFID repairData (u : Uploader) :
  exists added,
    calls (processRepairRecordEnhanced (server env) productFID repairData u).2
      = calls u ++ added /\
    forall fid, Search fid ∈ added -> fid = productFID.
Proof.
  unfold processRepairRecordEnhanced.
  pose proof (search_calls productFID u) as Hs.
  destruct (searchProductOptimized (server env) productFID u) as [found u1].
  cbn [snd] in Hs.
  assert (Hadd1 : exists a1, calls u1 = calls u ++ a1 /\
                    forall fid, Search fid ∈ a1 -> fid = productFID).
  { destruct Hs as [-> | ->].
    - exists []. rewrite app_nil_r. split; [done|]. by intros ? ?%elem_of_nil.
    - eexists. split; [done|]. by intros ? [= ->]%list_elem_of_singleton. }
  destruct Hadd1 as (a1 & Hc1 & Ha1).
  destruct found; cbn [negb]; [|by exists a1].
  pose proof (page_calls (uRequestID u1) u1) as Hp.
  destruct (getEditPageOptimized (server env) (uRequestID u1) u1) as [page u2].
  cbn [snd] in Hp.
  assert (Hadd2 : exists a2, calls u2 = calls u ++ a2 /\
                    forall fid, Search fid ∈ a2 -> fid = productFID).
  { destruct Hp as [-> | ->].
    - by exists a1.
    - exists (a1 ++ [FetchEditPage (uRequestID u1)]). rewrite Hc1, app_assoc.
      split; [done|]. intros fid [?|Hin%list_elem_of_singleton]%elem_of_app; [auto|done]. }
  destruct Hadd2 as (a2 & Hc2 & Ha2).
  destruct page as [[|c page]|]; [by exists a2| |by exists a2].
  pose proof (submit_calls repairData (c :: page) (uRequestID u2) u2) as Hsub.
  destruct (submitOptimized (server env) repairData (c :: page) (uRequestID u2) u2)
    as [ok u3].
  cbn [snd] in Hsub.
  assert (Hadd3 : exists a3, calls u3 = calls u ++ a3 /\
                    forall fid, Search fid ∈ a3 -> fid = productFID).
  { exists (a2 ++ [Submit (uRequestID u2)]). rewrite Hsub, Hc2, app_assoc.
    split; [done|]. intros fid [?|Hin%list_elem_of_singleton]%elem_of_app; [auto|done]. }
  by destruct ok.
Qed.

Lemma uploader_after_calls records : forall u : Uploader,
  exists added,
    calls (uploader_after (server env) u records) = calls u ++ added /\
    forall fid, Search fid ∈ added -> exists record, record ∈ records /\ record.1.1 = fid.
Proof.
  induction records as [|record rest IH]; intros u.
  - exists []. simpl. rewrite app_nil_r. split; [done|]. by intros ? ?%elem_of_nil.
  - unfold uploader_after. cbn [foldl].
    destruct (process_calls record.1.1 record.1.2 u) as (a1 & Hc1 & Ha1).
    destruct (IH (processRepairRecordEnhanced (server env) record.1.1 record.1.2 u).2)
      as (a2 & Hc2 & Ha2).
    unfold uploader_after in Hc2.
    exists (a1 ++ a2). rewrite Hc2, Hc1, app_assoc. split; [done|].
    intros fid [Hin|Hin]%elem_of_app.
    + exists record. split; [left | by rewrite (Ha1 fid Hin)].
    + destruct (Ha2 fid Hin) as (r & Hr & <-). exists r. split; [by right | done].
Qed.

Lemma outcomes_original_lines (u : Uploader) records :
  List.map original_line (outcomes (server env) u records) = List.map snd records.
Proof.
  revert u. induction records as [|[[fid rd] orig] rest IH]; intros u; simpl; [done|].
  by rewrite IH.
Qed.

Lemma outcomes_length (u : Uploader) records :
  length (outcomes (server env) u records) = length records.
Proof.
  revert u. induction records as [|[[fid rd] orig] rest IH]; intros u; simpl; [done|].
  by rewrite IH.
Qed.

Lemma filter_split_length {A} (p : A -> bool) (l : list A) :
  (length (List.filter (fun x => negb (p x)) l) + length (List.filter p l))%nat = length l.
Proof. induction l as [|x l IH]; simpl; [done|]. destruct (p x); simpl; lia. Qed.

Lemma filter_split_perm {A} (p : A -> bool) (l : list A) :
  List.filter (fun x => negb (p x)) l ++ List.filter p l ≡ₚ l.
Proof.
  induction l as [|x l IH]; simpl; [done|]. destruct (p x); simpl.
  - rewrite <- Permutation_middle. by constructor.
  - by constructor.
Qed.

Hypothesis Hnc : never_cancelled env.

(** A run that has no line to process reports an empty list of results:
    the file is missing or unreadable, or it has no line left after blank
    lines are dropped and, in retry mode, the filter is applied. *)
Lemma run_without_lines (record_file : pystr) (file : LedgerFile) (retry_mode : bool) :
  match file with
  | Lines raw => ledger_lines retry_mode raw = []
  | _ => True
  end ->
  finished_results (events (final (run env record_file file retry_mode new_worker)))
  = [[]].
Proof.
  unfold run, announce, ledger_lines. rewrite (bind_check_cancel env Hnc).
  destruct file as [|text|raw]; [done| |].
  - intros _.
    repeat first [ rewrite bind_assoc | rewrite bind_emit
                 | rewrite (bind_check_cancel env Hnc) ].
    done.
  - intros Hnone.
    repeat first [ rewrite bind_assoc | rewrite bind_emit
                 | rewrite (bind_check_cancel env Hnc) ].
    destruct (read_lines raw) as [|l ls] eqn:Hread; [done|].
    destruct retry_mode; [|done]. by rewrite Hnone.
Qed.

(** C3.  When the connection check fails on a non-empty set of lines, the
    run ends with one [finished] signal that reports failure and carries one
    failed result per line, every one with the same classified category; the
    session has made no search, edit-page or submit call. *)
Theorem connection_failure_fails_every_record
    (record_file : pystr) (raw : list pystr) (retry_mode : bool) (text : pystr) :
  ledger_lines retry_mode raw <> [] ->
  (checkWebConnection (server env) new_uploader).1 = Some text ->
  let lines := ledger_lines retry_mode raw in
  let category := categorizeError text in
  let w := final (run env record_file (Lines raw) retry_mode new_worker) in
  exists results,
    last (events w)
      = Some (Finished false (ConnectionLost category (length lines)) results) /\
    finished_results (events w) = [results] /\
    length results = length lines /\
    results = List.map (failed_of retry_mode category) lines /\
    Forall (fun r => success r = false /\ error r = category) results /\
    Forall (fun c => per_record_call c = false) (calls (uploader w)).
Proof.
  intros Hne Hdown lines category w.
  unfold w. rewrite (run_lines env Hnc) by done. fold lines.
  match goal with |- context [process_lines env _ _ ?w0] =>
    destruct (process_lines_down env Hnc retry_mode lines text w0 Hdown)
      as (w' & Hrun & Hres & Hupl & Hev) end.
  rewrite Hrun. cbn [final]. fold category in Hev.
  exists (List.map (failed_of retry_mode category) lines).
  rewrite Hev, Hupl.
  split. { rewrite !app_assoc. apply last_snoc. }
  split.
  { unfold finished_results. rewrite !omap_app. simpl.
    assert (Hnone : forall ls : list pystr,
              omap (fun e => match e with
                             | Finished _ _ results => Some results
                             | _ => None
                             end)
                   (List.map (fun line =>
                                RecordResult (first_field (original_of retry_mode line))
                                             false category) ls) = []).
    { induction ls; simpl; done. }
    by rewrite Hnone. }
  split. { by rewrite length_map. }
  split; [done|]. split.
  - apply Forall_forall. intros r (line & -> & _)%list_elem_of_fmap. done.
  - apply connect_calls. constructor.
Qed.

(** C4, as the code has it.  For a line with fewer than 13 fields the run
    records a failed result with the category 数据格式错误 whose id is the
    text of the line before its first comma, stripped.  No placeholder is
    ever used: the split always gives a first field, so the id of a line
    whose first field is absent is the empty string.  The session is driven by the
    well-formed lines only: its final state is the one reached by
    processing their records in order, every search it makes is for the
    first field of a well-formed line, and when no line is well-formed it
    makes no search, edit-page or submit call at all. *)
Theorem malformed_line_is_format_error
    (record_file : pystr) (raw : list pystr) (retry_mode : bool) :
  ledger_lines retry_mode raw <> [] ->
  (checkWebConnection (server env) new_uploader).1 = None ->
  let lines := ledger_lines retry_mode raw in
  let w := final (run env record_file (Lines raw) retry_mode new_worker) in
  (forall line, line ∈ lines ->
     (length (fields_of (original_of retry_mode line)) < 13)%nat ->
     let display_id := Py.strip (before_comma (original_of retry_mode line)) in
     {| original_line := original_of retry_mode line; success := false;
        error := FORMAT_ERROR; product_fid := display_id |} ∈ upload_results w /\
     (before_comma (original_of retry_mode line) = [] -> display_id = [])) /\
  uploader w
    = uploader_after (server env) (checkWebConnection (server env) new_uploader).2
        (List.map (record_of retry_mode) (well_formed_lines retry_mode lines)) /\
  (forall fid, Search fid ∈ calls (uploader w) ->
     exists line, line ∈ lines /\ well_formed retry_mode line = true /\
                  first_field (original_of retry_mode line) = fid) /\
  (well_formed_lines retry_mode lines = [] ->
     Forall (fun c => per_record_call c = false) (calls (uploader w))).
Proof.
  intros Hne Hup lines w.
  unfold w. rewrite (run_lines env Hnc) by done. fold lines.
  match goal with |- context [process_lines env _ _ ?w0] =>
    destruct (process_lines_connected env Hnc retry_mode lines w0 Hup)
      as (w' & ok & message & Hrun & Hres & Hupl & _) end.
  rewrite Hrun. cbn [final]. cbn [upload_results polled with_event new_worker] in Hres.
  pose proof (connect_calls env new_uploader ltac:(constructor)) as Hconn.
  split; [|split; [done|split]].
  - intros line Hin Hshort. cbv zeta. split; [|by intros ->].
    rewrite <- first_field_before_comma.
    rewrite Hres, app_nil_l. apply elem_of_app. left.
    apply list_elem_of_fmap. exists line. split; [done|].
    unfold malformed_lines. apply list_elem_of_In, filter_In.
    split; [by apply list_elem_of_In|].
    unfold well_formed. rewrite negb_involutive. by apply Nat.ltb_lt.
  - intros fid Hin. rewrite Hupl in Hin.
    destruct (uploader_after_calls
                (List.map (record_of retry_mode) (well_formed_lines retry_mode lines))
                (checkWebConnection (server env) new_uploader).2)
      as (added & Hcalls & Hadded).
    rewrite Hcalls in Hin. apply elem_of_app in Hin as [Hin|Hin].
    + rewrite Forall_forall in Hconn. by specialize (Hconn _ Hin).
    + destruct (Hadded fid Hin) as (record & (line & -> & Hline)%list_elem_of_fmap & <-).
      unfold well_formed_lines in Hline.
      apply list_elem_of_In, filter_In in Hline as [Hl Hwf].
      exists line. split; [by apply list_elem_of_In|]. done.
  - intros Hnone. rewrite Hupl, Hnone. exact Hconn.
Qed.

(** C1, as the code has it.  The run ends with one [finished] signal that
    carries the list of results; the list has one result per line, and it
    holds first the results of the lines with fewer than 13 fields, in the
    order of the input, and then the results of the well-formed lines, in
    the order of the input. *)
Theorem results_malformed_first
    (record_file : pystr) (raw : list pystr) (retry_mode : bool) :
  ledger_lines retry_mode raw <> [] ->
  (checkWebConnection (server env) new_uploader).1 = None ->
  let lines := ledger_lines retry_mode raw in
  let w := final (run env record_file (Lines raw) retry_mode new_worker) in
  finished_results (events w) = [upload_results w] /\
  length (upload_results w) = length lines /\
  List.map original_line (upload_results w)
    = List.map (original_of retry_mode) (malformed_lines retry_mode lines)
      ++ List.map (original_of retry_mode) (well_formed_lines retry_mode lines) /\
  List.map original_line (upload_results w) ≡ₚ List.map (original_of retry_mode) lines.
Proof.
  intros Hne Hup lines w.
  unfold w. rewrite (run_lines env Hnc) by done. fold lines.
  match goal with |- context [process_lines env _ _ ?w0] =>
    destruct (process_lines_connected env Hnc retry_mode lines w0 Hup)
      as (w' & ok & message & Hrun & Hres & _ & _ & Hfin & _) end.
  rewrite Hrun. cbn [final].
  cbn [upload_results events polled with_event new_worker] in Hres, Hfin.
  assert (Hmap : List.map original_line (upload_results w')
                 = List.map (original_of retry_mode) (malformed_lines retry_mode lines)
                   ++ List.map (original_of retry_mode)
                        (well_formed_lines retry_mode lines)).
  { rewrite Hres, app_nil_l, List.map_app, outcomes_original_lines, !List.map_map.
    done. }
  split; [done|]. split; [|split; [done|]].
  - rewrite Hres, app_nil_l, length_app, outcomes_length, !length_map.
    apply filter_split_length.
  - rewrite Hmap, <- List.map_app. apply Permutation_map, filter_split_perm.
Qed.

(** C7.  The pauses of a run are, record after record of the well-formed
    lines, the delay chosen from the number of successes so far and the
    number of records processed so far.  That delay is 150ms when nothing has
    succeeded yet, and otherwise 50ms, 80ms, 150ms or 300ms as the float
    quotient of the two counts is above 0.95, above 0.9, above 0.7, or not;
    the rates 0.96, 0.91, 0.75 and 0.50 give 50ms, 80ms, 150ms and 300ms. *)
Theorem pacing_follows_success_rate
    (record_file : pystr) (raw : list pystr) (retry_mode : bool) :
  ledger_lines retry_mode raw <> [] ->
  (checkWebConnection (server env) new_uploader).1 = None ->
  let lines := ledger_lines retry_mode raw in
  let w := final (run env record_file (Lines raw) retry_mode new_worker) in
  let uploaded := drop (length (malformed_lines retry_mode lines)) (upload_results w) in
  sleeps (events w)
    = List.map (fun k => pacing_delay (successes (take k uploaded)) k)
               (seq 1 (length uploaded)) /\
  length uploaded = length (well_formed_lines retry_mode lines) /\
  (forall successes_so_far processed : nat,
     let rate := success_rate successes_so_far processed in
     (successes_so_far = 0%nat -> pacing_delay successes_so_far processed = 150%Z) /\
     ((0 < successes_so_far)%nat -> (0.95 <? rate)%float = true ->
        pacing_delay successes_so_far processed = 50%Z) /\
     ((0 < successes_so_far)%nat -> (0.95 <? rate)%float = false ->
      (0.9 <? rate)%float = true ->
        pacing_delay successes_so_far processed = 80%Z) /\
     ((0 < successes_so_far)%nat -> (0.95 <? rate)%float = false ->
      (0.9 <? rate)%float = false -> (0.7 <? rate)%float = true ->
        pacing_delay successes_so_far processed = 150%Z) /\
     ((0 < successes_so_far)%nat -> (0.95 <? rate)%float = false ->
      (0.9 <? rate)%float = false -> (0.7 <? rate)%float = false ->
        pacing_delay successes_so_far processed = 300%Z)) /\
  pacing_delay 24 25 = 50%Z /\ pacing_delay 91 100 = 80%Z /\
  pacing_delay 3 4 = 150%Z /\ pacing_delay 1 2 = 300%Z.
Proof.
  intros Hne Hup lines w uploaded.
  assert (Hrunw : exists rs,
             upload_results w
               = List.map (format_error_of retry_mode) (malformed_lines retry_mode lines)
                 ++ rs /\
             length rs = length (well_formed_lines retry_mode lines) /\
             sleeps (events w) = paces rs).
  { unfold w. rewrite (run_lines env Hnc) by done. fold lines.
    match goal with |- context [process_lines env _ _ ?w0] =>
      destruct (process_lines_connected env Hnc retry_mode lines w0 Hup)
        as (w' & ok & message & Hrun & Hres & _ & Hsl & _) end.
    rewrite Hrun. cbn [final].
    cbn [upload_results events polled with_event new_worker] in Hres, Hsl.
    eexists. split; [exact Hres|]. split; [by rewrite outcomes_length, length_map|].
    rewrite Hsl. unfold sleeps. simpl. done. }
  destruct Hrunw as (rs & Hres & Hlen & Hsl).
  assert (Hupl : uploaded = rs).
  { unfold uploaded. rewrite Hres.
    rewrite <- (length_map (format_error_of retry_mode)). by rewrite drop_app_length. }
  rewrite Hupl. split; [exact Hsl|]. split; [exact Hlen|]. split.
  - intros s n rate. unfold pacing_delay. fold (success_rate s n). fold rate.
    repeat split.
    + by intros ->.
    + intros Hs%Nat.ltb_lt ->. by rewrite Hs.
    + intros Hs%Nat.ltb_lt -> ->. by rewrite Hs.
    + intros Hs%Nat.ltb_lt -> -> ->. by rewrite Hs.
    + intros Hs%Nat.ltb_lt -> -> ->. by rewrite Hs.
  - repeat split; vm_compute; reflexivity.
Qed.

End WorkerRuns.


(** ** The task manager *)

Lemma endswith_suffix p s : Py.endswith p s = true <-> exists b, s = b ++ p.
Proof.
  unfold Py.endswith. rewrite startswith_prefix. split.
  - intros [t Ht]. exists (rev t).
    rewrite <- (rev_involutive s), Ht, rev_app_distr, rev_involutive. done.
  - intros [b ->]. exists (rev b). by rewrite rev_app_distr.
Qed.

Lemma strip_marker_fail b : strip_marker (b ++ FAIL_MARK) = b.
Proof.
  unfold strip_marker.
  assert (Py.endswith FAIL_MARK (b ++ FAIL_MARK) = true) as ->
    by (apply endswith_suffix; eauto).
  rewrite length_app. simpl length. rewrite Nat.add_sub. by rewrite take_app_length.
Qed.

Lemma strip_marker_done b : strip_marker (b ++ DONE_MARK) = b.
Proof.
  unfold strip_marker.
  assert (Py.endswith FAIL_MARK (b ++ DONE_MARK) = false) as ->.
  { unfold Py.endswith. rewrite rev_app_distr. reflexivity. }
  assert (Py.endswith DONE_MARK (b ++ DONE_MARK) = true) as ->
    by (apply endswith_suffix; eauto).
  rewrite length_app. simpl length. rewrite Nat.add_sub. by rewrite take_app_length.
Qed.

Lemma strip_marker_other base :
  (forall b, base <> b ++ FAIL_MARK) -> (forall b, base <> b ++ DONE_MARK) ->
  strip_marker base = base.
Proof.
  intros Hf Hd. unfold strip_marker.
  destruct (Py.endswith FAIL_MARK base) eqn:E1.
  { apply endswith_suffix in E1 as [b ->]. by destruct (Hf b). }
  destruct (Py.endswith DONE_MARK base) eqn:E2; [|done].
  apply endswith_suffix in E2 as [b ->]. by destruct (Hd b).
Qed.

Lemma has_failure_spec results :
  has_failure results = true <-> exists r, r ∈ results /\ success r = false.
Proof.
  unfold has_failure. rewrite existsb_exists. split.
  - intros (r & Hr & Hs). exists r. split; [by apply list_elem_of_In|].
    by destruct (success r).
  - intros (r & Hr & Hs). exists r. split; [by apply list_elem_of_In|]. by rewrite Hs.
Qed.

Section TaskManager.
Context `{PyRuntime}.

(** C5.  For a non-empty list of results, the rewrite of the ledger writes
    one line per result, [originalLine // status] with the status [success]
    for a success and otherwise the error of the result, or 提交失败 when that
    error is empty or is [fail].  The file is named after the base name of
    the old one, without a final [_fail] or [_done], followed by [_fail.txt]
    when some result failed and by [_done.txt] otherwise.  The old file is
    removed only after the new one is written and only when the names
    differ; when the new file cannot be opened nothing changes. *)
Theorem ledger_rewrite (original_file : pystr) (results : list UploadResult)
    (fs : FileSystem) :
  results <> [] ->
  let base_name := (splitext original_file).1 in
  let new_filename :=
    strip_marker base_name ++ (if has_failure results then FAIL_MARK else DONE_MARK)
      ++ TXT in
  let line_of r :=
    original_line r ++ MARK
      ++ (if success r then SUCCESS
          else if Py.is_empty (error r) || Py.eqb (error r) FAIL then SUBMIT_FAILED
          else error r)
      ++ NEWLINE in
  let new_lines := List.map line_of results in
  let out := updateFileWithResults original_file results fs in
  ((forall b, base_name = b ++ FAIL_MARK -> strip_marker base_name = b) /\
   (forall b, base_name = b ++ DONE_MARK -> strip_marker base_name = b) /\
   ((forall b, base_name <> b ++ FAIL_MARK) -> (forall b, base_name <> b ++ DONE_MARK) ->
      strip_marker base_name = base_name) /\
   (has_failure results = true <-> exists r, r ∈ results /\ success r = false)) /\
  (write_ok fs new_filename = false -> out = (None, fs)) /\
  (write_ok fs new_filename = true ->
     out.1 = Some new_filename /\
     files out.2 !! new_filename = Some new_lines /\
     (forall path, path <> new_filename -> path <> original_file ->
        files out.2 !! path = files fs !! path) /\
     (journal out.2 = journal fs ++ [WriteLines new_filename new_lines] /\
        (original_file <> new_filename ->
           files out.2 !! original_file = files fs !! original_file)
      \/
      journal out.2
        = journal fs ++ [WriteLines new_filename new_lines; Remove original_file] /\
        new_filename <> original_file /\ is_Some (files fs !! original_file) /\
        files out.2 !! original_file = None) /\
     (new_filename <> original_file -> is_Some (files fs !! original_file) ->
      remove_ok fs original_file = true ->
        files out.2 !! original_file = None)).
Proof.
  intros Hne base_name new_filename line_of new_lines out.
  split.
  { split; [|split; [|split]].
    - intros b ->. apply strip_marker_fail.
    - intros b ->. apply strip_marker_done.
    - apply strip_marker_other.
    - apply has_failure_spec. }
  assert (Hlines : List.map render results = new_lines).
  { apply List.map_ext. intros r. unfold render, status_text, line_of.
    destruct (success r); [done|].
    by destruct (Py.is_empty (error r)), (Py.eqb (error r) FAIL). }
  assert (Hout : out =
            if write_ok fs new_filename then
              (Some new_filename,
               if bool_decide (is_Some (files fs !! original_file))
                  && negb (Py.eqb new_filename original_file)
               then if remove_ok fs original_file
                    then remove_file original_file (write_file new_filename new_lines fs)
                    else write_file new_filename new_lines fs
               else write_file new_filename new_lines fs)
            else (None, fs)).
  { unfold out, updateFileWithResults. destruct results as [|r0 rs]; [done|].
    fold (new_filename_of original_file (r0 :: rs)).
    change (new_filename_of original_file (r0 :: rs)) with new_filename.
    rewrite Hlines. destruct (write_ok fs new_filename); [|done]. f_equal.
    unfold exists_file. cbn [files write_file remove_ok].
    rewrite lookup_insert_eq. rewrite (bool_decide_eq_true_2 _ (mk_is_Some _ _ eq_refl)).
    cbn [andb]. unfold Py.eqb.
    destruct (decide (new_filename = original_file)) as [Heq|Hneq].
    - rewrite (bool_decide_eq_true_2 _ Heq). cbn [negb]. by rewrite !andb_false_r.
    - rewrite (bool_decide_eq_false_2 _ Hneq). cbn [negb].
      by rewrite lookup_insert_ne. }
  split.
  { intros Hw. by rewrite Hout, Hw. }
  intros Hw. rewrite Hout, Hw. cbn [fst snd]. unfold Py.eqb.
  destruct (decide (new_filename = original_file)) as [Heq|Hneq].
  - rewrite (bool_decide_eq_true_2 _ Heq), andb_false_r.
    cbn [files journal write_file]. rewrite lookup_insert_eq.
    split; [done|]. split; [done|]. split.
    { intros path Hp _. by rewrite lookup_insert_ne. }
    split; [left; split; [done | by intros ?] | by intros ?].
  - rewrite (bool_decide_eq_false_2 _ Hneq), andb_true_r.
    destruct (decide (is_Some (files fs !! original_file))) as [Hex|Hnex].
    + rewrite (bool_decide_eq_true_2 _ Hex).
      destruct (remove_ok fs original_file) eqn:Hrm.
      * cbn [files journal write_file remove_file].
        rewrite lookup_delete_ne, lookup_insert_eq by done.
        rewrite lookup_delete_eq, <- app_assoc.
        split; [done|]. split; [done|]. split.
        { intros path Hp Ho. by rewrite lookup_delete_ne, lookup_insert_ne. }
        split; [right; done | done].
      * cbn [files journal write_file]. rewrite lookup_insert_eq.
        split; [done|]. split; [done|]. split.
        { intros path Hp _. by rewrite lookup_insert_ne. }
        split; [left; split; [done|]; intros ?; by rewrite lookup_insert_ne | done].
    + rewrite (bool_decide_eq_false_2 _ Hnex).
      cbn [files journal write_file]. rewrite lookup_insert_eq.
      split; [done|]. split; [done|]. split.
      { intros path Hp _. by rewrite lookup_insert_ne. }
      split; [left; split; [done|]; intros ?; by rewrite lookup_insert_ne | done].
Qed.

(** C10.  With an empty list of results the rewrite returns [None] and
    leaves the files as they are, and the completion handler changes neither
    the files nor the file path (or the original file) of any task. *)
Theorem empty_results_leave_ledger (ledger task_id : pystr)
    (tasks : gmap pystr Task) (fs : FileSystem) :
  updateFileWithResults ledger [] fs = (None, fs) /\
  (onTaskFinished task_id [] tasks fs).2 = fs /\
  (forall id, file_path <$> ((onTaskFinished task_id [] tasks fs).1 !! id)
              = file_path <$> (tasks !! id)) /\
  (forall id, original_file <$> ((onTaskFinished task_id [] tasks fs).1 !! id)
              = original_file <$> (tasks !! id)).
Proof.
  split; [done|]. unfold onTaskFinished.
  destruct (tasks !! task_id) as [task|] eqn:Htask; [|done].
  cbn [updateFileWithResults fst snd]. split; [done|].
  split; intros id; (destruct (decide (id = task_id)) as [->|Hne];
    [rewrite lookup_insert_eq, Htask | rewrite lookup_insert_ne by done]; done).
Qed.

End TaskManager.

(** ** Deleting a record *)

Lemma should_delete_ledger_id product_fid line :
  should_delete product_fid (Py.strip line) = Py.eqb (ledger_id line) product_fid.
Proof.
  unfold should_delete, ledger_id, original_of.
  assert (Hm : forall x, isExactProductMatch x product_fid
                         = Py.eqb (first_field x) product_fid).
  { intros x. unfold isExactProductMatch, first_field, item0, fields_of.
    destruct (split_cons COMMA x) as (p & ps & ->). simpl. by rewrite strip_idem. }
  destruct (Py.contains MARK (Py.strip line)); apply Hm.
Qed.

Lemma delete_loop_spec product_fid lines : forall filtered_lines deleted_count,
  delete_loop product_fid lines filtered_lines deleted_count
  = (filtered_lines ++ kept product_fid lines,
     (deleted_count + found product_fid lines)%nat).
Proof.
  induction lines as [|line rest IH]; intros acc n.
  - simpl. by rewrite app_nil_r, Nat.add_0_r.
  - cbn [delete_loop]. cbv zeta. unfold kept, found in *. cbn [List.filter].
    fold (blank line). destruct (blank line); cbn [negb andb].
    + apply IH.
    + rewrite should_delete_ledger_id.
      destruct (Py.eqb (ledger_id line) product_fid); cbn [negb].
      * rewrite IH. cbn [length]. f_equal. lia.
      * rewrite IH, <- app_assoc. done.
Qed.

(** C9, as the code has it.  When the file of the task holds a non-blank
    line whose first field (stripped, status suffix left out) is the product
    id, the file is rewritten with exactly the lines that are not blank and
    whose first field differs from the product id, unchanged and in their
    order; blank lines go as well.  When it holds no such line, nothing is
    written.  No other file changes. *)
Theorem delete_record_effect (task_id product_fid : pystr)
    (tasks : gmap pystr Task) (fs : FileSystem) (task : Task) (lines : list pystr) :
  tasks !! task_id = Some task ->
  files fs !! file_path task = Some lines ->
  write_ok fs (file_path task) = true ->
  let fs' := deleteRecordFromFile task_id product_fid tasks fs in
  let doomed line := negb (blank line) && Py.eqb (ledger_id line) product_fid in
  (existsb doomed lines = true ->
     files fs' !! file_path task
       = Some (List.filter (fun line => negb (blank line) && negb (doomed line)) lines)) /\
  (existsb doomed lines = false -> fs' = fs) /\
  (forall path, path <> file_path task -> files fs' !! path = files fs !! path).
Proof.
  intros Htask Hfile Hw fs' doomed.
  assert (Hkept : kept product_fid lines
                  = List.filter (fun line => negb (blank line) && negb (doomed line)) lines).
  { unfold kept. apply List.filter_ext. intros line. unfold doomed.
    by destruct (blank line), (Py.eqb (ledger_id line) product_fid). }
  assert (Hfound : (0 <? found product_fid lines)%nat = existsb doomed lines).
  { unfold found. fold doomed. clear. induction lines as [|l ls IH]; [done|].
    simpl. destruct (doomed l); [done|]. by rewrite <- IH. }
  assert (Hfs : fs' = if existsb doomed lines
                      then write_file (file_path task) (kept product_fid lines) fs
                      else fs).
  { unfold fs', deleteRecordFromFile. rewrite Htask, Hfile, delete_loop_spec.
    cbn [app Nat.add]. by rewrite Hfound, Hw. }
  rewrite Hfs. split; [|split].
  - intros ->. cbn [files write_file]. by rewrite lookup_insert_eq, Hkept.
  - by intros ->.
  - intros path Hp. destruct (existsb doomed lines); [|done].
    cbn [files write_file]. by rewrite lookup_insert_ne.
Qed.

(** ** Worked examples *)

Lemma demo_never_cancelled : never_cancelled demo_env.
Proof. intros n. reflexivity. Qed.

Lemma down_never_cancelled : never_cancelled down_env.
Proof. intros n. reflexivity. Qed.

(** The remote system is down: the three lines fail with 连接失败. *)
Lemma connection_failure_fails_every_record_witness :
  exists results,
    finished_results
      (events (final (run down_env demo_path (Lines demo_raw) false new_worker)))
      = [results] /\
    length results = 3%nat /\
    Forall (fun r => success r = false /\ error r = CONNECTION_FAILED) results /\
    Forall (fun c => per_record_call c = false)
      (calls (uploader (final (run down_env demo_path (Lines demo_raw) false new_worker)))).
Proof.
  destruct (connection_failure_fails_every_record down_env down_never_cancelled
              demo_path demo_raw false
              (Py.lit "连接失败: 无法连接到服务器，请检查网络"))
    as (results & _ & Hfin & Hlen & _ & Hall & Hcalls).
  - vm_compute. discriminate.
  - vm_compute. reflexivity.
  - exists results. split; [exact Hfin|]. split; [exact Hlen|].
    split; [exact Hall | exact Hcalls].
Defined.

(** The line [BAD,1,2] of the demo ledger is recorded as a format error
    under the id [BAD]. *)
Lemma malformed_line_is_format_error_witness :
  {| original_line := Py.lit "BAD,1,2"; success := false;
     error := FORMAT_ERROR; product_fid := Py.lit "BAD" |}
  ∈ upload_results (final (run demo_env demo_path (Lines demo_raw) false new_worker)).
Proof.
  destruct (malformed_line_is_format_error demo_env demo_never_cancelled
              demo_path demo_raw false) as (Hline & _).
  - vm_compute. discriminate.
  - vm_compute. reflexivity.
  - destruct (Hline (Py.lit "BAD,1,2")) as [Hin _].
    + vm_compute. apply list_elem_of_In. simpl. auto.
    + vm_compute. lia.
    + exact Hin.
Defined.

(** C4 as it is stated fails on a line whose first field is absent: the
    line [,no id,3] has three fields, and its result carries the empty
    string as id, neither 记录1 nor 未知产品. *)
Lemma placeholder_counterexample :
  let w := final (run demo_env demo_path (Lines nameless_raw) false new_worker) in
  ledger_lines false nameless_raw = [Py.lit ",no id,3"] /\
  fields_of (Py.lit ",no id,3") = [[]; Py.lit "no id"; Py.lit "3"] /\
  upload_results w
  = [ {| original_line := Py.lit ",no id,3"; success := false;
         error := FORMAT_ERROR; product_fid := [] |} ] /\
  List.map product_fid (upload_results w) <> [Py.lit "记录1"] /\
  List.map product_fid (upload_results w) <> [UNKNOWN_PRODUCT].
Proof.
  cbv zeta. split; [vm_compute; reflexivity|]. split; [vm_compute; reflexivity|].
  split; [vm_compute; reflexivity|]. split; vm_compute; discriminate.
Qed.

(** The demo ledger: one [finished] signal, three results. *)
Lemma results_malformed_first_witness :
  finished_results
    (events (final (run demo_env demo_path (Lines demo_raw) false new_worker)))
  = [upload_results (final (run demo_env demo_path (Lines demo_raw) false new_worker))] /\
  length (upload_results (final (run demo_env demo_path (Lines demo_raw) false new_worker)))
  = 3%nat.
Proof.
  destruct (results_malformed_first demo_env demo_never_cancelled
              demo_path demo_raw false) as (Hfin & Hlen & _).
  - vm_compute. discriminate.
  - vm_compute. reflexivity.
  - split; [exact Hfin | exact Hlen].
Defined.

(** C1 as it is stated fails on the demo ledger: the line [BAD,1,2] is the
    second line of the input and its result is the first of the list. *)
Lemma results_order_counterexample :
  let lines := ledger_lines false demo_raw in
  let w := final (run demo_env demo_path (Lines demo_raw) false new_worker) in
  finished_results (events w) = [upload_results w] /\
  List.map (original_of false) lines
    = [Py.lit "X1,,,a,b,c,d,e,f,g,h,i,j"; Py.lit "BAD,1,2";
       Py.lit "X2,,,a,b,c,d,e,f,g,h,i,j"] /\
  List.map original_line (upload_results w)
    = [Py.lit "BAD,1,2"; Py.lit "X1,,,a,b,c,d,e,f,g,h,i,j";
       Py.lit "X2,,,a,b,c,d,e,f,g,h,i,j"] /\
  List.map original_line (upload_results w) <> List.map (original_of false) lines.
Proof.
  cbv zeta. split; [vm_compute; reflexivity|]. split; [vm_compute; reflexivity|].
  split; [vm_compute; reflexivity|]. vm_compute. discriminate.
Qed.

(** The pauses of the demo run: two successes out of two records. *)
Lemma pacing_follows_success_rate_witness :
  sleeps (events (final (run demo_env demo_path (Lines demo_raw) false new_worker)))
  = [50%Z; 50%Z].
Proof.
  destruct (pacing_follows_success_rate demo_env demo_never_cancelled
              demo_path demo_raw false) as (Hsleeps & _).
  - vm_compute. discriminate.
  - vm_compute. reflexivity.
  - rewrite Hsleeps. vm_compute. reflexivity.
Defined.

(** On counts up to 200 the float comparisons choose the delay that exact
    arithmetic on the counts chooses. *)
Lemma pacing_delay_exact_up_to_200 :
  forallb (fun n => forallb (fun s => Z.eqb (pacing_delay s n) (exact_delay s n))
                            (seq 0 (S n)))
          (seq 1 200) = true.
Proof. vm_compute. reflexivity. Qed.

(** The rewrite of the demo ledger after one success and one failure. *)
Lemma ledger_rewrite_witness :
  let out := updateFileWithResults (H := ascii_runtime) demo_path demo_results
               (demo_disk demo_path demo_raw) in
  out.1 = Some (Py.lit "/data/ledger_fail.txt") /\
  files out.2 !! Py.lit "/data/ledger_fail.txt"
    = Some [Py.lit "X1,,,a,b,c,d,e,f,g,h,i,j // success" ++ [10];
            Py.lit "X2,,,a,b,c,d,e,f,g,h,i,j // 未查找到产品FID" ++ [10]] /\
  files out.2 !! demo_path = None.
Proof.
  cbv zeta.
  destruct (ledger_rewrite (H := ascii_runtime) demo_path demo_results
              (demo_disk demo_path demo_raw)) as (_ & _ & Hwritten).
  - discriminate.
  - destruct Hwritten as (Hname & Hfile & _ & _ & Hgone).
    + reflexivity.
    + split; [exact Hname|]. split; [exact Hfile|]. apply Hgone.
      * vm_compute. discriminate.
      * exists demo_raw. apply lookup_singleton_eq.
      * reflexivity.
Defined.

(** C9 as it is stated fails on a ledger with a blank line: the blank line
    has another first field than the product id, and it is not kept. *)
Lemma delete_keeps_counterexample :
  let lines := [Py.lit "ABC123,a // success" ++ [10]; [10]; Py.lit "ABC1234,b" ++ [10]] in
  let fs' := deleteRecordFromFile (Py.lit "t1") (Py.lit "ABC123")
               (demo_tasks (Py.lit "t1") demo_path) (demo_disk demo_path lines) in
  files fs' !! demo_path = Some [Py.lit "ABC1234,b" ++ [10]] /\
  List.filter (fun line => negb (Py.eqb (ledger_id line) (Py.lit "ABC123"))) lines
    = [[10]; Py.lit "ABC1234,b" ++ [10]] /\
  files fs' !! demo_path
    <> Some (List.filter (fun line => negb (Py.eqb (ledger_id line) (Py.lit "ABC123")))
                         lines).
Proof.
  cbv zeta. split; [vm_compute; reflexivity|]. split; [vm_compute; reflexivity|].
  vm_compute. discriminate.
Qed.

(** Deleting [ABC123] keeps the line of [ABC1234]. *)
Lemma delete_record_effect_witness :
  files (deleteRecordFromFile (Py.lit "t1") (Py.lit "ABC123")
           (demo_tasks (Py.lit "t1") demo_path)
           (demo_disk demo_path
              [Py.lit "ABC123,a // success" ++ [10]; Py.lit "ABC1234,b" ++ [10]]))
    !! demo_path
  = Some [Py.lit "ABC1234,b" ++ [10]].
Proof.
  destruct (delete_record_effect (Py.lit "t1") (Py.lit "ABC123")
              (demo_tasks (Py.lit "t1") demo_path)
              (demo_disk demo_path
                 [Py.lit "ABC123,a // success" ++ [10]; Py.lit "ABC1234,b" ++ [10]])
              {| worker := Some 0%nat; file_path := demo_path; original_file := demo_path |}
              [Py.lit "ABC123,a // success" ++ [10]; Py.lit "ABC1234,b" ++ [10]])
    as (Hrewritten & _ & _).
  - apply lookup_singleton_eq.
  - apply lookup_singleton_eq.
  - reflexivity.
  - cbn [file_path] in Hrewritten. rewrite Hrewritten.
    + vm_compute. reflexivity.
    + vm_compute. reflexivity.
Defined.

(** The string operations, the classifier and the filter at some inputs. *)
Example split_commas :
  Py.split COMMA (Py.lit "a,,b,") = [Py.lit "a"; []; Py.lit "b"; []].
Proof. reflexivity. Qed.

Example split_marker :
  Py.split MARK (Py.lit "x // y // z") = [Py.lit "x"; Py.lit "y"; Py.lit "z"].
Proof. reflexivity. Qed.

Example strip_both : Py.strip (Py.lit "  a b  " ++ [10]) = Py.lit "a b".
Proof. reflexivity. Qed.

Example splitext_examples :
  splitext (H := ascii_runtime) (Py.lit "/a/b.c/file_fail.txt")
    = (Py.lit "/a/b.c/file_fail", Py.lit ".txt") /\
  splitext (H := ascii_runtime) (Py.lit "/a/b.c/.hidden") = (Py.lit "/a/b.c/.hidden", []) /\
  splitext (H := ascii_runtime) (Py.lit "/a/b.c/x") = (Py.lit "/a/b.c/x", []).
Proof. repeat split; reflexivity. Qed.

Example filter_example :
  filterFailedRecords
    [Py.lit "X1,a // success"; Py.lit "  X2,b // 连接失败 "; Py.lit "   "; Py.lit "X3,c"]
  = [Py.lit "X2,b"; Py.lit "X3,c"].
Proof. reflexivity. Qed.

Example categorize_examples :
  categorizeError (H := ascii_runtime) (Py.lit "HTTP 500") = CONNECTION_FAILED /\
  categorizeError (H := ascii_runtime) (Py.lit "未查找到产品FID") = PRODUCT_NOT_FOUND /\
  categorizeError (H := ascii_runtime) (Py.lit "bad Form") = SUBMIT_FAILED /\
  categorizeError (H := ascii_runtime) NO_EDIT_PAGE = NO_EDIT_PAGE.
Proof. repeat split; reflexivity. Qed.

(** * Further properties of the code *)

(** ** The protocol of a run, whatever the cancellation flag does *)

Section Protocol.
Context `{PyRuntime} (env : Env).

Lemma bind_check_cancel_any {A} (k : unit -> M A) (w : Worker) :
  (check_cancel env ≫= k) w
  = if cancelled env (polls w) then Done (polled w) else k tt (polled w).
Proof. unfold mbind, M_bind, check_cancel. by destruct (cancelled env (polls w)). Qed.

Lemma quiet_settled rs w : quiet env rs w -> settled env w.
Proof. intros (Hf & _). by left. Qed.

Lemma quiet_polled rs w :
  quiet env rs w -> cancelled env (polls w) = false -> quiet env rs (polled w).
Proof.
  intros (Hf & Hr & Hp) Hc. split; [done|]. split; [done|].
  intros n Hn. cbn [polls polled] in Hn.
  destruct (decide (n = polls w)) as [->|]; [done|]. apply Hp. lia.
Qed.

Lemma cancelled_settled rs w : quiet env rs w -> settled env (polled w).
Proof. intros (Hf & _). by left. Qed.

Lemma quiet_uploader rs u w : quiet env rs w -> quiet env rs (with_uploader u w).
Proof. intros (Hf & Hr & Hp). by repeat split. Qed.

Lemma quiet_event rs e w :
  plain_event e -> quiet env rs w -> quiet env rs (with_event e w).
Proof.
  intros He (Hf & Hr & Hp). unfold quiet. cbn [events with_event polls].
  unfold finished_results, reported in *. rewrite !omap_app, Hf, Hr.
  destruct e; try done; simpl; by rewrite ?app_nil_r.
Qed.

Lemma quiet_record rs r fid ok reason w :
  announced r = (fid, ok, reason) ->
  quiet env rs w -> quiet env (rs ++ [r]) (with_event (RecordResult fid ok reason) w).
Proof.
  intros Ha (Hf & Hr & Hp). unfold quiet. cbn [events with_event polls].
  unfold finished_results, reported in *. rewrite !omap_app, Hf, Hr.
  simpl. rewrite List.map_app. simpl. by rewrite Ha.
Qed.

Lemma quiet_finished rs ok message w :
  quiet env rs w -> settled env (with_event (Finished ok message rs) w).
Proof.
  intros (Hf & Hr & Hp). right. exists (events w), ok, message, rs. by repeat split.
Qed.

(** The loop of the failed connection check. *)
Lemma connection_failed_loop_protocol retry_mode connection_error lines :
  forall i failed_results w,
  quiet env failed_results w ->
  match connection_failed_loop env retry_mode connection_error i lines failed_results w with
  | Go results w' => quiet env results w'
  | Done w' => settled env w'
  end.
Proof.
  induction lines as [|line rest IH]; intros i failed_results w Hq; [done|].
  cbn [connection_failed_loop]. cbv zeta. rewrite bind_check_cancel_any.
  destruct (cancelled env (polls w)) eqn:Hc; [by eapply cancelled_settled|].
  rewrite fields_of_head, bind_emit. apply IH.
  apply quiet_record; [done|]. by apply quiet_polled.
Qed.

Lemma parse_loop_protocol retry_mode lines :
  forall processed_records w,
  calm env w ->
  match parse_loop env retry_mode lines processed_records w with
  | Go _ w' => calm env w'
  | Done w' => settled env w'
  end.
Proof.
  induction lines as [|line rest IH]; intros processed_records w Hq; [done|].
  cbn [parse_loop]. cbv zeta. rewrite bind_check_cancel_any.
  destruct (cancelled env (polls w)) eqn:Hc; [by eapply cancelled_settled|].
  destruct (length (fields_of (original_of retry_mode line)) <? 13)%nat.
  - rewrite fields_of_head, bind_append_result, bind_emit. apply IH.
    unfold calm. cbn [upload_results with_event with_result].
    apply quiet_record; [done|].
    apply (quiet_polled _ _ Hq) in Hc. destruct Hc as (Hf & Hr & Hp). by repeat split.
  - apply IH. by apply quiet_polled.
Qed.

Lemma upload_loop_protocol total records :
  forall i success_count w,
  calm env w ->
  match upload_loop env total i records success_count w with
  | Go _ w' => calm env w'
  | Done w' => settled env w'
  end.
Proof.
  induction records as [|[[productFID repairData] original_line] rest IH];
    intros i success_count w Hq; [done|].
  cbn [upload_loop]. rewrite bind_check_cancel_any.
  destruct (cancelled env (polls w)) eqn:Hc; [by eapply cancelled_settled|].
  apply (quiet_polled _ _ Hq) in Hc.
  rewrite bind_emit, bind_on_uploader.
  cbn [uploader with_event polled fst snd].
  destruct (processRepairRecordEnhanced (server env) productFID repairData (uploader w))
    as [[result error_detail] u'].
  cbn [fst snd].
  assert (Hq1 : quiet env (upload_results w)
                  (with_uploader u'
                     (with_event (Status (Processing (i + 1) total productFID))
                        (polled w)))).
  { apply quiet_uploader, quiet_event; done. }
  destruct result.
  all: repeat first [ rewrite bind_assoc | rewrite bind_append_result
                    | rewrite bind_emit | rewrite bind_mret ].
  all: rewrite bind_check_cancel_any.
  all: match goal with
       | |- context [cancelled env (polls ?w1)] =>
         assert (Hq2 : calm env w1);
         [ unfold calm; cbn [upload_results with_event with_result with_uploader polled];
           apply quiet_event; [done|]; apply quiet_event; [done|];
           apply quiet_record; [done|];
           destruct Hq1 as (Hf & Hr & Hp); by repeat split
         | destruct (cancelled env (polls w1)) eqn:Hc2;
           [ by eapply cancelled_settled | ] ]
       end.
  all: rewrite bind_emit; apply IH.
  all: unfold calm; cbn [upload_results with_event polled].
  all: apply quiet_event; [done|]; by apply quiet_polled.
Qed.

Lemma summarize_protocol retry_mode success_count w :
  calm env w ->
  match summarize env retry_mode success_count w with
  | Go _ _ => False
  | Done w' => settled env w'
  end.
Proof.
  intros Hq. unfold summarize. rewrite bind_check_cancel_any.
  destruct (cancelled env (polls w)) eqn:Hc; [by eapply cancelled_settled|].
  apply (quiet_polled _ _ Hq) in Hc.
  rewrite bind_emit, bind_get_results. cbn [upload_results with_event polled].
  assert (Hq1 : quiet env (upload_results w) (with_event (Progress 100) (polled w))).
  { by apply quiet_event. }
  destruct (failures (upload_results w) =? 0)%nat; [by apply quiet_finished|].
  destruct (0 <? success_count)%nat; by apply quiet_finished.
Qed.

Lemma process_lines_protocol retry_mode lines w :
  calm env w -> upload_results w = [] ->
  match process_lines env retry_mode lines w with
  | Go _ _ => False
  | Done w' => settled env w'
  end.
Proof.
  intros Hq Hnil. unfold process_lines, create_uploader.
  rewrite bind_on_uploader. cbn [fst snd]. rewrite bind_on_uploader.
  cbn [uploader with_uploader].
  destruct (checkWebConnection (server env) new_uploader) as [failure u0].
  cbn [fst snd].
  assert (Hq0 : quiet env (upload_results w) (with_uploader u0 (with_uploader new_uploader w))).
  { by do 2 apply quiet_uploader. }
  destruct failure as [text|].
  - rewrite bind_emit. unfold mbind at 1, M_bind at 1.
    match goal with |- context [connection_failed_loop env _ ?e _ _ _ ?w1] =>
      pose proof (connection_failed_loop_protocol retry_mode e lines 0%nat [] w1) as Hloop
    end.
    destruct (connection_failed_loop _ _ _ _ _ _ _) as [results w'|w'].
    + unfold finish. apply quiet_finished. apply Hloop.
      apply quiet_event; [done|]. by rewrite Hnil in Hq0.
    + apply Hloop. apply quiet_event; [done|]. by rewrite Hnil in Hq0.
  - rewrite bind_emit, bind_emit, bind_check_cancel_any.
    match goal with |- context [cancelled env (polls ?w1)] =>
      assert (Hq1 : calm env w1) by (unfold calm; by do 2 (apply quiet_event; [done|]));
      destruct (cancelled env (polls w1)) eqn:Hc; [by eapply cancelled_settled|];
      apply (quiet_polled _ _ Hq1) in Hc
    end.
    rewrite bind_emit. unfold mbind at 1, M_bind at 1.
    match goal with |- context [parse_loop env _ _ _ ?w2] =>
      pose proof (parse_loop_protocol retry_mode lines [] w2) as Hparse
    end.
    destruct (parse_loop _ _ _ _ _) as [processed w3|w3].
    2:{ apply Hparse. unfold calm. by apply quiet_event. }
    assert (Hq3 : calm env w3) by (apply Hparse; unfold calm; by apply quiet_event).
    unfold mbind at 1, M_bind at 1.
    pose proof (upload_loop_protocol (length processed) processed 0%nat 0%nat w3 Hq3)
      as Hupload.
    destruct (upload_loop _ _ _ _ _ _) as [success_count w4|w4]; [|done].
    by apply summarize_protocol.
Qed.

Lemma run_protocol record_file file retry_mode :
  match run env record_file file retry_mode new_worker with
  | Go _ _ => False
  | Done w' => settled env w'
  end.
Proof.
  assert (Hq : calm env new_worker).
  { split; [done|]. split; [done|]. intros n Hn. simpl in Hn. lia. }
  unfold run, announce. rewrite bind_check_cancel_any.
  destruct (cancelled env (polls new_worker)) eqn:Hc; [by eapply cancelled_settled|].
  apply (quiet_polled _ _ Hq) in Hc.
  destruct file as [|text|raw].
  - by apply quiet_finished.
  - repeat first [ rewrite bind_assoc | rewrite bind_emit ].
    rewrite bind_check_cancel_any.
    match goal with |- context [cancelled env (polls ?w1)] =>
      assert (Hq1 : calm env w1) by (unfold calm; by do 2 (apply quiet_event; [done|]));
      destruct (cancelled env (polls w1)) eqn:Hc1; [by eapply cancelled_settled|];
      apply (quiet_polled _ _ Hq1) in Hc1
    end.
    by apply quiet_finished.
  - repeat first [ rewrite bind_assoc | rewrite bind_emit ].
    rewrite bind_check_cancel_any.
    match goal with |- context [cancelled env (polls ?w1)] =>
      assert (Hq1 : calm env w1) by (unfold calm; by do 2 (apply quiet_event; [done|]));
      destruct (cancelled env (polls w1)) eqn:Hc1; [by eapply cancelled_settled|];
      apply (quiet_polled _ _ Hq1) in Hc1
    end.
    destruct (read_lines raw) as [|l ls]; [by apply quiet_finished|].
    destruct retry_mode.
    + destruct (filterFailedRecords (l :: ls)); [by apply quiet_finished|].
      by apply process_lines_protocol.
    + by apply process_lines_protocol.
Qed.

Lemma finished_in_results evs ok message rs :
  Finished ok message rs ∈ evs -> rs ∈ finished_results evs.
Proof.
  intros Hin. unfold finished_results. apply list_elem_of_omap.
  exists (Finished ok message rs). done.
Qed.

Lemma settled_finished w ok message rs :
  settled env w -> Finished ok message rs ∈ events w ->
  exists evs,
    events w = evs ++ [Finished ok message rs] /\
    finished_results evs = [] /\
    reported evs = List.map announced rs /\
    polls_clear env w.
Proof.
  intros [Hnone|(evs & ok' & message' & rs' & Hev & Hfin & Hrep & Hp)] Hin.
  - apply finished_in_results in Hin. rewrite Hnone in Hin. by apply elem_of_nil in Hin.
  - rewrite Hev in Hin. apply elem_of_app in Hin as [Hin|Hin].
    + apply finished_in_results in Hin. rewrite Hfin in Hin. by apply elem_of_nil in Hin.
    + apply list_elem_of_singleton in Hin. injection Hin as -> -> ->.
      exists evs. done.
Qed.

Lemma run_settled record_file file retry_mode :
  settled env (final (run env record_file file retry_mode new_worker)).
Proof.
  pose proof (run_protocol record_file file retry_mode) as Hrun.
  by destruct (run env record_file file retry_mode new_worker).
Qed.

(** X1.  Whatever the file, the remote system and the cancellation flag
    do, a run emits at most one [finished] signal, and when it emits one,
    that signal is its last event. *)
Theorem run_finishes_at_most_once
    (record_file : pystr) (file : LedgerFile) (retry_mode : bool) :
  let evs := events (final (run env record_file file retry_mode new_worker)) in
  (length (finished_results evs) <= 1)%nat /\
  (forall ok message rs, Finished ok message rs ∈ evs ->
     last evs = Some (Finished ok message rs)).
Proof.
  cbv zeta. pose proof (run_settled record_file file retry_mode) as Hs.
  split.
  - destruct Hs as [->|(evs & ok & message & rs & -> & Hfin & _)]; [simpl; lia|].
    rewrite omap_snoc_finished, Hfin. simpl. lia.
  - intros ok message rs Hin.
    destruct (settled_finished _ _ _ _ Hs Hin) as (evs & -> & _).
    apply last_snoc.
Qed.

(** X2.  A run in which some read of the cancellation flag finds the flag
    set emits no [finished] signal. *)
Theorem cancelled_run_reports_nothing
    (record_file : pystr) (file : LedgerFile) (retry_mode : bool) (n : nat) :
  let w := final (run env record_file file retry_mode new_worker) in
  (n < polls w)%nat -> cancelled env n = true ->
  finished_results (events w) = [].
Proof.
  cbv zeta. intros Hn Hc.
  destruct (run_settled record_file file retry_mode)
    as [Hnone|(evs & ok & message & rs & _ & _ & _ & Hp)]; [done|].
  rewrite (Hp n Hn) in Hc. done.
Qed.

(** X3.  The results that a [finished] signal carries are exactly the
    results announced by the [record_result] signals of the run, in the same
    order: same product id, same outcome, and the error as reason (成功 for a
    success). *)
Theorem finished_carries_announced
    (record_file : pystr) (file : LedgerFile) (retry_mode : bool)
    (ok : bool) (message : FinishText) (rs : list UploadResult) :
  let evs := events (final (run env record_file file retry_mode new_worker)) in
  Finished ok message rs ∈ evs ->
  reported evs = List.map announced rs.
Proof.
  cbv zeta. intros Hin.
  destruct (settled_finished _ _ _ _ (run_settled record_file file retry_mode) Hin)
    as (evs & -> & _ & Hrep & _).
  unfold reported in *. rewrite omap_app, Hrep. simpl. by rewrite app_nil_r.
Qed.

Lemma deliver_counts evs widget :
  deliver evs widget
  = {| widget_success_count :=
         widget_success_count widget
         + length (List.filter (fun s => s.1.2) (reported evs));
       widget_fail_count :=
         widget_fail_count widget
         + length (List.filter (fun s => negb s.1.2) (reported evs)) |}.
Proof.
  revert widget. induction evs as [|e evs IH]; intros [sc fc].
  - simpl. by rewrite !Nat.add_0_r.
  - unfold deliver in *. cbn [foldl]. rewrite IH. unfold reported.
    destruct e as [| |fid ok reason| |]; simpl; try done.
    destruct ok; simpl; rewrite <- ?Nat.add_assoc; done.
Qed.

(** X4.  When a run has emitted its [finished] signal, the counters of the
    task widget that received the signals of the run are the number of
    successes and the number of failures in the list of results that the
    signal carries. *)
Theorem widget_counts_results
    (record_file : pystr) (file : LedgerFile) (retry_mode : bool)
    (ok : bool) (message : FinishText) (rs : list UploadResult) :
  let evs := events (final (run env record_file file retry_mode new_worker)) in
  Finished ok message rs ∈ evs ->
  deliver evs new_widget
  = {| widget_success_count := successes rs; widget_fail_count := failures rs |}.
Proof.
  cbv zeta. intros Hin.
  destruct (settled_finished _ _ _ _ (run_settled record_file file retry_mode) Hin)
    as (evs & Hev & _ & Hrep & _).
  assert (Hall : reported (events (final (run env record_file file retry_mode new_worker)))
                 = List.map announced rs).
  { rewrite Hev. unfold reported in *. rewrite omap_app, Hrep. simpl.
    by rewrite app_nil_r. }
  rewrite deliver_counts, Hall. unfold new_widget, successes, failures. simpl.
  f_equal.
  - clear. induction rs as [|r rs IH]; [done|]. simpl.
    destruct (success r); simpl; by rewrite IH.
  - clear. induction rs as [|r rs IH]; [done|]. simpl.
    destruct (success r); simpl; by rewrite IH.
Qed.

End Protocol.

(** ** The verdict of a run *)

Section Verdict.
Context `{PyRuntime} (env : Env) (Hnc : never_cancelled env).

Lemma successes_app rs1 rs2 :
  successes (rs1 ++ rs2) = (successes rs1 + successes rs2)%nat.
Proof. unfold successes. by rewrite List.filter_app, length_app. Qed.

Lemma failures_app rs1 rs2 :
  failures (rs1 ++ rs2) = (failures rs1 + failures rs2)%nat.
Proof. unfold failures. by rewrite List.filter_app, length_app. Qed.

Lemma successes_failures rs : (successes rs + failures rs)%nat = length rs.
Proof.
  unfold successes, failures. induction rs as [|r rs IH]; [done|].
  simpl. destruct (success r); simpl; lia.
Qed.

Lemma format_errors_fail retry_mode lines :
  successes (List.map (format_error_of retry_mode) lines) = 0%nat.
Proof. unfold successes. by induction lines. Qed.

(** X5.  A run that is not cancelled and whose connection check succeeds
    ends with a [finished] signal whose verdict follows the counts of its
    list of results: success with the message of a full success when no
    result failed, success with the message of a partial success when some
    failed and some succeeded, and failure when none succeeded.  Lines with
    fewer than 13 fields count as failures. *)
Theorem verdict_follows_counts
    (record_file : pystr) (raw : list pystr) (retry_mode : bool) :
  ledger_lines retry_mode raw <> [] ->
  (checkWebConnection (server env) new_uploader).1 = None ->
  let w := final (run env record_file (Lines raw) retry_mode new_worker) in
  let rs := upload_results w in
  exists ok message,
    last (events w) = Some (Finished ok message rs) /\
    ok = existsb success rs /\
    (failures rs = 0%nat -> message = AllSucceeded retry_mode (length rs)) /\
    ((0 < failures rs)%nat -> (0 < successes rs)%nat ->
       message = PartlySucceeded retry_mode (successes rs) (length rs) (failures rs)) /\
    (successes rs = 0%nat -> message = AllFailed retry_mode (length rs)).
Proof.
  intros Hne Hup. cbv zeta.
  rewrite (run_lines env Hnc) by done.
  set (lines := ledger_lines retry_mode raw) in *.
  unfold process_lines, create_uploader.
  rewrite bind_on_uploader. cbn [fst snd]. rewrite bind_on_uploader.
  cbn [uploader with_uploader]. rewrite Hup.
  rewrite bind_emit, bind_emit, (bind_check_cancel env Hnc), bind_emit.
  match goal with |- context [(parse_loop env _ _ _ ≫= _) ?w1] =>
    destruct (parse_loop_spec env Hnc retry_mode lines [] w1)
      as (w1' & Hrun1 & Hres1 & Hupl1 & _) end.
  rewrite (bind_Go _ _ _ _ _ Hrun1). rewrite app_nil_l, length_map.
  destruct (upload_loop_spec env Hnc (length (well_formed_lines retry_mode lines))
              (List.map (record_of retry_mode) (well_formed_lines retry_mode lines))
              0%nat 0%nat w1')
    as (w2 & Hrun2 & Hres2 & _).
  rewrite (bind_Go _ _ _ _ _ Hrun2).
  cbn [upload_results events with_event with_uploader polled new_worker] in Hres1.
  rewrite app_nil_l in Hres1.
  set (outs := outcomes (server env) (uploader w1')
                 (List.map (record_of retry_mode) (well_formed_lines retry_mode lines))) in *.
  assert (Hsucc : successes (upload_results w2) = successes outs).
  { by rewrite Hres2, Hres1, successes_app, format_errors_fail. }
  assert (Hlen : upload_results w2 <> []).
  { intros Hnil. apply (f_equal length) in Hnil.
    rewrite Hres2, Hres1, length_app, length_map in Hnil. unfold outs in Hnil.
    assert (length (outcomes (server env) (uploader w1')
                      (List.map (record_of retry_mode)
                                (well_formed_lines retry_mode lines)))
            = length (well_formed_lines retry_mode lines)) as Hout.
    { clear. generalize (uploader w1').
      induction (well_formed_lines retry_mode lines) as [|l ls IH]; intros u; [done|].
      simpl. by rewrite IH. }
    rewrite Hout in Hnil. simpl in Hnil.
    pose proof (filter_split_length (well_formed retry_mode) lines) as Hsplit.
    unfold malformed_lines, well_formed_lines in Hnil.
    assert (length lines = 0)%nat as Hzero by lia.
    by destruct lines. }
  pose proof (successes_failures (upload_results w2)) as Hsf.
  unfold summarize. rewrite (bind_check_cancel env Hnc), bind_emit, bind_get_results.
  cbn [upload_results with_event polled]. unfold finish. rewrite Nat.add_0_l.
  fold outs. rewrite <- Hsucc.
  assert (Hex : existsb success (upload_results w2)
                = (0 <? successes (upload_results w2))%nat).
  { clear. unfold successes. induction (upload_results w2) as [|r rs IH]; [done|].
    simpl. destruct (success r); [done|]. by rewrite IH. }
  destruct (failures (upload_results w2) =? 0)%nat eqn:Hf.
  - apply Nat.eqb_eq in Hf. cbn [final events with_event upload_results polled].
    eexists _, _. split; [apply last_snoc|].
    assert (0 < length (upload_results w2))%nat
      by (destruct (upload_results w2); [done | simpl; lia]).
    split; [rewrite Hex; symmetry; apply Nat.ltb_lt; lia|].
    split; [intros _; f_equal; lia|]. split; [lia|]. intros ?. lia.
  - apply Nat.eqb_neq in Hf.
    destruct (0 <? successes (upload_results w2))%nat eqn:Hs.
    + cbn [final events with_event upload_results polled].
      eexists _, _. split; [apply last_snoc|]. split; [by rewrite Hex|].
      apply Nat.ltb_lt in Hs. split; [lia|]. split; [done|]. lia.
    + cbn [final events with_event upload_results polled].
      eexists _, _. split; [apply last_snoc|]. split; [by rewrite Hex|].
      apply Nat.ltb_ge in Hs. split; [lia|]. split; [lia|].
      intros _. f_equal. lia.
Qed.

End Verdict.

(** ** Reading back a rewritten ledger *)

Lemma rstrip_app a b :
  Py.rstrip (a ++ b) = if Py.is_empty (Py.rstrip b) then Py.rstrip a else a ++ Py.rstrip b.
Proof.
  induction a as [|c a IH]; simpl app.
  - by destruct (Py.rstrip b).
  - rewrite !rstrip_cons, IH. destruct (Py.rstrip b) as [|d b'] eqn:Hb; simpl Py.is_empty.
    + done.
    + destruct a; simpl; by rewrite andb_false_r.
Qed.

Lemma strip_nonblank_rstrip s : Py.strip s <> [] -> Py.rstrip s <> [].
Proof. unfold Py.strip. by intros Hs Hr; rewrite Hr in Hs. Qed.

Lemma strip_rstrip s : Py.strip (Py.rstrip s) = Py.strip s.
Proof. unfold Py.strip. by rewrite rstrip_idem. Qed.

Lemma plain_head line : plain line -> exists c r, line = c :: r /\ Py.isspace c = false.
Proof.
  intros (Hs & Hne & _). destruct line as [|c r]; [done|].
  exists c, r. split; [done|]. by apply (strip_head c r (c :: r)).
Qed.

(** The line written for a result, once stripped. *)
Lemma strip_written orig st :
  plain orig -> Py.strip st <> [] ->
  Py.strip (orig ++ MARK ++ st ++ NEWLINE) = orig ++ MARK ++ Py.rstrip st.
Proof.
  intros Hp Hst. apply strip_nonblank_rstrip in Hst.
  destruct (plain_head orig Hp) as (c & r & -> & Hc).
  unfold Py.strip.
  assert (Hr1 : Py.rstrip (st ++ NEWLINE) = Py.rstrip st).
  { rewrite rstrip_app. simpl Py.is_empty. done. }
  assert (Hr2 : Py.rstrip (MARK ++ st ++ NEWLINE) = MARK ++ Py.rstrip st).
  { rewrite rstrip_app, Hr1. by destruct (Py.rstrip st). }
  rewrite rstrip_app, Hr2.
  replace (Py.is_empty (MARK ++ Py.rstrip st)) with false by done.
  simpl. by rewrite Hc.
Qed.

(** The cut at the marker that follows a text without a blank and two
    slashes falls right after that text. *)
Lemma split_once_written orig rest :
  Py.contains SLASHES orig = false ->
  Py.split_once MARK (orig ++ MARK ++ rest) = Some (orig, rest).
Proof.
  induction orig as [|c o IH]; intros Hc.
  - reflexivity.
  - simpl in Hc. apply orb_false_iff in Hc as [Hstart Hrest].
    assert (Hno : Py.startswith MARK ((c :: o) ++ MARK ++ rest) = false).
    { destruct (Py.startswith MARK ((c :: o) ++ MARK ++ rest)) eqn:E; [|done].
      exfalso. simpl in E. apply andb_true_iff in E as [Ec E].
      destruct o as [|x [|y o]]; simpl in E, Hstart.
      - done.
      - apply andb_true_iff in E as [_ E]. done.
      - apply andb_true_iff in E as [Ex E]. apply andb_true_iff in E as [Ey _].
        by rewrite Ec, Ex, Ey in Hstart. }
    change (Py.split_once MARK ((c :: o) ++ MARK ++ rest))
      with (if Py.startswith MARK ((c :: o) ++ MARK ++ rest)
            then Some ([], drop (length MARK) ((c :: o) ++ MARK ++ rest))
            else match Py.split_once MARK (o ++ MARK ++ rest) with
                 | Some (a, b) => Some (c :: a, b)
                 | None => None
                 end).
    by rewrite Hno, IH.
Qed.


Lemma filter_line_strip line : filter_line (Py.strip line) = filter_line line.
Proof. unfold filter_line. by rewrite strip_idem. Qed.

(** The retry filter does itself what the reading of the file does first. *)
Lemma filterFailedRecords_read_lines raw :
  filterFailedRecords (read_lines raw) = filterFailedRecords raw.
Proof.
  unfold read_lines. induction raw as [|line rest IH]; [done|].
  cbn [List.filter filterFailedRecords].
  destruct (Py.is_empty (Py.strip line)) eqn:Hl; cbn [negb List.map filterFailedRecords].
  - rewrite IH. unfold filter_line. by rewrite Hl.
  - by rewrite IH, filter_line_strip.
Qed.

Lemma filter_line_render r :
  recoverable r ->
  filter_line (render r) = if success r then [] else [original_line r].
Proof.
  intros (Hp & Hs & Hst & Hfail). unfold filter_line, render.
  rewrite strip_written by done.
  destruct (plain_head _ Hp) as (c & o & Ho & Hc).
  assert (Hne : Py.is_empty (original_line r ++ MARK ++ Py.rstrip (status_text r))
                = false) by (by rewrite Ho).
  assert (Hm : Py.contains MARK (original_line r ++ MARK ++ Py.rstrip (status_text r))
               = true).
  { apply contains_infix. eauto. }
  rewrite Hne, Hm. unfold Py.split_max1. rewrite split_once_written by done.
  rewrite strip_rstrip. destruct Hp as (Hstrip & _). rewrite Hstrip.
  destruct (success r) eqn:Hsucc.
  - unfold status_text. rewrite Hsucc. reflexivity.
  - unfold Py.eqb. rewrite bool_decide_eq_false_2 by auto. done.
Qed.

Lemma filterFailedRecords_render (results : list UploadResult) :
  Forall recoverable results ->
  filterFailedRecords (List.map render results)
  = List.map original_line (List.filter (fun r => negb (success r)) results).
Proof.
  induction 1 as [|r rs Hr _ IH]; [done|].
  simpl. rewrite filter_line_render, IH by done. by destruct (success r).
Qed.



(** ** The errors that a run records *)

Section KnownErrors.
Context `{PyRuntime} (env : Env).

(** What [processRepairRecordEnhanced] returns: success with the text
    [success], or failure with one of its three error texts. *)
Lemma process_detail productFID repairData (u : Uploader) :
  let r := processRepairRecordEnhanced (server env) productFID repairData u in
  (r.1.1 = true /\ r.1.2 = SUCCESS) \/ (r.1.1 = false /\ r.1.2 ∈ known_errors).
Proof.
  cbv zeta. unfold processRepairRecordEnhanced, known_errors.
  destruct (searchProductOptimized (server env) productFID u) as [found u1].
  destruct found; cbn [negb fst snd]; [|right; split; [done|set_solver]].
  destruct (getEditPageOptimized (server env) (uRequestID u1) u1) as [page u2].
  destruct page as [[|c page]|]; cbn [fst snd]; try (right; split; [done|set_solver]).
  destruct (submitOptimized (server env) repairData (c :: page) (uRequestID u2) u2)
    as [ok u3].
  destruct ok; cbn [fst snd]; [by left | right; split; [done|set_solver]].
Qed.

Hypothesis Hlower : lowers_known_errors.

Lemma categorize_known text : text ∈ known_errors -> categorizeError text = text.
Proof.
  intros Hin. pose proof (Hlower text Hin) as Hl. unfold categorizeError.
  unfold known_errors in Hin.
  repeat (apply elem_of_cons in Hin as [->|Hin]); [| | |by apply elem_of_nil in Hin].
  all: rewrite Hl; vm_compute; reflexivity.
Qed.

Lemma outcomes_known records : forall (u : Uploader) r,
  r ∈ outcomes (server env) u records ->
  ((success r = true /\ error r = SUCCESS) \/
   (success r = false /\ error r ∈ known_errors)) /\
  exists record, record ∈ records /\ original_line r = record.2.
Proof.
  induction records as [|[[fid rd] orig] rest IH]; intros u r Hin.
  - by apply elem_of_nil in Hin.
  - cbn [outcomes] in Hin. apply elem_of_cons in Hin as [->|Hin].
    + cbn [success error original_line]. split; [|exists (fid, rd, orig); split; [left|done]].
      destruct (process_detail fid rd u) as [[-> _]|[-> Hk]]; [by left|].
      right. split; [done|]. by rewrite categorize_known.
    + destruct (IH _ _ Hin) as (Hr & record & Hrec & Ho).
      split; [done|]. exists record. split; [by right|done].
Qed.

Hypothesis Hnc : never_cancelled env.

(** The results of a run whose connection check succeeds: what each one
    says, and the line it comes from. *)
Lemma run_results_known
    (record_file : pystr) (raw : list pystr) (retry_mode : bool) (r : UploadResult) :
  ledger_lines retry_mode raw <> [] ->
  (checkWebConnection (server env) new_uploader).1 = None ->
  r ∈ upload_results (final (run env record_file (Lines raw) retry_mode new_worker)) ->
  ((success r = true /\ error r = SUCCESS) \/
   (success r = false /\ error r ∈ FORMAT_ERROR :: known_errors)) /\
  exists line, line ∈ ledger_lines retry_mode raw /\
               original_line r = original_of retry_mode line.
Proof.
  intros Hne Hup. rewrite (run_lines env Hnc) by done.
  match goal with |- context [process_lines env _ ?ls ?w0] =>
    destruct (process_lines_connected env Hnc retry_mode ls w0 Hup)
      as (w' & ok & message & Hrun & Hres & _) end.
  rewrite Hrun. cbn [final]. cbn [upload_results polled with_event new_worker] in Hres.
  rewrite Hres, app_nil_l. intros [Hin|Hin]%elem_of_app.
  - apply list_elem_of_fmap in Hin as (line & -> & Hl). split.
    + right. split; [done|left].
    + exists line. split; [|done].
      unfold malformed_lines in Hl. apply list_elem_of_In, filter_In in Hl as [Hl _].
      by apply list_elem_of_In.
  - destruct (outcomes_known _ _ _ Hin) as (Hr & record & Hrec & Ho). split.
    + destruct Hr as [?|[? ?]]; [by left|]. right. split; [done|by right].
    + rewrite Ho. apply list_elem_of_fmap in Hrec as (line & -> & Hl).
      exists line. split; [|done].
      unfold well_formed_lines in Hl. apply list_elem_of_In, filter_In in Hl as [Hl _].
      by apply list_elem_of_In.
Qed.

(** X8.  In a run that is not cancelled and whose connection check
    succeeds, every result is either a success with the text [success], or
    a failure whose error is one of 数据格式错误, 未查找到产品FID, 无法访问编辑页面
    and 提交失败. *)
Theorem recorded_errors_are_known
    (record_file : pystr) (raw : list pystr) (retry_mode : bool) (r : UploadResult) :
  ledger_lines retry_mode raw <> [] ->
  (checkWebConnection (server env) new_uploader).1 = None ->
  r ∈ upload_results (final (run env record_file (Lines raw) retry_mode new_worker)) ->
  (success r = true /\ error r = SUCCESS) \/
  (success r = false /\ error r ∈ FORMAT_ERROR :: known_errors).
Proof.
  intros Hne Hup Hin.
  by destruct (run_results_known record_file raw retry_mode r Hne Hup Hin) as [Hr _].
Qed.

(** X9.  After a run that is not cancelled and whose connection check
    succeeds, on lines that are stripped, not blank and without a blank
    followed by two slashes, the rewritten ledger read in retry mode gives
    exactly the original lines of the failed results, in order: a retry
    processes the failed records and only them. *)
Theorem retry_after_run
    (record_file : pystr) (raw : list pystr) (retry_mode : bool) :
  ledger_lines retry_mode raw <> [] ->
  (checkWebConnection (server env) new_uploader).1 = None ->
  Forall (fun line => plain line /\ Py.contains SLASHES line = false)
         (ledger_lines retry_mode raw) ->
  let rs := upload_results (final (run env record_file (Lines raw) retry_mode new_worker)) in
  ledger_lines true (List.map render rs)
  = List.map original_line (List.filter (fun r => negb (success r)) rs).
Proof.
  intros Hne Hup Hlines. cbv zeta. unfold ledger_lines at 1.
  rewrite filterFailedRecords_read_lines. apply filterFailedRecords_render.
  apply Forall_forall. intros r Hin.
  destruct (run_results_known record_file raw retry_mode r Hne Hup Hin)
    as (Herr & line & Hline & Horig).
  rewrite Forall_forall in Hlines. destruct (Hlines line Hline) as [Hplain Hs].
  assert (Hsame : original_of retry_mode line = line).
  { unfold original_of. destruct retry_mode; [done|].
    destruct Hplain as (_ & _ & ->). done. }
  rewrite Hsame in Horig. unfold recoverable. rewrite Horig.
  split; [done|]. split; [done|]. unfold status_text.
  destruct Herr as [[Hsucc _]|[Hsucc Hk]]; rewrite Hsucc.
  - split; [by vm_compute|done].
  - repeat (apply elem_of_cons in Hk as [->|Hk]); [| | | |by apply elem_of_nil in Hk].
    all: split; [by vm_compute | intros _; by vm_compute].
Qed.

End KnownErrors.

(** ** The session: what a hit gives back, what the caches hold, and the
    order of the calls *)

Lemma dict_get_set {V} (k : pystr) (v : V) (d : Dict.t V) :
  Dict.get k (Dict.set k v d) = Some v.
Proof.
  induction d as [|[k' v'] d IH]; simpl.
  - by rewrite eqb_refl_true.
  - destruct (Py.eqb k' k) eqn:E; simpl; by rewrite E.
Qed.

Lemma cache_store_get {V} (k : pystr) (v : V) (cache cache' : Dict.t V) :
  cache_store k v cache = Some cache' -> Dict.get k cache' = Some v.
Proof.
  unfold cache_store. destruct (evict_oldest cache); [|done].
  intros [= <-]. apply dict_get_set.
Qed.

Lemma dict_set_entries {V} (P : pystr * V -> Prop) (k : pystr) (v : V) (d : Dict.t V) :
  P (k, v) -> Forall P d -> (forall v', P (k, v') -> P (k, v)) -> Forall P (Dict.set k v d).
Proof.
  intros Hkv Hd _. induction Hd as [|[k' v'] d Hx Hd IH]; simpl.
  - by repeat constructor.
  - unfold Py.eqb. case_bool_decide as E.
    + subst k'. by constructor.
    + by constructor.
Qed.

Lemma dict_del_entries {V} (P : pystr * V -> Prop) (k : pystr) (d : Dict.t V) :
  Forall P d -> Forall P (Dict.del k d).
Proof.
  induction 1 as [|[k' v'] d Hx Hd IH]; simpl; [done|].
  destruct (Py.eqb k' k); [done | by constructor].
Qed.

Lemma cache_store_entries {V} (P : pystr * V -> Prop) (k : pystr) (v : V)
    (cache cache' : Dict.t V) :
  P (k, v) -> Forall P cache -> cache_store k v cache = Some cache' -> Forall P cache'.
Proof.
  intros Hkv Hc. unfold cache_store, evict_oldest.
  destruct (max_cache_size <=? length cache)%nat.
  - destruct (Dict.first_key cache); [|done]. intros [= <-].
    apply dict_set_entries; [done | by apply dict_del_entries | done].
  - intros [= <-]. by apply dict_set_entries.
Qed.

Lemma dict_get_entry {V} (P : pystr * V -> Prop) (k : pystr) (v : V) (d : Dict.t V) :
  Forall P d -> Dict.get k d = Some v -> P (k, v).
Proof.
  induction 1 as [|[k' v'] d Hx Hd IH]; simpl; [done|].
  unfold Py.eqb. case_bool_decide as E; [|done]. intros [= <-]. by subst k'.
Qed.

Section Session.
Context `{PyRuntime} (srv : Server).

(** A search that succeeds has the ids it set in the cache. *)
Lemma search_found_cached (productFID : pystr) (u : Uploader) :
  let r := searchProductOptimized srv productFID u in
  r.1 = true ->
  Dict.get productFID (search_cache r.2) = Some (requestID r.2, uRequestID r.2).
Proof.
  cbv zeta. unfold searchProductOptimized.
  destruct (Dict.get productFID (search_cache u)) as [[rid uid]|] eqn:Hhit.
  - intros _. exact Hhit.
  - repeat match goal with
           | |- context [match ?x with _ => _ end] => destruct x eqn:?; try done
           end.
    intros _. cbn [fst snd search_cache set_search_cache requestID uRequestID set_ids].
    by eapply cache_store_get.
Qed.

(** X10.  A search that succeeds leaves the ids of the product in the
    cache: searching the same product again succeeds without a remote call
    and sets the same ids, and leaves the cache as it is. *)
Theorem search_again_hits (productFID : pystr) (u : Uploader) :
  let first := searchProductOptimized srv productFID u in
  let second := searchProductOptimized srv productFID first.2 in
  first.1 = true ->
  second.1 = true /\
  calls second.2 = calls first.2 /\
  requestID second.2 = requestID first.2 /\
  uRequestID second.2 = uRequestID first.2 /\
  search_cache second.2 = search_cache first.2.
Proof.
  cbv zeta. intros Hfound.
  pose proof (search_found_cached productFID u Hfound) as Hget.
  assert (Hhit : forall v rid uid,
             Dict.get productFID (search_cache v) = Some (rid, uid) ->
             searchProductOptimized srv productFID v = (true, set_ids rid uid v)).
  { intros v rid uid Hv. unfold searchProductOptimized. by rewrite Hv. }
  rewrite (Hhit _ _ _ Hget). by repeat split.
Qed.

(** X11.  An edit page that was fetched is in the cache: fetching it again
    gives the same page without a remote call and leaves the cache as it
    is. *)
Theorem page_again_hits (uid : json) (u : Uploader) (page : pystr) :
  let first := getEditPageOptimized srv uid u in
  let second := getEditPageOptimized srv uid first.2 in
  first.1 = Some page ->
  second.1 = Some page /\
  calls second.2 = calls first.2 /\
  page_cache second.2 = page_cache first.2.
Proof.
  cbv zeta. intros Hpage.
  assert (Hget : Dict.get (EDIT_PREFIX ++ json_str uid)
                   (page_cache (getEditPageOptimized srv uid u).2) = Some page).
  { revert Hpage. unfold getEditPageOptimized. cbv zeta.
    generalize (EDIT_PREFIX ++ json_str uid). intros key.
    destruct (Dict.get key (page_cache u)) as [cached|] eqn:Hhit.
    - by intros [= <-].
    - repeat match goal with
             | |- context [match ?x with _ => _ end] => destruct x eqn:?; try done
             | |- context [if ?x then _ else _] => destruct x eqn:?; try done
             end.
      intros [= <-]. cbn [fst snd page_cache set_page_cache].
      by eapply cache_store_get. }
  assert (Hhit : forall v,
             Dict.get (EDIT_PREFIX ++ json_str uid) (page_cache v) = Some page ->
             getEditPageOptimized srv uid v = (Some page, v)).
  { intros v Hv. unfold getEditPageOptimized. cbv zeta. by rewrite Hv. }
  rewrite (Hhit _ Hget). by repeat split.
Qed.

Lemma page_keeps_entries uid (u : Uploader) :
  Forall page_entry_ok (page_cache u) ->
  Forall page_entry_ok (page_cache (getEditPageOptimized srv uid u).2) /\
  forall page, (getEditPageOptimized srv uid u).1 = Some page ->
               Py.contains PAGE_MARKER page = true.
Proof.
  intros Hok. unfold getEditPageOptimized. cbv zeta.
  assert (Hkey : Py.startswith EDIT_PREFIX (EDIT_PREFIX ++ json_str uid) = true)
    by (apply startswith_prefix; eauto).
  revert Hkey. generalize (EDIT_PREFIX ++ json_str uid). intros key Hkey.
  destruct (Dict.get key (page_cache u)) as [cached|] eqn:Hhit.
  { split; [done|]. intros page [= <-]. by apply (dict_get_entry _ _ _ _ Hok Hhit). }
  destruct (page_reply srv (calls u) uid) as [e|status_code text];
    cbn [fst snd page_cache log_call]; [by split|].
  destruct (status_code =? 200)%nat; cbn [andb fst snd page_cache log_call];
    [|by split].
  destruct (Py.contains PAGE_MARKER text) eqn:Hmark;
    cbn [fst snd page_cache log_call]; [|by split].
  destruct (cache_store key text (page_cache u)) as [cache|] eqn:Hst;
    cbn [fst snd page_cache log_call set_page_cache]; [|by split].
  split.
  - by apply (cache_store_entries page_entry_ok key text (page_cache u) cache).
  - by intros page [= <-].
Qed.

Lemma process_keeps_entries productFID repairData (u : Uploader) :
  Forall page_entry_ok (page_cache u) ->
  Forall page_entry_ok
    (page_cache (processRepairRecordEnhanced srv productFID repairData u).2).
Proof.
  intros Hu. unfold processRepairRecordEnhanced.
  pose proof (search_effect srv productFID u) as [H1 _]. cbv zeta in H1.
  destruct (searchProductOptimized srv productFID u) as [found u1]. cbn [snd] in H1.
  rewrite <- H1 in Hu.
  destruct found; cbn [negb snd]; [|done].
  pose proof (page_keeps_entries (uRequestID u1) u1 Hu) as [H2 _].
  destruct (getEditPageOptimized srv (uRequestID u1) u1) as [page u2]. cbn [snd] in H2.
  destruct page as [[|c page]|]; cbn [snd]; [done| |done].
  pose proof (submit_effect srv repairData (c :: page) (uRequestID u2) u2) as [_ H3].
  cbv zeta in H3.
  destruct (submitOptimized srv repairData (c :: page) (uRequestID u2) u2) as [ok u3].
  cbn [snd] in H3. rewrite <- H3 in H2. by destruct ok.
Qed.

Lemma reachable_page_entries (u : Uploader) :
  reachable srv u -> Forall page_entry_ok (page_cache u).
Proof.
  induction 1 as [|u Hu IH|u fid Hu IH|u uid Hu IH|u rd pc uid Hu IH|u fid rd Hu IH].
  - constructor.
  - pose proof (connect_effect srv u) as [_ E]. cbv zeta in E. by rewrite E.
  - pose proof (search_effect srv fid u) as [E _]. cbv zeta in E. by rewrite E.
  - by apply page_keeps_entries.
  - pose proof (submit_effect srv rd pc uid u) as [_ E]. cbv zeta in E. by rewrite E.
  - by apply process_keeps_entries.
Qed.

(** X12.  In every state a session can reach, every cached edit page is
    stored under a key that starts with [edit_] and holds the marker field
    of the form; so whether it comes from the cache or from the remote
    system, a page that [getEditPageOptimized] returns holds the marker and
    is not empty. *)
Theorem edit_pages_hold_marker (u : Uploader) :
  reachable srv u ->
  (forall key page, Dict.get key (page_cache u) = Some page ->
     Py.startswith EDIT_PREFIX key = true /\ Py.contains PAGE_MARKER page = true) /\
  (forall uid page, (getEditPageOptimized srv uid u).1 = Some page ->
     Py.contains PAGE_MARKER page = true /\ page <> []).
Proof.
  intros Hu. pose proof (reachable_page_entries u Hu) as Hok. split.
  - intros key page Hget. by apply (dict_get_entry page_entry_ok key page _ Hok Hget).
  - intros uid page Hpage.
    destruct (page_keeps_entries uid u Hok) as [_ Hmark].
    specialize (Hmark page Hpage). split; [done|]. by intros ->.
Qed.

(** The three ways a connection check can go, by the replies to its first
    two requests. *)
Lemma connection_check_cases (u : Uploader) :
  let r := checkWebConnection srv u in
  let landing_ok := exists b1, landing_reply srv = Response 200 b1 in
  let login_ok :=
    exists matches, login_reply srv = Response 200 matches /\ Py.lit "1" ∈ matches in
  let system_ok := exists b3, system_reply srv = Response 200 b3 in
  (~ landing_ok /\ calls r.2 = calls u ++ [GetLanding] /\ r.1 <> None) \/
  (landing_ok /\ ~ login_ok /\
   calls r.2 = calls u ++ [GetLanding; PostLogin] /\ r.1 <> None) \/
  (landing_ok /\ login_ok /\
   calls r.2 = calls u ++ [GetLanding; PostLogin; GetSystemPage] /\
   (r.1 = None <-> system_ok)).
Proof.
  cbv zeta. unfold checkWebConnection.
  destruct (landing_reply srv) as [e1|c1 b1] eqn:H1.
  { left. split; [by intros [? ?]|]. by split. }
  destruct (Nat.eqb_spec c1 200) as [->|Hc1]; cbn [negb].
  2:{ left. split; [intros [? [= ? _]]; done|]. by split. }
  right.
  destruct (login_reply srv) as [e2|c2 matches] eqn:H2.
  { left. cbn [fst snd calls log_call]. rewrite <- app_assoc.
    split; [by eexists|]. split; [by intros (? & ? & _)|]. by split. }
  destruct (Nat.eqb_spec c2 200) as [->|Hc2]; cbn [negb].
  2:{ left. cbn [fst snd calls log_call]. rewrite <- app_assoc.
      split; [by eexists|]. split; [intros (? & [= ? _] & _); done|]. by split. }
  assert (Hone : existsb (Py.eqb (Py.lit "1")) matches = true <-> Py.lit "1" ∈ matches).
  { rewrite existsb_exists. split.
    - intros (x & Hx & Hb). unfold Py.eqb in Hb. apply bool_decide_eq_true in Hb.
      rewrite Hb. by apply list_elem_of_In.
    - intros Hin. exists (Py.lit "1"). split; [by apply list_elem_of_In|].
      apply eqb_refl_true. }
  destruct (match matches with [] => true | _ => false end
            || negb (existsb (Py.eqb (Py.lit "1")) matches)) eqn:Hbad.
  { left. cbn [fst snd calls log_call]. rewrite <- app_assoc.
    split; [by eexists|]. split; [|by split].
    intros (ms & [= <-] & Hin). apply Hone in Hin. rewrite Hin in Hbad.
    by destruct matches. }
  apply orb_false_iff in Hbad as [_ Hgood]. apply negb_false_iff in Hgood.
  right. split; [by eexists|]. split; [exists matches; split; [done | by apply Hone]|].
  destruct (system_reply srv) as [e3|c3 b3] eqn:H3.
  { cbn [fst snd calls log_call]. rewrite <- !app_assoc.
    split; [done|]. split; [done | by intros [? ?]]. }
  destruct (Nat.eqb_spec c3 200) as [->|Hc3];
    cbn [negb fst snd calls log_call]; rewrite <- !app_assoc.
  - split; [done|]. split; [by eexists | done].
  - split; [done|]. split; [done | intros [? [= ? _]]; done].
Qed.

(** X13.  The connection check makes its requests in the order landing
    page, login, system page and stops at the first one that fails: it
    makes the landing request only exactly when the landing reply is not a
    status 200, the landing and the login request only exactly when the
    landing reply is a status 200 and the login reply is not a status 200
    holding the status [1], and all three requests exactly when both are.
    It succeeds exactly when the three replies have status 200 and the
    login reply holds the status [1]. *)
Theorem connection_check_protocol (u : Uploader) :
  let r := checkWebConnection srv u in
  let landing_ok := exists b1, landing_reply srv = Response 200 b1 in
  let login_ok :=
    exists matches, login_reply srv = Response 200 matches /\ Py.lit "1" ∈ matches in
  exists made,
    calls r.2 = calls u ++ made /\
    (made = [GetLanding] \/ made = [GetLanding; PostLogin]
     \/ made = [GetLanding; PostLogin; GetSystemPage]) /\
    (made = [GetLanding] <-> ~ landing_ok) /\
    (made = [GetLanding; PostLogin] <-> landing_ok /\ ~ login_ok) /\
    (made = [GetLanding; PostLogin; GetSystemPage] <-> landing_ok /\ login_ok) /\
    (r.1 = None <->
     (exists b1 matches b3,
        landing_reply srv = Response 200 b1 /\
        login_reply srv = Response 200 matches /\
        Py.lit "1" ∈ matches /\
        system_reply srv = Response 200 b3)) /\
    (r.1 = None -> made = [GetLanding; PostLogin; GetSystemPage]).
Proof.
  cbv zeta.
  destruct (connection_check_cases u)
    as [(Hl & Hc & Hr)|[(Hl & Hg & Hc & Hr)|(Hl & Hg & Hc & Hr)]].
  - exists [GetLanding]. split; [done|]. split; [by left|].
    split; [done|].
    split; [split; [done | by intros [? _]]|].
    split; [split; [done | by intros [? _]]|].
    split; [|done]. split; [done|].
    intros (b1 & ms & b3 & H1 & _). destruct Hl. eauto.
  - exists [GetLanding; PostLogin]. split; [done|]. split; [by right; left|].
    split; [split; [done | by intros ?]|].
    split; [done|].
    split; [split; [done | by intros [_ ?]]|].
    split; [|done]. split; [done|].
    intros (b1 & ms & b3 & _ & H2 & Hin & _). destruct Hg. eauto.
  - exists [GetLanding; PostLogin; GetSystemPage]. split; [done|].
    split; [by right; right|].
    split; [split; [done | by intros ?]|].
    split; [split; [done | by intros [_ ?]]|].
    split; [done|].
    split; [|done]. rewrite Hr. split.
    + intros [b3 H3]. destruct Hl as [b1 H1]. destruct Hg as (ms & H2 & Hin).
      by exists b1, ms, b3.
    + intros (b1 & ms & b3 & _ & _ & _ & H3). eauto.
Qed.

Lemma search_calls_exact productFID (u : Uploader) :
  calls (searchProductOptimized srv productFID u).2
  = calls u ++ match Dict.get productFID (search_cache u) with
               | Some _ => []
               | None => [Search productFID]
               end /\
  (is_Some (Dict.get productFID (search_cache u)) ->
   (searchProductOptimized srv productFID u).1 = true).
Proof.
  unfold searchProductOptimized.
  destruct (Dict.get productFID (search_cache u)) as [[rid uid]|].
  { cbn [fst snd calls set_ids]. by rewrite app_nil_r. }
  split; [|by intros [? ?]].
  repeat match goal with
         | |- context [match ?x with _ => _ end] => destruct x; simpl; auto
         | |- context [if ?x then _ else _] => destruct x; simpl; auto
         end.
Qed.

Lemma page_calls_exact uid (u : Uploader) :
  calls (getEditPageOptimized srv uid u).2
  = calls u ++ match Dict.get (EDIT_PREFIX ++ json_str uid) (page_cache u) with
               | Some _ => []
               | None => [FetchEditPage uid]
               end.
Proof.
  unfold getEditPageOptimized. cbv zeta. generalize (EDIT_PREFIX ++ json_str uid).
  intros key. destruct (Dict.get key (page_cache u)).
  { cbn [snd]. by rewrite app_nil_r. }
  repeat match goal with
         | |- context [match ?x with _ => _ end] => destruct x; simpl; auto
         | |- context [if ?x then _ else _] => destruct x; simpl; auto
         end.
Qed.

(** X14.  The calls that the processing of one record adds to the session
    follow the outcome: a product that is not found costs exactly one search
    and nothing else; a missing edit page means that no submission was made;
    and a success, like a failed submission, ends with the one submission of
    the record. *)
Theorem record_call_discipline productFID repairData (u : Uploader) :
  let r := processRepairRecordEnhanced srv productFID repairData u in
  exists made,
    calls r.2 = calls u ++ made /\
    (r.1 = (false, PRODUCT_NOT_FOUND) -> made = [Search productFID]) /\
    (r.1 = (false, NO_EDIT_PAGE) -> Forall not_submit made) /\
    (r.1 = (true, SUCCESS) \/ r.1 = (false, SUBMIT_FAILED) ->
       exists before uid, made = before ++ [Submit uid] /\ Forall not_submit before).
Proof.
  cbv zeta. unfold processRepairRecordEnhanced.
  destruct (search_calls_exact productFID u) as [Hs Hhit].
  destruct (searchProductOptimized srv productFID u) as [found u1]. cbn [fst snd] in *.
  set (searched := match Dict.get productFID (search_cache u) with
                   | Some _ => []
                   | None => [Search productFID]
                   end) in *.
  assert (Hsearched : Forall not_submit searched).
  { unfold searched. destruct (Dict.get productFID (search_cache u)); by repeat constructor. }
  destruct found; cbn [negb].
  2:{ exists searched. split; [done|]. split; [|split; [done|by intros [?|?]]].
      intros _. unfold searched in *.
      destruct (Dict.get productFID (search_cache u)); [|done].
      by specialize (Hhit ltac:(eauto)). }
  pose proof (page_calls_exact (uRequestID u1) u1) as Hp.
  destruct (getEditPageOptimized srv (uRequestID u1) u1) as [page u2]. cbn [fst snd] in *.
  set (fetched := match Dict.get (EDIT_PREFIX ++ json_str (uRequestID u1)) (page_cache u1) with
                  | Some _ => []
                  | None => [FetchEditPage (uRequestID u1)]
                  end) in *.
  assert (Hfetched : Forall not_submit (searched ++ fetched)).
  { apply Forall_app. split; [done|]. unfold fetched.
    destruct (Dict.get _ (page_cache u1)); by repeat constructor. }
  assert (Hc2 : calls u2 = calls u ++ searched ++ fetched) by (by rewrite Hp, Hs, app_assoc).
  destruct page as [[|c page]|].
  1,3: exists (searched ++ fetched); cbn [fst snd];
       (split; [done|]); (split; [done|]); (split; [done|]); by intros [?|?].
  pose proof (submit_calls {| server := srv; cancelled := fun _ => false |} repairData (c :: page) (uRequestID u2) u2) as Hsub.
  cbn [server] in Hsub.
  destruct (submitOptimized srv repairData (c :: page) (uRequestID u2) u2) as [ok u3].
  cbn [fst snd] in *.
  exists ((searched ++ fetched) ++ [Submit (uRequestID u2)]).
  destruct ok; cbn [fst snd]; rewrite Hsub, Hc2, ?app_assoc;
    (split; [done|]); (split; [done|]); (split; [done|]);
    intros _; exists (searched ++ fetched), (uRequestID u2); by rewrite ?app_assoc.
Qed.

Lemma page_keeps_ids uid (u : Uploader) :
  let r := getEditPageOptimized srv uid u in
  requestID r.2 = requestID u /\ uRequestID r.2 = uRequestID u /\
  search_cache r.2 = search_cache u.
Proof.
  cbv zeta. unfold getEditPageOptimized. cbv zeta.
  generalize (EDIT_PREFIX ++ json_str uid). intros key.
  repeat match goal with
         | |- context [match ?x with _ => _ end] => destruct x; simpl; auto
         | |- context [if ?x then _ else _] => destruct x; simpl; auto
         end.
Qed.

Lemma submit_keeps_ids repairData pageContent uid (u : Uploader) :
  let r := submitOptimized srv repairData pageContent uid u in
  requestID r.2 = requestID u /\ uRequestID r.2 = uRequestID u /\
  search_cache r.2 = search_cache u /\ calls r.2 = calls u ++ [Submit uid].
Proof.
  cbv zeta. unfold submitOptimized.
  by destruct (submit_reply srv (calls u) repairData pageContent uid).
Qed.

(** X24.  A record is submitted under the ids of its own product: when the
    processing of a record reaches the submission, the search cache holds
    ids for the product of the record, the session is set to them, and the
    submission, which is the last call, carries the second of them. *)
Theorem submission_carries_product_ids productFID repairData (u : Uploader) :
  let r := processRepairRecordEnhanced srv productFID repairData u in
  r.1 = (true, SUCCESS) \/ r.1 = (false, SUBMIT_FAILED) ->
  Dict.get productFID (search_cache r.2) = Some (requestID r.2, uRequestID r.2) /\
  last (calls r.2) = Some (Submit (uRequestID r.2)).
Proof.
  cbv zeta. unfold processRepairRecordEnhanced.
  pose proof (search_found_cached productFID u) as Hs. cbv zeta in Hs.
  destruct (searchProductOptimized srv productFID u) as [found u1]. cbn [fst snd] in Hs.
  destruct found; cbn [negb fst snd]; [|by intros [?|?]].
  specialize (Hs eq_refl).
  pose proof (page_keeps_ids (uRequestID u1) u1) as (Hp1 & Hp2 & Hp3). cbv zeta in *.
  destruct (getEditPageOptimized srv (uRequestID u1) u1) as [page u2]. cbn [fst snd] in *.
  destruct page as [[|c page]|]; cbn [fst snd]; [by intros [?|?]| |by intros [?|?]].
  pose proof (submit_keeps_ids repairData (c :: page) (uRequestID u2) u2)
    as (Hq1 & Hq2 & Hq3 & Hq4). cbv zeta in *.
  destruct (submitOptimized srv repairData (c :: page) (uRequestID u2) u2) as [ok u3].
  cbn [fst snd] in *. intros _.
  assert (Hgoal : Dict.get productFID (search_cache u3)
                    = Some (requestID u3, uRequestID u3) /\
                  last (calls u3) = Some (Submit (uRequestID u3))).
  { split.
    - by rewrite Hq3, Hp3, Hq1, Hq2, Hp1, Hp2.
    - by rewrite Hq4, last_snoc, Hq2. }
  by destruct ok.
Qed.

End Session.

(** ** The size of an error category *)

(** X15.  Whatever the message and whatever [str.lower] does, the category
    that [categorizeError] returns is not empty and has at most 50
    characters. *)
Theorem categorizeError_bounded `{PyRuntime} (error_msg : pystr) :
  categorizeError error_msg <> [] /\
  (length (categorizeError error_msg) <= 50)%nat.
Proof.
  unfold categorizeError.
  destruct error_msg as [|c r]; [split; [done | vm_compute; lia]|].
  cbn [Py.is_empty].
  destruct (any_keyword_in connection_keywords (lower (c :: r)));
    [split; [done | vm_compute; lia]|].
  destruct (any_keyword_in product_keywords (lower (c :: r)));
    [split; [done | vm_compute; lia]|].
  destruct (any_keyword_in submit_keywords (lower (c :: r)));
    [split; [done | vm_compute; lia]|].
  destruct (Nat.ltb_spec 50 (length (c :: r))) as [Hlong|Hshort].
  - split; [done|]. rewrite length_take. lia.
  - by split.
Qed.

(** ** Deleting a record again, and deleting from a rewritten ledger *)

Lemma found_kept product_fid lines : found product_fid (kept product_fid lines) = 0%nat.
Proof.
  unfold found, kept. induction lines as [|line rest IH]; [done|].
  cbn [List.filter].
  destruct (blank line) eqn:Hb; cbn [negb andb]; [done|].
  destruct (Py.eqb (ledger_id line) product_fid) eqn:He; cbn [negb]; [done|].
  cbn [List.filter]. by rewrite Hb, He.
Qed.

(** X16.  Deleting the same product from the file of a task a second time
    changes nothing: no line goes, and the file is not written again. *)
Theorem delete_record_twice (task_id product_fid : pystr)
    (tasks : gmap pystr Task) (fs : FileSystem) :
  deleteRecordFromFile task_id product_fid tasks
    (deleteRecordFromFile task_id product_fid tasks fs)
  = deleteRecordFromFile task_id product_fid tasks fs.
Proof.
  unfold deleteRecordFromFile.
  destruct (tasks !! task_id) as [task|] eqn:Htask; [|done].
  destruct (files fs !! file_path task) as [lines|] eqn:Hfile; [|by rewrite Hfile].
  rewrite delete_loop_spec. cbn [app Nat.add].
  destruct (0 <? found product_fid lines)%nat eqn:Hfound.
  2:{ rewrite Hfile, delete_loop_spec. cbn [app Nat.add]. by rewrite Hfound. }
  destruct (write_ok fs (file_path task)) eqn:Hw.
  2:{ rewrite Hfile, delete_loop_spec. cbn [app Nat.add]. by rewrite Hfound, Hw. }
  cbn [files write_file]. rewrite lookup_insert_eq, delete_loop_spec.
  cbn [app Nat.add]. by rewrite found_kept.
Qed.



(** ** The names of the ledgers *)

Lemma rfind_from_app P i last a b :
  rfind_from P i last (a ++ b)
  = rfind_from P (i + Z.of_nat (length a)) (rfind_from P i last a) b.
Proof.
  revert i last. induction a as [|c a IH]; intros i last.
  - simpl. by rewrite Z.add_0_r.
  - cbn [app rfind_from length]. rewrite IH. f_equal. lia.
Qed.

Lemma rfind_from_none P i last b :
  Forall (fun c => P c = false) b -> rfind_from P i last b = last.
Proof.
  intros Hb. revert i. induction Hb as [|c b Hc _ IH]; intros i; [done|].
  cbn [rfind_from]. by rewrite Hc, IH.
Qed.

Lemma rfind_from_bounds P i last a :
  (-1 <= last < i)%Z ->
  (-1 <= rfind_from P i last a < i + Z.of_nat (length a))%Z.
Proof.
  revert i last. induction a as [|c a IH]; intros i last Hl.
  - simpl. lia.
  - cbn [rfind_from length].
    assert (-1 <= (if P c then i else last) < i + 1)%Z as Hl' by (destruct (P c); lia).
    specialize (IH _ _ Hl'). lia.
Qed.

(** The extension found after a stem that ends with a character that is
    neither a dot nor a separator. *)
Lemma splitext_stem `{PyRuntime} (b : pystr) (c : N) (ext : pystr) :
  c <> 46 -> c ∉ path_seps -> 46 ∉ path_seps ->
  Forall (fun x => x <> 46 /\ x ∉ path_seps) ext ->
  splitext (b ++ [c] ++ [46] ++ ext) = (b ++ [c], 46 :: ext).
Proof.
  intros Hc Hcs Hds Hext. unfold splitext, rfind.
  set (sep := fun x : N => bool_decide (x ∈ path_seps)).
  assert (Hdot : rfind_from (N.eqb 46) 0 (-1) (b ++ [c] ++ [46] ++ ext)
                 = Z.of_nat (length b + 1)).
  { rewrite !rfind_from_app. cbn [rfind_from length].
    rewrite rfind_from_none.
    - replace (46 =? c) with false by (symmetry; apply N.eqb_neq; congruence).
      rewrite N.eqb_refl. lia.
    - eapply Forall_impl; [exact Hext|]. intros x [Hx _]. apply N.eqb_neq. congruence. }
  assert (Hsep : rfind_from sep 0 (-1) (b ++ [c] ++ [46] ++ ext)
                 = rfind_from sep 0 (-1) b).
  { rewrite !rfind_from_app. cbn [rfind_from length].
    rewrite rfind_from_none.
    - unfold sep. by rewrite !bool_decide_eq_false_2.
    - eapply Forall_impl; [exact Hext|]. intros x [_ Hx]. unfold sep.
      by rewrite bool_decide_eq_false_2. }
  rewrite Hdot, Hsep.
  pose proof (rfind_from_bounds sep 0 (-1) b ltac:(lia)) as Hb.
  set (s := rfind_from sep 0 (-1) b) in *.
  assert ((s <? Z.of_nat (length b + 1))%Z = true) as -> by (apply Z.ltb_lt; lia).
  rewrite Nat2Z.id.
  assert (Htake : take (length b + 1) (b ++ [c] ++ [46] ++ ext) = b ++ [c]).
  { rewrite app_assoc. rewrite take_app_length'; [done|]. rewrite length_app. simpl. lia. }
  assert (Hdrop : drop (length b + 1) (b ++ [c] ++ [46] ++ ext) = 46 :: ext).
  { rewrite app_assoc. rewrite drop_app_length'; [done|]. rewrite length_app. simpl. lia. }
  rewrite Htake, Hdrop.
  assert (Hbefore : existsb (fun x => negb (x =? 46))
                      (take (length b + 1 - Z.to_nat (s + 1))
                         (drop (Z.to_nat (s + 1)) (b ++ [c] ++ [46] ++ ext))) = true).
  { rewrite <- skipn_firstn_comm. rewrite Htake.
    rewrite drop_app_le by lia. rewrite existsb_app. simpl.
    replace (c =? 46) with false by (symmetry; apply N.eqb_neq; congruence).
    simpl. by rewrite orb_true_r. }
  rewrite Hbefore. done.
Qed.

Lemma usual_seps_not `{PyRuntime} (c : N) :
  usual_seps -> c <> 47 -> c <> 92 -> c ∉ path_seps.
Proof. intros Hs H1 H2 Hin. destruct (Hs c Hin); congruence. Qed.

(** The name of a rewritten ledger splits at its extension. *)
Lemma splitext_marked `{PyRuntime} (base : pystr) (failed : bool) :
  usual_seps ->
  splitext (base ++ (if failed then FAIL_MARK else DONE_MARK) ++ TXT)
  = (base ++ (if failed then FAIL_MARK else DONE_MARK), TXT).
Proof.
  intros Hs. destruct failed.
  - change (base ++ FAIL_MARK ++ TXT)
      with (base ++ [95; 102; 97; 105] ++ [108] ++ [46] ++ [116; 120; 116]).
    change (base ++ FAIL_MARK) with (base ++ [95; 102; 97; 105] ++ [108]).
    rewrite !(app_assoc base). apply splitext_stem; [done| | |].
    + by apply usual_seps_not.
    + by apply usual_seps_not.
    + repeat constructor; try done; by apply usual_seps_not.
  - change (base ++ DONE_MARK ++ TXT)
      with (base ++ [95; 100; 111; 110] ++ [101] ++ [46] ++ [116; 120; 116]).
    change (base ++ DONE_MARK) with (base ++ [95; 100; 111; 110] ++ [101]).
    rewrite !(app_assoc base). apply splitext_stem; [done| | |].
    + by apply usual_seps_not.
    + by apply usual_seps_not.
    + repeat constructor; try done; by apply usual_seps_not.
Qed.

Lemma new_filename_of_marked `{PyRuntime} (base : pystr) (failed : bool)
    (results : list UploadResult) :
  usual_seps ->
  new_filename_of (base ++ (if failed then FAIL_MARK else DONE_MARK) ++ TXT) results
  = base ++ (if has_failure results then FAIL_MARK else DONE_MARK) ++ TXT.
Proof.
  intros Hs. unfold new_filename_of. rewrite splitext_marked by done. cbn [fst].
  destruct failed; by rewrite ?strip_marker_fail, ?strip_marker_done.
Qed.

(** X18.  Markers never pile up: the name given to a ledger that was
    already rewritten is the name that the first ledger would get for the
    same results. *)
Theorem rewritten_name_stable `{PyRuntime} (ledger : pystr)
    (first_results results : list UploadResult) :
  usual_seps ->
  new_filename_of (new_filename_of ledger first_results) results
  = new_filename_of ledger results.
Proof.
  intros Hs. unfold new_filename_of at 2.
  by rewrite (new_filename_of_marked _ (has_failure first_results)).
Qed.

(** X19.  A retry that ends like the run before it (again with a failure,
    or again without) rewrites the ledger in place: the lines of the new
    results are written under the same name, and no file is removed. *)
Theorem same_verdict_rewrites_in_place `{PyRuntime} (ledger : pystr)
    (first_results results : list UploadResult) (fs : FileSystem) :
  usual_seps ->
  results <> [] ->
  has_failure results = has_failure first_results ->
  let rewritten := new_filename_of ledger first_results in
  write_ok fs rewritten = true ->
  updateFileWithResults rewritten results fs
  = (Some rewritten, write_file rewritten (List.map render results) fs).
Proof.
  intros Hs Hne Hsame rewritten Hw.
  assert (Hname : new_filename_of rewritten results = rewritten).
  { unfold rewritten, new_filename_of at 2 3.
    by rewrite (new_filename_of_marked _ (has_failure first_results)), Hsame. }
  unfold updateFileWithResults. destruct results as [|r rs]; [done|].
  rewrite Hname, Hw, eqb_refl_true. cbn [negb]. by rewrite andb_false_r.
Qed.

(** ** Opening the ledger of a task *)

Lemma exists_file_true fs path : exists_file fs path = true <-> is_Some (files fs !! path).
Proof. unfold exists_file. apply bool_decide_eq_true. Qed.

Lemma exists_file_write path lines fs other :
  exists_file (write_file path lines fs) other
  = if decide (other = path) then true else exists_file fs other.
Proof.
  unfold exists_file. cbn [files write_file]. destruct (decide (other = path)) as [->|Hne].
  - rewrite lookup_insert_eq. by apply bool_decide_eq_true.
  - by rewrite lookup_insert_ne.
Qed.

Lemma exists_file_remove path fs other :
  exists_file (remove_file path fs) other
  = if decide (other = path) then false else exists_file fs other.
Proof.
  unfold exists_file. cbn [files remove_file]. destruct (decide (other = path)) as [->|Hne].
  - rewrite lookup_delete_eq. apply bool_decide_eq_false. by intros [? ?].
  - by rewrite lookup_delete_ne.
Qed.

(** After a rewrite that could open its file, the rewritten ledger exists. *)
Lemma rewritten_exists `{PyRuntime} (ledger : pystr) (results : list UploadResult)
    (fs : FileSystem) :
  results <> [] ->
  write_ok fs (new_filename_of ledger results) = true ->
  exists_file (updateFileWithResults ledger results fs).2 (new_filename_of ledger results)
  = true.
Proof.
  intros Hne Hw. unfold updateFileWithResults. destruct results as [|r rs]; [done|].
  rewrite Hw. set (name := new_filename_of ledger (r :: rs)).
  set (fs1 := write_file name (List.map render (r :: rs)) fs).
  assert (H1 : exists_file fs1 name = true).
  { unfold fs1. rewrite exists_file_write. by rewrite decide_True. }
  cbn [snd]. rewrite H1. cbn [andb].
  destruct (exists_file fs1 ledger); cbn [andb]; [|done].
  unfold Py.eqb. case_bool_decide as Hsame; cbn [negb]; [done|].
  destruct (remove_ok fs1 ledger); [|done].
  rewrite exists_file_remove. by rewrite decide_False.
Qed.

Lemma openFile_base (base_name : pystr) :
  (if Py.endswith FAIL_MARK base_name || Py.endswith DONE_MARK base_name then
     if Py.endswith FAIL_MARK base_name then take (length base_name - 5) base_name
     else if Py.endswith DONE_MARK base_name then take (length base_name - 5) base_name
     else base_name
   else base_name)
  = strip_marker base_name.
Proof.
  unfold strip_marker.
  by destruct (Py.endswith FAIL_MARK base_name), (Py.endswith DONE_MARK base_name).
Qed.

(** X20.  After a rewrite of its ledger, a task widget that still holds the
    old name opens an existing file: the old one when it is still there,
    else a [_done] ledger of the same base name when there is one, else
    the rewritten ledger. *)
Theorem openFile_after_rewrite `{PyRuntime} (filename : pystr)
    (results : list UploadResult) (fs : FileSystem) :
  filename <> [] -> results <> [] ->
  let rewritten := new_filename_of filename results in
  let done_file := strip_marker (splitext filename).1 ++ DONE_MARK ++ TXT in
  write_ok fs rewritten = true ->
  let fs' := (updateFileWithResults filename results fs).2 in
  exists file_to_open,
    openFile filename fs' = Some file_to_open /\
    exists_file fs' file_to_open = true /\
    file_to_open = (if exists_file fs' filename then filename
                    else if exists_file fs' done_file then done_file
                    else rewritten).
Proof.
  intros Hf Hne rewritten done_file Hw fs'.
  pose proof (rewritten_exists filename results fs Hne Hw) as Hnew.
  fold rewritten fs' in Hnew. clearbody fs'.
  unfold openFile. cbv zeta. rewrite openFile_base. fold done_file.
  cbn [List.find].
  destruct (exists_file fs' filename) eqn:E1.
  { exists filename. destruct filename; [done|]. by repeat split. }
  destruct (exists_file fs' done_file) eqn:E2.
  { exists done_file. split; [|by split].
    unfold done_file. by destruct (strip_marker (splitext filename).1). }
  assert (Hfail : rewritten = strip_marker (splitext filename).1 ++ FAIL_MARK ++ TXT).
  { unfold rewritten, new_filename_of in *. unfold done_file in E2.
    destruct (has_failure results); [done|]. congruence. }
  rewrite <- Hfail, Hnew. exists rewritten. split; [|by split].
  rewrite Hfail. by destruct (strip_marker (splitext filename).1).
Qed.

(** ** Retrying a task *)

Lemma startswith_TXT_app (s : pystr) :
  Py.contains TXT s = false -> s <> [] -> Py.startswith TXT (s ++ TXT) = false.
Proof.
  intros Hc Hs.
  destruct s as [|a [|b [|c [|d s]]]]; [done| | | |].
  all: cbn [Py.contains] in Hc; apply orb_false_iff in Hc as [Hc _].
  all: unfold TXT in *; cbn [app Py.startswith] in *.
  all: repeat match goal with
              | |- context [(?x =? ?y)] =>
                  destruct (N.eqb_spec x y); subst; cbn [andb] in *; try done
              end.
Qed.

(** [replace] on a name whose only [.txt] is its extension. *)
Lemma replace_extension (new s : pystr) :
  Py.contains TXT s = false -> replace TXT new (s ++ TXT) = s ++ new.
Proof.
  unfold replace.
  change (Py.contains TXT s = false -> replace_go TXT new 0 (s ++ TXT) = s ++ new).
  induction s as [|c s IH]; intros Hc.
  - cbn. by rewrite app_nil_r.
  - pose proof (startswith_TXT_app (c :: s) Hc ltac:(done)) as Hno.
    cbn [Py.contains] in Hc. apply orb_false_iff in Hc as [_ Hc].
    change (replace_go TXT new 0 ((c :: s) ++ TXT))
      with (if Py.startswith TXT ((c :: s) ++ TXT)
            then new ++ replace_go TXT new (length TXT - 1) (s ++ TXT)
            else c :: replace_go TXT new 0 (s ++ TXT)).
    by rewrite Hno, IH.
Qed.

(** X21.  A task started on a ledger [name.txt] (the name ending with a
    character that is neither a dot nor a separator, without a marker and
    without another [.txt]) whose run has ended and whose ledger was
    rewritten and removed: a retry of the task finds the rewritten ledger
    and starts the new task on it, provided that no [_fail] ledger of the
    name was lying around when every record succeeded. *)
Theorem retry_finds_rewritten_ledger `{PyRuntime}
    (task_id new_task_id : pystr) (handle : nat) (stem : pystr) (c : N)
    (results : list UploadResult) (tasks : gmap pystr Task) (fs : FileSystem)
    (task : Task) :
  usual_seps ->
  c <> 46 -> c <> 47 -> c <> 92 ->
  let name := stem ++ [c] in
  let ledger := name ++ TXT in
  let rewritten :=
    name ++ (if has_failure results then FAIL_MARK else DONE_MARK) ++ TXT in
  Py.contains TXT name = false ->
  strip_marker name = name ->
  tasks !! task_id = Some task ->
  file_path task = ledger -> original_file task = ledger ->
  results <> [] ->
  exists_file fs ledger = true ->
  write_ok fs rewritten = true ->
  remove_ok fs ledger = true ->
  (has_failure results = false -> exists_file fs (name ++ FAIL_MARK ++ TXT) = false) ->
  let finished := onTaskFinished task_id results tasks fs in
  let retried := retryTask task_id new_task_id handle finished.1 finished.2 in
  retried.1 = Some rewritten /\
  retried.2 !! new_task_id
  = Some {| worker := Some handle; file_path := rewritten; original_file := rewritten |}.
Proof.
  intros Hs Hc1 Hc2 Hc3 name ledger rewritten Htxt Hmark Htask Hpath Horig Hne
    Hex Hw Hrm Hstale finished retried.
  assert (Hsplit : splitext ledger = (name, TXT)).
  { unfold ledger, name. rewrite <- app_assoc.
    change (splitext (stem ++ [c] ++ [46] ++ [116; 120; 116]) = (stem ++ [c], TXT)).
    apply splitext_stem; [done| | |].
    - by apply usual_seps_not.
    - by apply usual_seps_not.
    - repeat constructor; try done; by apply usual_seps_not. }
  assert (Hnew : new_filename_of ledger results = rewritten).
  { unfold new_filename_of. rewrite Hsplit. cbn [fst]. by rewrite Hmark. }
  assert (Hdiff : rewritten <> ledger).
  { unfold rewritten, ledger. intros Heq. apply app_inv_head in Heq.
    by destruct (has_failure results). }
  assert (Hfull : rewritten <> []).
  { unfold rewritten, name. by destruct stem. }
  assert (Hup : updateFileWithResults ledger results fs
                = (Some rewritten,
                   remove_file ledger (write_file rewritten (List.map render results) fs))).
  { unfold updateFileWithResults. destruct results as [|r rs]; [done|].
    rewrite Hnew, Hw. rewrite !exists_file_write.
    rewrite decide_True by done. rewrite decide_False by done. rewrite Hex.
    cbn [andb]. unfold Py.eqb. rewrite bool_decide_eq_false_2 by done.
    cbn [negb remove_ok write_file]. by rewrite Hrm. }
  assert (Hfin : finished
                 = (<[task_id := {| worker := None; file_path := rewritten;
                                    original_file := ledger |}]> tasks,
                    remove_file ledger
                      (write_file rewritten (List.map render results) fs))).
  { unfold finished, onTaskFinished. rewrite Htask, Hpath, Hup, Horig.
    unfold Py.eqb. rewrite bool_decide_eq_false_2 by done.
    by destruct rewritten. }
  assert (Hfile : retry_file_path task_id finished.1 finished.2 = Some rewritten).
  { rewrite Hfin. cbn [fst snd]. unfold retry_file_path.
    rewrite lookup_insert_eq. cbn [original_file].
    rewrite exists_file_remove, decide_True by done.
    unfold ledger. rewrite !replace_extension by done.
    rewrite !exists_file_remove, !exists_file_write.
    rewrite !(decide_False (P := _ = name ++ TXT)).
    2,3: intros Heq; by apply app_inv_head in Heq.
    unfold rewritten in *. destruct (has_failure results).
    - rewrite decide_True by done. unfold name. by destruct stem.
    - rewrite decide_False by (intros Heq; by apply app_inv_head in Heq).
      rewrite Hstale by done. rewrite decide_True by done.
      unfold name. by destruct stem. }
  unfold retried, retryTask. rewrite Hfile. cbn [fst snd]. split; [done|].
  unfold startNewTask. by rewrite lookup_insert_eq.
Qed.

(** ** From the form to the worker: the saved line *)





















(** ** Removing an item of the list *)

(** X23.  Removing the item that was saved last gives the record file its
    lines of before the save back, when no earlier line starts with the
    texts of the item. *)
Theorem remove_undoes_save (current_record_file productFID : pystr)
    (board_fids : list pystr) (failure_type : pystr) (form : FormTexts)
    (lines : list pystr) (fs : FileSystem) :
  current_record_file <> [] ->
  files fs !! current_record_file
    = Some (lines ++ [saveToFile_line productFID board_fids failure_type form]) ->
  write_ok fs current_record_file = true ->
  Forall (fun line =>
            Py.startswith (item_prefix productFID board_fids failure_type) line = false)
         lines ->
  removeItemFromList current_record_file productFID board_fids failure_type fs
  = write_file current_record_file lines fs.
Proof.
  intros Hpath Hfile Hw Hold. unfold removeItemFromList.
  assert (exists_file fs current_record_file = true) as ->
    by (apply bool_decide_eq_true; eauto).
  destruct current_record_file as [|c path]; [done|]. cbn [Py.is_empty negb andb].
  rewrite Hfile, Hw. f_equal. rewrite List.filter_app. cbn [List.filter].
  assert (Py.startswith (item_prefix productFID board_fids failure_type)
            (saveToFile_line productFID board_fids failure_type form) = true) as ->.
  { apply startswith_prefix. unfold saveToFile_line, item_prefix. cbv zeta.
    eexists. rewrite <- !app_assoc. reflexivity. }
  cbn [negb]. rewrite app_nil_r. clear Hfile.
  induction Hold as [|line rest Hline _ IH]; [done|].
  cbn [List.filter]. rewrite Hline. cbn [negb]. by rewrite IH.
Qed.

(** ** Worked examples of the further properties *)

(** The flag is found set at the third read: the run ends without a
    [finished] signal. *)
Lemma cancelled_run_reports_nothing_witness :
  finished_results
    (events (final (run stopped_env demo_path (Lines demo_raw) false new_worker))) = [].
Proof.
  apply (cancelled_run_reports_nothing stopped_env demo_path (Lines demo_raw) false 2%nat).
  - vm_compute. lia.
  - vm_compute. reflexivity.
Defined.

(** The demo run announces its three results one by one. *)
Lemma finished_carries_announced_witness :
  let w := final (run demo_env demo_path (Lines demo_raw) false new_worker) in
  reported (events w) = List.map announced (upload_results w).
Proof.
  cbv zeta.
  apply (finished_carries_announced demo_env demo_path (Lines demo_raw) false
           true (PartlySucceeded false 2 3 1)).
  apply last_Some_elem_of. vm_compute. reflexivity.
Defined.

(** The widget of the demo run counts two successes and one failure. *)
Lemma widget_counts_results_witness :
  deliver (events (final (run demo_env demo_path (Lines demo_raw) false new_worker)))
          new_widget
  = {| widget_success_count := 2; widget_fail_count := 1 |}.
Proof.
  rewrite (widget_counts_results demo_env demo_path (Lines demo_raw) false
             true (PartlySucceeded false 2 3 1)
             (upload_results
                (final (run demo_env demo_path (Lines demo_raw) false new_worker)))).
  - vm_compute. reflexivity.
  - apply last_Some_elem_of. vm_compute. reflexivity.
Defined.

(** The demo run ends as a partial success: two of three. *)
Lemma verdict_follows_counts_witness :
  let w := final (run demo_env demo_path (Lines demo_raw) false new_worker) in
  last (events w)
  = Some (Finished true (PartlySucceeded false 2 3 1) (upload_results w)).
Proof.
  cbv zeta.
  destruct (verdict_follows_counts demo_env demo_never_cancelled demo_path demo_raw false)
    as (ok & message & Hlast & Hok & _ & Hpart & _).
  - vm_compute. discriminate.
  - vm_compute. reflexivity.
  - rewrite Hlast, Hok, Hpart.
    + vm_compute. reflexivity.
    + vm_compute. lia.
    + vm_compute. lia.
Defined.




Lemma ascii_lowers_known_errors : @lowers_known_errors ascii_runtime.
Proof. intros text _. reflexivity. Qed.

(** The line [BAD,1,2] of the demo ledger fails with 数据格式错误. *)
Lemma recorded_errors_are_known_witness :
  let r := {| original_line := Py.lit "BAD,1,2"; success := false;
              error := FORMAT_ERROR; product_fid := Py.lit "BAD" |} in
  r ∈ upload_results (final (run demo_env demo_path (Lines demo_raw) false new_worker)) /\
  ((success r = true /\ error r = SUCCESS) \/
   (success r = false /\ error r ∈ FORMAT_ERROR :: known_errors)).
Proof.
  cbv zeta.
  assert (Hin : {| original_line := Py.lit "BAD,1,2"; success := false;
                   error := FORMAT_ERROR; product_fid := Py.lit "BAD" |}
                ∈ upload_results
                    (final (run demo_env demo_path (Lines demo_raw) false new_worker))).
  { vm_compute. apply list_elem_of_In. simpl. auto. }
  split; [exact Hin|].
  apply (recorded_errors_are_known demo_env ascii_lowers_known_errors
           demo_never_cancelled demo_path demo_raw false).
  - vm_compute. discriminate.
  - vm_compute. reflexivity.
  - exact Hin.
Defined.

(** After the demo run, a retry reads the line [BAD,1,2] and nothing else. *)
Lemma retry_after_run_witness :
  ledger_lines true
    (List.map render
       (upload_results (final (run demo_env demo_path (Lines demo_raw) false new_worker))))
  = [Py.lit "BAD,1,2"].
Proof.
  rewrite (retry_after_run demo_env ascii_lowers_known_errors demo_never_cancelled
             demo_path demo_raw false).
  - vm_compute. reflexivity.
  - vm_compute. discriminate.
  - vm_compute. reflexivity.
  - repeat constructor; vm_compute; try reflexivity; discriminate.
Defined.

(** The second search of a product is answered from the cache. *)
Lemma search_again_hits_witness :
  let first := searchProductOptimized demo_server (Py.lit "X1") new_uploader in
  let second := searchProductOptimized demo_server (Py.lit "X1") first.2 in
  calls first.2 = [Search (Py.lit "X1")] /\
  second.1 = true /\ calls second.2 = [Search (Py.lit "X1")].
Proof.
  cbv zeta.
  destruct (search_again_hits demo_server (Py.lit "X1") new_uploader)
    as (Hfound & Hcalls & _).
  - vm_compute. reflexivity.
  - split; [vm_compute; reflexivity|]. split; [exact Hfound|].
    rewrite Hcalls. vm_compute. reflexivity.
Defined.

(** The second fetch of an edit page is answered from the cache. *)
Lemma page_again_hits_witness :
  let first := getEditPageOptimized demo_server (Py.lit "UX1") new_uploader in
  let second := getEditPageOptimized demo_server (Py.lit "UX1") first.2 in
  second.1 = Some PAGE_MARKER /\ calls second.2 = [@FetchEditPage ascii_runtime (Py.lit "UX1")].
Proof.
  cbv zeta.
  destruct (page_again_hits demo_server (Py.lit "UX1") new_uploader PAGE_MARKER)
    as (Hpage & Hcalls & _).
  - vm_compute. reflexivity.
  - split; [exact Hpage|]. rewrite Hcalls. vm_compute. reflexivity.
Defined.

(** The page cached by the first fetch holds the marker. *)
Lemma edit_pages_hold_marker_witness :
  let u := (getEditPageOptimized demo_server (Py.lit "UX1") new_uploader).2 in
  Dict.get (Py.lit "edit_UX1") (page_cache u) = Some PAGE_MARKER /\
  Py.startswith EDIT_PREFIX (Py.lit "edit_UX1") = true /\
  Py.contains PAGE_MARKER PAGE_MARKER = true.
Proof.
  cbv zeta.
  assert (Hget : Dict.get (Py.lit "edit_UX1")
                   (page_cache
                      (getEditPageOptimized demo_server (Py.lit "UX1") new_uploader).2)
                 = Some PAGE_MARKER) by (vm_compute; reflexivity).
  split; [exact Hget|].
  destruct (edit_pages_hold_marker demo_server
              (getEditPageOptimized demo_server (Py.lit "UX1") new_uploader).2)
    as [Hcache _].
  - apply reach_page, reach_new.
  - exact (Hcache _ _ Hget).
Defined.


(** The status must not be blank: written with an error of one blank, the
    line of [X1] loses its marker when stripped, and the deletion of [X1]
    keeps it. *)
Example blank_status_hides_the_line :
  let r := {| original_line := Py.lit "X1"; success := false;
              error := [32]; product_fid := Py.lit "X1" |} in
  render r = Py.lit "X1 //  " ++ NEWLINE /\
  Py.strip (status_text r) = [] /\
  delete_loop (Py.lit "X1") [render r] [] 0 = ([render r], 0%nat).
Proof. cbv zeta. repeat split; vm_compute; reflexivity. Qed.

(** A landing page that cannot be reached: the check stops after its first
    request. *)
Example connection_check_stops_at_landing :
  calls (checkWebConnection down_server new_uploader).2 = [GetLanding] /\
  (checkWebConnection down_server new_uploader).1
  = Some (Py.lit "连接失败: 无法连接到服务器，请检查网络").
Proof. split; vm_compute; reflexivity. Qed.

Lemma ascii_usual_seps : @usual_seps ascii_runtime.
Proof. intros c Hc. apply list_elem_of_singleton in Hc. by left. Qed.

(** A ledger that failed and then succeeded is named [_done], not
    [_fail_done]. *)
Lemma rewritten_name_stable_witness :
  @new_filename_of ascii_runtime
    (@new_filename_of ascii_runtime demo_path demo_results) [] 
  = Py.lit "/data/ledger_done.txt".
Proof.
  rewrite (@rewritten_name_stable ascii_runtime demo_path demo_results []
             ascii_usual_seps).
  vm_compute. reflexivity.
Defined.

(** A second run with a failure writes [ledger_fail.txt] again and removes
    nothing. *)
Lemma same_verdict_rewrites_in_place_witness :
  let rewritten := Py.lit "/data/ledger_fail.txt" in
  journal
    (@updateFileWithResults ascii_runtime rewritten demo_results
       (demo_disk rewritten [])).2
  = [WriteLines rewritten (List.map render demo_results)].
Proof.
  cbv zeta.
  change (Py.lit "/data/ledger_fail.txt")
    with (@new_filename_of ascii_runtime demo_path demo_results).
  rewrite (@same_verdict_rewrites_in_place ascii_runtime demo_path demo_results
             demo_results
             (demo_disk (@new_filename_of ascii_runtime demo_path demo_results) [])
             ascii_usual_seps).
  - reflexivity.
  - discriminate.
  - reflexivity.
  - reflexivity.
Defined.

(** The widget still holds [ledger.txt]; the file opened is
    [ledger_fail.txt]. *)
Lemma openFile_after_rewrite_witness :
  @openFile ascii_runtime demo_path
    (@updateFileWithResults ascii_runtime demo_path demo_results
       (demo_disk demo_path demo_raw)).2
  = Some (Py.lit "/data/ledger_fail.txt").
Proof.
  destruct (@openFile_after_rewrite ascii_runtime demo_path demo_results
              (demo_disk demo_path demo_raw))
    as (file_to_open & Hopen & _ & Hwhich).
  - discriminate.
  - discriminate.
  - reflexivity.
  - rewrite Hopen, Hwhich. vm_compute. reflexivity.
Defined.

(** The retry of the demo task runs on [ledger_fail.txt]. *)
Lemma retry_finds_rewritten_ledger_witness :
  let task_id := Py.lit "t1" in
  let finished :=
    @onTaskFinished ascii_runtime task_id demo_results
      (demo_tasks task_id demo_path) (demo_disk demo_path demo_raw) in
  (retryTask task_id (Py.lit "t2") 1 finished.1 finished.2).1
  = Some (Py.lit "/data/ledger_fail.txt").
Proof.
  cbv zeta.
  destruct (@retry_finds_rewritten_ledger ascii_runtime (Py.lit "t1") (Py.lit "t2")
              1%nat (Py.lit "/data/ledge") 114 demo_results
              (demo_tasks (Py.lit "t1") demo_path) (demo_disk demo_path demo_raw)
              {| worker := Some 0%nat; file_path := demo_path;
                 original_file := demo_path |}
              ascii_usual_seps) as [Hfile _].
  - discriminate.
  - discriminate.
  - discriminate.
  - vm_compute. reflexivity.
  - vm_compute. reflexivity.
  - vm_compute. reflexivity.
  - vm_compute. reflexivity.
  - vm_compute. reflexivity.
  - discriminate.
  - vm_compute. reflexivity.
  - reflexivity.
  - reflexivity.
  - vm_compute. discriminate.
  - exact Hfile.
Defined.


(** Saving the item and removing it again leaves the one line of before. *)
Lemma remove_undoes_save_witness :
  let path := Py.lit "/data/batch.txt" in
  let earlier := [Py.lit "P0, B0, 3, a, b, c, d, e, f, g, h, i,j" ++ NEWLINE] in
  let saved := saveToFile_line (Py.lit "P1") [Py.lit "B1"; Py.lit "B2"]
                 (Py.lit "3") demo_form in
  files (removeItemFromList path (Py.lit "P1") [Py.lit "B1"; Py.lit "B2"] (Py.lit "3")
           (demo_disk path (earlier ++ [saved]))) !! path
  = Some earlier.
Proof.
  cbv zeta.
  rewrite (remove_undoes_save (Py.lit "/data/batch.txt") (Py.lit "P1")
             [Py.lit "B1"; Py.lit "B2"] (Py.lit "3") demo_form
             [Py.lit "P0, B0, 3, a, b, c, d, e, f, g, h, i,j" ++ NEWLINE]).
  - cbn [files write_file]. apply lookup_insert_eq.
  - discriminate.
  - unfold demo_disk. cbn [files]. apply lookup_singleton_eq.
  - reflexivity.
  - repeat constructor.
Defined.

(** The demo record is submitted under the id [UX1] of its product. *)
Lemma submission_carries_product_ids_witness :
  let r := processRepairRecordEnhanced demo_server (Py.lit "X1")
             (repair_data_of []) new_uploader in
  Dict.get (Py.lit "X1") (search_cache r.2) = Some (Py.lit "R", Py.lit "UX1") /\
  last (calls r.2) = Some (@Submit ascii_runtime (Py.lit "UX1")).
Proof.
  cbv zeta.
  destruct (submission_carries_product_ids demo_server (Py.lit "X1")
              (repair_data_of []) new_uploader) as [Hcache Hlast].
  - left. vm_compute. reflexivity.
  - rewrite Hcache, Hlast. split; vm_compute; reflexivity.
Defined.

(** ** Runs with nothing to process, failures that are not cached, and the
    number of remote calls *)

Section Budget.
Context `{PyRuntime} (env : Env).

Lemma connect_call_count (u : Uploader) :
  (length (calls (checkWebConnection (server env) u).2) <= length (calls u) + 3)%nat.
Proof.
  unfold checkWebConnection.
  repeat match goal with
         | |- context [match ?x with _ => _ end] => destruct x
         | |- context [if ?x then _ else _] => destruct x
         end.
  all: cbn [snd calls log_call]; rewrite ?length_app; simpl; lia.
Qed.

Lemma process_call_count productFID repairData (u : Uploader) :
  (length (calls (processRepairRecordEnhanced (server env) productFID repairData u).2)
   <= length (calls u) + 3)%nat.
Proof.
  unfold processRepairRecordEnhanced.
  pose proof (search_calls env productFID u) as Hs.
  destruct (searchProductOptimized (server env) productFID u) as [found u1].
  cbn [snd] in Hs.
  assert (length (calls u1) <= length (calls u) + 1)%nat as H1.
  { destruct Hs as [->| ->]; rewrite ?length_app; simpl; lia. }
  destruct found; cbn [negb snd]; [|lia].
  pose proof (page_calls env (uRequestID u1) u1) as Hp.
  destruct (getEditPageOptimized (server env) (uRequestID u1) u1) as [page u2].
  cbn [snd] in Hp.
  assert (length (calls u2) <= length (calls u1) + 1)%nat as H2.
  { destruct Hp as [->| ->]; rewrite ?length_app; simpl; lia. }
  destruct page as [[|c page]|]; cbn [snd]; [lia| |lia].
  pose proof (submit_calls env repairData (c :: page) (uRequestID u2) u2) as Hsub.
  destruct (submitOptimized (server env) repairData (c :: page) (uRequestID u2) u2)
    as [ok u3].
  cbn [snd] in Hsub.
  assert (length (calls u3) = length (calls u2) + 1)%nat as H3.
  { rewrite Hsub, length_app. simpl. lia. }
  destruct ok; cbn [snd]; lia.
Qed.

Lemma uploader_after_call_count records : forall u : Uploader,
  (length (calls (uploader_after (server env) u records))
   <= length (calls u) + 3 * length records)%nat.
Proof.
  induction records as [|record rest IH]; intros u.
  - simpl. lia.
  - unfold uploader_after in *. cbn [foldl length].
    pose proof (process_call_count record.1.1 record.1.2 u) as H1.
    specialize (IH (processRepairRecordEnhanced (server env) record.1.1 record.1.2 u).2).
    lia.
Qed.

Hypothesis Hnc : never_cancelled env.

(** X25.  With nothing to process (the file is missing, cannot be read,
    has blank lines only or, in retry mode, has no failed line) a run that
    is not cancelled contacts nothing, pauses nowhere, and ends with one
    [finished] signal and an empty list of results; the verdict is a
    failure, except for the retry with no failed line, which is a
    success. *)
Theorem nothing_to_process
    (record_file : pystr) (file : LedgerFile) (retry_mode : bool) :
  match file with
  | Lines raw => ledger_lines retry_mode raw = []
  | _ => True
  end ->
  let w := final (run env record_file file retry_mode new_worker) in
  let message :=
    match file with
    | Missing => NoSuchFile record_file
    | Unreadable text => ReadFailed text
    | Lines raw => match read_lines raw with [] => EmptyFile | _ => NothingToRetry end
    end in
  let ok := match message with NothingToRetry => true | _ => false end in
  calls (uploader w) = [] /\
  sleeps (events w) = [] /\
  upload_results w = [] /\
  finished_results (events w) = [[]] /\
  last (events w) = Some (Finished ok message []).
Proof.
  unfold run, announce, ledger_lines. rewrite (bind_check_cancel env Hnc).
  destruct file as [|text|raw].
  - intros _. by repeat split.
  - intros _.
    repeat first [ rewrite bind_assoc | rewrite bind_emit
                 | rewrite (bind_check_cancel env Hnc) ].
    by repeat split.
  - intros Hnone.
    repeat first [ rewrite bind_assoc | rewrite bind_emit
                 | rewrite (bind_check_cancel env Hnc) ].
    destruct (read_lines raw) as [|l ls] eqn:Hread; [by repeat split|].
    destruct retry_mode; [|done]. rewrite Hnone. by repeat split.
Qed.

(** X27.  A run that is not cancelled and whose connection check succeeds
    makes at most three remote calls for the check and three for every line
    with 13 fields or more; lines with fewer fields cost none. *)
Theorem run_call_budget
    (record_file : pystr) (raw : list pystr) (retry_mode : bool) :
  ledger_lines retry_mode raw <> [] ->
  (checkWebConnection (server env) new_uploader).1 = None ->
  let lines := ledger_lines retry_mode raw in
  let w := final (run env record_file (Lines raw) retry_mode new_worker) in
  (length (calls (uploader w))
   <= 3 + 3 * length (well_formed_lines retry_mode lines))%nat.
Proof.
  intros Hne Hup. cbv zeta. rewrite (run_lines env Hnc) by done.
  match goal with |- context [process_lines env _ ?ls ?w0] =>
    destruct (process_lines_connected env Hnc retry_mode ls w0 Hup)
      as (w' & ok & message & Hrun & _ & Hupl & _) end.
  rewrite Hrun. cbn [final]. rewrite Hupl.
  pose proof (uploader_after_call_count
                (List.map (record_of retry_mode)
                   (well_formed_lines retry_mode (ledger_lines retry_mode raw)))
                (checkWebConnection (server env) new_uploader).2) as Hcount.
  pose proof (connect_call_count new_uploader) as Hconn.
  rewrite length_map in Hcount. cbn [calls new_uploader length] in Hconn. lia.
Qed.

End Budget.

Section NoNegativeCache.
Context `{PyRuntime} (srv : Server).

(** X26.  Failures are not cached.  A search that fails has asked the
    remote system, leaves both caches as they were, and the next search of
    the same product asks again; likewise an edit page that could not be
    fetched. *)
Theorem failures_are_not_cached (u : Uploader) :
  (forall productFID,
     let r := searchProductOptimized srv productFID u in
     r.1 = false ->
     search_cache r.2 = search_cache u /\ page_cache r.2 = page_cache u /\
     calls r.2 = calls u ++ [Search productFID] /\
     calls (searchProductOptimized srv productFID r.2).2
       = calls r.2 ++ [Search productFID]) /\
  (forall uid,
     let r := getEditPageOptimized srv uid u in
     r.1 = None ->
     search_cache r.2 = search_cache u /\ page_cache r.2 = page_cache u /\
     calls r.2 = calls u ++ [FetchEditPage uid] /\
     calls (getEditPageOptimized srv uid r.2).2 = calls r.2 ++ [FetchEditPage uid]).
Proof.
  split.
  - intros productFID r Hfail. subst r.
    pose proof (search_effect srv productFID u) as [Hpage Hcase]. cbv zeta in *.
    destruct (search_calls_exact srv productFID u) as [Hcalls _].
    destruct (Dict.get productFID (search_cache u)) as [v|] eqn:Hget.
    { destruct Hcase as [Htrue _]. congruence. }
    destruct Hcase as [[_ Hsame]|[Htrue _]]; [|congruence].
    split; [done|]. split; [done|]. split; [done|].
    destruct (search_calls_exact srv productFID
                (searchProductOptimized srv productFID u).2) as [Hnext _].
    by rewrite Hsame, Hget in Hnext.
  - intros uid r Hfail. subst r.
    pose proof (page_effect srv uid u) as [Hsearch Hcase]. cbv zeta in *.
    pose proof (page_calls_exact srv uid u) as Hcalls.
    destruct (Dict.get (EDIT_PREFIX ++ json_str uid) (page_cache u)) as [v|] eqn:Hget.
    { destruct Hcase as [Hsome _]. congruence. }
    destruct Hcase as [[_ Hsame]|(text & Hsome & _)]; [|congruence].
    split; [done|]. split; [done|]. split; [done|].
    pose proof (page_calls_exact srv uid (getEditPageOptimized srv uid u).2) as Hnext.
    by rewrite Hsame, Hget in Hnext.
Qed.

End NoNegativeCache.

(** ** Worked examples *)

(** A retry of a ledger whose only line is marked [success]: nothing is
    contacted, and the run ends as a success. *)
Lemma nothing_to_process_witness :
  let raw := [Py.lit "X1,,,a,b,c,d,e,f,g,h,i,j // success" ++ NEWLINE] in
  let w := final (run demo_env demo_path (Lines raw) true new_worker) in
  calls (uploader w) = [] /\
  last (events w) = Some (Finished true NothingToRetry []).
Proof.
  cbv zeta.
  destruct (nothing_to_process demo_env demo_never_cancelled demo_path
              (Lines [Py.lit "X1,,,a,b,c,d,e,f,g,h,i,j // success" ++ NEWLINE]) true)
    as (Hcalls & _ & _ & _ & Hlast).
  - vm_compute. reflexivity.
  - split; [exact Hcalls | exact Hlast].
Defined.

(** The demo run: three calls for the check, three for each of the two
    well-formed lines. *)
Lemma run_call_budget_witness :
  (length (calls (uploader
     (final (run demo_env demo_path (Lines demo_raw) false new_worker)))) <= 9)%nat.
Proof.
  pose proof (run_call_budget demo_env demo_never_cancelled demo_path demo_raw false)
    as Hbudget.
  cbv zeta in Hbudget.
  assert (Hlines : length (well_formed_lines false (ledger_lines false demo_raw)) = 2%nat)
    by (vm_compute; reflexivity).
  rewrite Hlines in Hbudget. apply Hbudget.
  - vm_compute. discriminate.
  - vm_compute. reflexivity.
Defined.
